(** * EWPM backend: authorization, tenant isolation and resource controllers

    A shallow embedding of the Express/Mongoose code of the EWPM backend:
    the middleware of [src/middleware], the Mongoose models' static and
    instance methods, and the controllers behind the task, project, user,
    permission and audit routes.

    Conventions of the embedding.
    - A MongoDB document, a request body and a JSON response are values of
      [Json]; an object is a finite map from property names to values.
      ObjectIds are modelled by their string form (what [toString()] and the
      JWT payload carry).
    - A collection with a unique key is a finite map from that key to its
      documents; the audit log, which is only ever appended to, is a list.
    - A handler is a function from the request and the database to an
      outcome and the database it leaves behind.  Middleware has the same
      shape and either passes a (possibly extended) request on or answers.
    - [new Date()] is the arrival time carried by the request.
    - Schema validation on [save]/[create] is a parameter [schemaValid] of
      the controllers that write.  Where a controller compares or returns a
      value that the schema has cast (a project's assigned fields, a member's
      [userId], a user's email), the schema type's cast and setters are a
      second parameter, [cast]; the Permission schema's Boolean matrix is
      cast by [castPermissions].
    - A stored document is kept as Mongoose hydrates it, the schema's
      defaults in place; a [save()] of a document that was modified sets
      its [updatedAt] ([timestamps: true]). *)

From Stdlib Require Import ZArith Lia Ascii String.
From stdpp Require Import base strings gmap list.

#[local] Set Warnings "-register-all".
#[local] Open Scope string_scope.

(** ** JSON values and JavaScript idioms *)

Inductive Json : Type :=
| JNull
| JBool (b : bool)
| JNum (n : Z)
| JStr (s : string)
| JArr (l : list Json)
| JObj (o : gmap string Json).

Abbreviation Doc := (gmap string Json).

(** Equality of JSON values is decidable. *)
#[global] Instance Json_eq_dec : EqDecision Json.
Proof.
  refine (fix go (a b : Json) {struct a} : Decision (a = b) :=
    let _ : EqDecision Json := @go in
    match a, b with
    | JNull, JNull => left _
    | JBool x, JBool y => cast_if (decide (x = y))
    | JNum x, JNum y => cast_if (decide (x = y))
    | JStr x, JStr y => cast_if (decide (x = y))
    | JArr x, JArr y => cast_if (decide (x = y))
    | JObj x, JObj y => cast_if (decide (x = y))
    | _, _ => right _
    end); congruence.
Defined.

(** An object literal [{ k1: v1, ... }]. *)
Definition obj (l : list (string * Json)) : Json := JObj (list_to_map l).

(** JavaScript truthiness of a possibly absent value. *)
Definition truthy (v : option Json) : bool :=
  match v with
  | None | Some JNull | Some (JBool false) | Some (JStr EmptyString) | Some (JNum 0%Z) => false
  | Some _ => true
  end.

(** Truthiness of a possibly absent string (a header, a query parameter). *)
Definition truthyStr (s : option string) : bool :=
  match s with
  | None | Some EmptyString => false
  | Some _ => true
  end.

(** [a || b] on possibly absent strings. *)
Definition orStr (a b : option string) : option string :=
  if truthyStr a then a else b.

(** [v?.toString()] of an id-valued field (ids are kept in string form), and
    the string a string-valued field holds. *)
Definition idString (v : option Json) : option string :=
  match v with
  | Some (JStr s) => Some s
  | _ => None
  end.

(** [d.k?.toString()] *)
Definition field (k : string) (d : Doc) : option string := idString (d !! k).

(** [o.k] for a value [o] that should be an object ([undefined] otherwise). *)
Definition prop (k : string) (v : option Json) : option Json :=
  match v with
  | Some (JObj o) => o !! k
  | _ => None
  end.

(** [host.split('.')[0]]: the characters before the first dot. *)
Fixpoint firstLabel (host : string) : string :=
  match host with
  | EmptyString => EmptyString
  | String c rest => if Ascii.eqb c "."%char then EmptyString else String c (firstLabel rest)
  end.

(** ** Requests, responses and the database *)

(** The decoded JWT payload that [authenticate] stores in [req.user]
    ([generateTokens]: id, email, role, tenantId). *)
Record Principal := mkPrincipal {
  user_id : string;
  user_email : string;
  user_role : string;
  user_tenantId : option string
}.

(** What the credential verifier (Redis blacklist and [jwt.verify]) makes of
    the Authorization header. *)
Inductive Credential :=
| NoBearer
| Blacklisted
| TokenExpired
| TokenInvalid
| Verified (p : Principal).

Record Request := mkRequest {
  req_credential : Credential;
  req_ip : string;
  req_headers : gmap string string;
  req_query : gmap string string;
  req_page : option nat;          (* req.query.page, as a number *)
  req_limit : option nat;         (* req.query.limit, as a number *)
  req_startDate : option Z;       (* new Date(req.query.startDate) *)
  req_endDate : option Z;         (* new Date(req.query.endDate) *)
  req_params : gmap string string;
  req_body : Doc;
  req_user : option Principal;    (* set by authenticate *)
  req_tenantId : option string;   (* set by resolveTenant *)
  req_queryFilter : Doc;          (* set by tenantScope *)
  req_now : Z                     (* new Date() while the request is handled *)
}.

Definition withUser (p : Principal) (r : Request) : Request :=
  mkRequest (req_credential r) (req_ip r) (req_headers r) (req_query r) (req_page r) (req_limit r)
            (req_startDate r) (req_endDate r)
            (req_params r) (req_body r) (Some p) (req_tenantId r) (req_queryFilter r) (req_now r).

Definition withTenantId (t : string) (r : Request) : Request :=
  mkRequest (req_credential r) (req_ip r) (req_headers r) (req_query r) (req_page r) (req_limit r)
            (req_startDate r) (req_endDate r)
            (req_params r) (req_body r) (req_user r) (Some t) (req_queryFilter r) (req_now r).

Definition withQueryFilter (f : Doc) (r : Request) : Request :=
  mkRequest (req_credential r) (req_ip r) (req_headers r) (req_query r) (req_page r) (req_limit r)
            (req_startDate r) (req_endDate r)
            (req_params r) (req_body r) (req_user r) (req_tenantId r) f (req_now r).

Definition withBody (b : Doc) (r : Request) : Request :=
  mkRequest (req_credential r) (req_ip r) (req_headers r) (req_query r) (req_page r) (req_limit r)
            (req_startDate r) (req_endDate r)
            (req_params r) b (req_user r) (req_tenantId r) (req_queryFilter r) (req_now r).

(** [res.status(s).json(body)]; [next(error)] handing an exception to the
    application's error handler; or neither. *)
Inductive Outcome :=
| Respond (status : nat) (body : Json)
| NextError (error : string)
| NoResponse.                     (* the handler returned without answering *)

(** [{ success: false, message }] *)
Definition failure (message : string) : Json :=
  obj [("success", JBool false); ("message", JStr message)].

Record Db := mkDb {
  users : gmap string Doc;        (* User, by _id *)
  projects : gmap string Doc;     (* Project, by _id *)
  tasks : gmap string Doc;        (* Task, by _id *)
  permissions : gmap string Doc;  (* Permission, by userId (unique index) *)
  auditLogs : list Doc            (* AuditLog, newest first *)
}.

Definition setUsers (u : gmap string Doc) (db : Db) : Db :=
  mkDb u (projects db) (tasks db) (permissions db) (auditLogs db).
Definition setProjects (p : gmap string Doc) (db : Db) : Db :=
  mkDb (users db) p (tasks db) (permissions db) (auditLogs db).
Definition setTasks (t : gmap string Doc) (db : Db) : Db :=
  mkDb (users db) (projects db) t (permissions db) (auditLogs db).
Definition setPermissions (p : gmap string Doc) (db : Db) : Db :=
  mkDb (users db) (projects db) (tasks db) p (auditLogs db).
Definition setAuditLogs (l : list Doc) (db : Db) : Db :=
  mkDb (users db) (projects db) (tasks db) (permissions db) l.

(** Middleware either calls [next()] with the request as it left it, or
    answers. *)
Inductive Flow :=
| Next (req : Request)
| Stop (o : Outcome).

Definition Middleware := Request -> Db -> Flow * Db.
Definition Handler := Request -> Db -> Outcome * Db.

(** A route: the middleware registered before the controller, in order. *)
Fixpoint route (chain : list Middleware) (h : Handler) (req : Request) (db : Db)
  : Outcome * Db :=
  match chain with
  | [] => h req db
  | m :: rest =>
      match m req db with
      | (Next req', db') => route rest h req' db'
      | (Stop o, db') => (o, db')
      end
  end.

(** ** src/middleware/auth.middleware.js *)

Definition authenticate : Middleware := fun req db =>
  match req_credential req with
  | NoBearer => (Stop (Respond 401 (failure "No token provided, authorization denied")), db)
  | Blacklisted => (Stop (Respond 401 (failure "Token has been revoked")), db)
  | TokenExpired => (Stop (Respond 401 (failure "Token expired")), db)
  | TokenInvalid => (Stop (Respond 401 (failure "Invalid token")), db)
  | Verified p => (Next (withUser p req), db)
  end.

Definition authorize (roles : list string) : Middleware := fun req db =>
  match req_user req with
  | None => (Stop (Respond 401 (failure "Unauthorized")), db)
  | Some u =>
      if bool_decide (user_role u ∈ roles) then (Next req, db)
      else (Stop (Respond 403 (failure "Access denied. Insufficient permissions.")), db)
  end.

(** ** src/middleware/tenant.middleware.js *)

(** The tenant id [resolveTenant] settles on: header, then query, then the
    first label of the host, then the authenticated user's tenant; [None]
    when every candidate is falsy. *)
Definition resolvedTenant (req : Request) : option string :=
  let tenantId :=
    orStr (req_headers req !! "x-tenant-id")
      (orStr (req_query req !! "tenantId") (firstLabel <$> req_headers req !! "host")) in
  let tenantId :=
    match req_user req with
    | Some u => if truthyStr tenantId then tenantId else user_tenantId u
    | None => tenantId
    end in
  if truthyStr tenantId then tenantId else None.

Definition resolveTenant : Middleware := fun req db =>
  match resolvedTenant req with
  | None => (Stop (Respond 400 (failure "Tenant ID is required")), db)
  | Some tenantId =>
      let req := withTenantId tenantId req in
      match req_user req with
      | Some u =>
          if bool_decide (user_tenantId u ≠ Some tenantId)
             && bool_decide (user_role u ≠ "SUPER_ADMIN")
          then (Stop (Respond 403 (failure "Access denied to this tenant")), db)
          else (Next req, db)
      | None => (Next req, db)
      end
  end.

(** [if (req.tenantId) req.queryFilter = { ...req.queryFilter, tenantId: req.tenantId }] *)
Definition tenantScope : Middleware := fun req db =>
  match req_tenantId req with
  | Some t =>
      if truthyStr (Some t)
      then (Next (withQueryFilter (<["tenantId" := JStr t]> (req_queryFilter req)) req), db)
      else (Next req, db)
  | None => (Next req, db)
  end.

(** ** src/middleware/rbac.middleware.js *)

Definition preventSuperAdminTenantWork : Middleware := fun req db =>
  match req_user req with
  | Some u =>
      if bool_decide (user_role u = "SUPER_ADMIN")
      then (Stop (Respond 403 (failure
              "SUPER_ADMIN cannot perform tenant-level operations. Use tenant management instead.")), db)
      else (Next req, db)
  | None => (Next req, db)
  end.

(** [Model.findOne({ _id: id, tenantId })] on a collection keyed by [_id]. *)
Definition findOneInTenant (coll : gmap string Doc) (id tenantId : option string)
  : option Doc :=
  match id with
  | Some i =>
      match coll !! i with
      | Some d => if bool_decide (field "tenantId" d = tenantId) then Some d else None
      | None => None
      end
  | None => None
  end.

(** [Model.findById(id)] *)
Definition findById (coll : gmap string Doc) (id : option string) : option Doc :=
  match id with
  | Some i => coll !! i
  | None => None
  end.

(** [project.managerId?.toString() === id || project.ownerId?.toString() === id] *)
Definition isManager (id : string) (project : Doc) : bool :=
  bool_decide (field "managerId" project = Some id)
  || bool_decide (field "ownerId" project = Some id).

(** [m => m.userId?.toString() === id && m.role === 'LEAD'] *)
Definition isLead (id : string) (m : Json) : bool :=
  bool_decide (idString (prop "userId" (Some m)) = Some id)
  && bool_decide (idString (prop "role" (Some m)) = Some "LEAD").

(** [project.members?.some(...)]; [None] is [undefined] (no array). *)
Definition isLeadMember (id : string) (project : Doc) : option bool :=
  match project !! "members" with
  | Some (JArr ms) => Some (existsb (isLead id) ms)
  | _ => None
  end.

(** [!isManager && !isLeadMember]: the request is not from a manager, owner
    or LEAD member of the project ([!undefined] is [true]). *)
Definition notManaging (id : string) (project : Doc) : bool :=
  negb (isManager id project) && negb (default false (isLeadMember id project)).

Definition restrictToOwnProjects : Middleware := fun req db =>
  match req_user req with
  | Some u =>
      if bool_decide (user_role u = "PROJECT_MANAGER") then
        let projectId :=
          orStr (req_params req !! "id")
            (orStr (field "projectId" (req_body req)) (req_query req !! "projectId")) in
        if truthyStr projectId then
          match findOneInTenant (projects db) projectId (req_tenantId req) with
          | None => (Stop (Respond 404 (failure "Project not found")), db)
          | Some project =>
              if notManaging (user_id u) project
              then (Stop (Respond 403 (failure "You can only manage projects you own or manage")), db)
              else (Next req, db)
          end
        else (Next req, db)
      else (Next req, db)
  | None => (Next req, db)
  end.

Definition restrictToOwnTasks : Middleware := fun req db =>
  match req_user req with
  | Some u =>
      if bool_decide (user_role u = "EMPLOYEE") then
        let taskId := orStr (req_params req !! "id") (field "taskId" (req_body req)) in
        if truthyStr taskId then
          match findOneInTenant (tasks db) taskId (req_tenantId req) with
          | None => (Stop (Respond 404 (failure "Task not found")), db)
          | Some task =>
              if bool_decide (field "assigneeId" task ≠ Some (user_id u))
              then (Stop (Respond 403 (failure "You can only access tasks assigned to you")), db)
              else (Next req, db)
          end
        else (Next req, db)
      else (Next req, db)
  | None => (Next req, db)
  end.

Definition allowedRoles (roles : list string) (message : string) : Middleware := fun req db =>
  match req_user req with
  | Some u =>
      if bool_decide (user_role u ∈ roles) then (Next req, db)
      else (Stop (Respond 403 (failure message)), db)
  | None => (Stop (Respond 403 (failure message)), db)
  end.

Definition canAssignTasks : Middleware :=
  allowedRoles ["SUPER_ADMIN"; "ORG_ADMIN"; "PROJECT_MANAGER"]
    "You do not have permission to assign tasks".

Definition canManageProjects : Middleware :=
  allowedRoles ["SUPER_ADMIN"; "ORG_ADMIN"; "PROJECT_MANAGER"]
    "You do not have permission to manage projects".

Definition canManageUsers : Middleware :=
  allowedRoles ["SUPER_ADMIN"; "ORG_ADMIN"]
    "You do not have permission to manage users".

(** ** Permission model: [getDefaultPermissionsForRole] *)

Definition crud (c r u d : bool) : Json :=
  obj [("create", JBool c); ("read", JBool r); ("update", JBool u); ("delete", JBool d)].

Definition crudAssign (c r u d a : bool) : Json :=
  obj [("create", JBool c); ("read", JBool r); ("update", JBool u); ("delete", JBool d);
       ("assign", JBool a)].

Definition readOnly (r : bool) : Json := obj [("read", JBool r)].

Definition defaultPermissions : gmap string Json :=
  list_to_map [
    ("SUPER_ADMIN", obj [
       ("manageTenants", crud true true true true);
       ("manageUsers", crud true true true true);
       ("manageProjects", crud false false false false);
       ("manageTasks", crudAssign false false false false false);
       ("viewReports", readOnly false);
       ("viewAuditLogs", readOnly true)]);
    ("ORG_ADMIN", obj [
       ("manageTenants", crud false false false false);
       ("manageUsers", crud true true true true);
       ("manageProjects", crud true true true true);
       ("manageTasks", crudAssign true true true true true);
       ("viewReports", readOnly true);
       ("viewAuditLogs", readOnly true)]);
    ("PROJECT_MANAGER", obj [
       ("manageTenants", crud false false false false);
       ("manageUsers", crud false false false false);
       ("manageProjects", crud true true true false);
       ("manageTasks", crudAssign true true true true true);
       ("viewReports", readOnly true);
       ("viewAuditLogs", readOnly false)]);
    ("EMPLOYEE", obj [
       ("manageTenants", crud false false false false);
       ("manageUsers", crud false false false false);
       ("manageProjects", crud false true false false);
       ("manageTasks", crudAssign false true true false false);
       ("viewReports", readOnly false);
       ("viewAuditLogs", readOnly false)])
  ].

(** [defaultPermissions[role] || defaultPermissions.EMPLOYEE].  Roles are the
    values of the User schema's [role] enum; names inherited from
    [Object.prototype] are not roles and are outside this definition. *)
Definition getDefaultPermissionsForRole (role : string) : Json :=
  match defaultPermissions !! role with
  | Some m => m
  | None => default JNull (defaultPermissions !! "EMPLOYEE")
  end.

(** The [permissions] of the Permission schema: per category the operations
    it names, each a Boolean with default [false]. *)
Definition permissionShape : list (string * list string) :=
  [("manageTenants", ["create"; "read"; "update"; "delete"]);
   ("manageUsers", ["create"; "read"; "update"; "delete"]);
   ("manageProjects", ["create"; "read"; "update"; "delete"]);
   ("manageTasks", ["create"; "read"; "update"; "delete"; "assign"]);
   ("viewReports", ["read"]);
   ("viewAuditLogs", ["read"])].

(** Mongoose's Boolean cast: [true], ['true'], [1], ['1'] and ['yes'] are
    [true]; [false], ['false'], [0], ['0'] and ['no'] are [false]; [null]
    stays; anything else is a CastError ([None]). *)
Definition castBoolean (v : Json) : option Json :=
  match v with
  | JBool b => Some (JBool b)
  | JNull => Some JNull
  | JNum n =>
      if bool_decide (n = 1%Z) then Some (JBool true)
      else if bool_decide (n = 0%Z) then Some (JBool false)
      else None
  | JStr s =>
      if bool_decide (s ∈ ["true"; "1"; "yes"]) then Some (JBool true)
      else if bool_decide (s ∈ ["false"; "0"; "no"]) then Some (JBool false)
      else None
  | _ => None
  end.

(** One category of a matrix as a Permission document holds it: the
    operations the schema names, each with the cast of the value given or
    with its default; what the schema does not name is dropped. *)
Definition castCategory (ops : list string) (v : option Json) : option Json :=
  match v with
  | None => Some (obj ((fun op => (op, JBool false)) <$> ops))
  | Some (JObj o) =>
      obj <$> mapM (fun op =>
                      match o !! op with
                      | None => Some (op, JBool false)
                      | Some x => pair op <$> castBoolean x
                      end) ops
  | Some _ => None
  end.

(** A matrix as a Permission document holds it.  A matrix, or a category of
    one, that is not an object is refused here; the embedding does not say
    what Mongoose stores for one. *)
Definition castPermissions (matrix : Json) : option Json :=
  match matrix with
  | JObj m =>
      obj <$> mapM (fun shape : string * list string =>
                      pair shape.1 <$> castCategory shape.2 (m !! shape.1)) permissionShape
  | _ => None
  end.

(** The matrix of a Permission document created without one. *)
Definition noPermissions : Json :=
  obj ((fun shape : string * list string =>
          (shape.1, obj ((fun op => (op, JBool false)) <$> shape.2))) <$> permissionShape).

(** ** Task model: [canTransitionTo] *)

Definition validTransitions : gmap string (list string) :=
  list_to_map [
    ("TODO", ["IN_PROGRESS"; "CANCELLED"]);
    ("IN_PROGRESS", ["IN_REVIEW"; "BLOCKED"; "CANCELLED"]);
    ("IN_REVIEW", ["DONE"; "IN_PROGRESS"]);
    ("DONE", ["IN_PROGRESS"]);
    ("BLOCKED", ["IN_PROGRESS"; "CANCELLED"]);
    ("CANCELLED", [])
  ].

(** [validTransitions[this.status]?.includes(newStatus) || false] *)
Definition canTransitionTo (task : Doc) (newStatus : option Json) : bool :=
  match field "status" task with
  | Some s =>
      match validTransitions !! s with
      | Some targets =>
          match newStatus with
          | Some (JStr n) => bool_decide (n ∈ targets)
          | _ => false
          end
      | None => false
      end
  | None => false
  end.

(** ** Documents and queries *)

(** [populate(path, select)]: the referenced document's selected fields (and
    its [_id]) in place of the id, [null] when there is none. *)
Definition selectFields (fields : list string) (d : Doc) : Doc :=
  list_to_map (omap (fun k => pair k <$> d !! k) ("_id" :: fields)).

Definition populate (path : string) (coll : gmap string Doc) (fields : list string)
  (d : Doc) : Doc :=
  match field path d with
  | Some id =>
      <[path := match coll !! id with
                | Some r => JObj (selectFields fields r)
                | None => JNull
                end]> d
  | None => d
  end.

(** A property that is left out when its value is [undefined]. *)
Definition optField (k : string) (v : option Json) (d : Doc) : Doc :=
  match v with
  | Some x => <[k := x]> d
  | None => d
  end.

(** [v || d] *)
Definition orJson (v : option Json) (d : Json) : Json :=
  if truthy v then default d v else d.

(** [Model.countDocuments(filter)] *)
Definition countDocuments (coll : gmap string Doc) (matches : Doc -> bool) : nat :=
  size (filter (fun kv => matches kv.2 = true) coll).

(** [a === b] for a string-or-undefined [a] and an arbitrary [b]. *)
Definition strictEq (a : option string) (b : option Json) : bool :=
  match b with
  | Some (JStr s) => bool_decide (a = Some s)
  | None => bool_decide (a = None)
  | Some _ => false
  end.

(** The Mongoose models whose documents are validated on write. *)
Inductive Model := UserModel | ProjectModel | TaskModel | PermissionModel | AuditLogModel.

(** [doc.save()] under [timestamps: true]: a document that differs from the
    one that was loaded gets the time of the save as its [updatedAt],
    whatever was assigned to that path; one that does not is left as it is. *)
Definition touched (now : Z) (before after : Doc) : Doc :=
  if bool_decide (after = before) then after else <["updatedAt" := JNum now]> after.

(** The paths of a Project document that an assignment [project[key] = value]
    sets: those of the schema, and [updatedAt]; [createdAt] is immutable.  A
    key of another name becomes a property of the document object, which is
    neither stored nor serialised (strict mode).  The version key and the
    [id] virtual are left out of the embedding. *)
Definition projectPaths : list string :=
  ["name"; "description"; "tenantId"; "ownerId"; "managerId"; "status"; "priority";
   "startDate"; "endDate"; "actualEndDate"; "budget"; "spent"; "members"; "tags"; "settings";
   "updatedAt"].

Section Controllers.

(** [cast model path value]: the value a document of the model holds at the
    path after [value] was assigned to it, as the path's schema type casts
    it and its setters ([trim], [lowercase]) leave it: an ObjectId in its
    canonical string form, a subdocument array entry by entry.  [None] is a
    CastError, which [save()] reports as a ValidationError. *)
Variable cast : Model -> string -> Json -> option Json.

(** Schema validation (required paths, enums, minima, patterns) of a
    document about to be written. *)
Variable schemaValid : Model -> Doc -> bool.

(** ** src/services/audit.service.js *)

(** [createAuditLog(logData)]: a failure to write is logged and swallowed. *)
Definition createAuditLog (now : Z) (logData : Doc) (db : Db) : Db :=
  let auditLog : Doc :=
    optField "tenantId" (logData !! "tenantId")
      (optField "userId" (logData !! "userId")
        (optField "action" (logData !! "action")
          (optField "resourceType" (logData !! "resourceType")
            (optField "resourceId" (logData !! "resourceId")
              (<["changes" := orJson (logData !! "changes") (obj [])]>
                (<["metadata" := orJson (logData !! "metadata") (obj [])]>
                  {["timestamp" := JNum now]})))))) in
  if schemaValid AuditLogModel auditLog
  then setAuditLogs (auditLog :: auditLogs db) db
  else db.

(** The [logData] literal every controller passes: tenant, acting user,
    action, resource and change set, with the request's IP and user agent. *)
Definition logData (tenantId : option string) (userId action resourceType : string)
  (resourceId : option Json) (changes : Json) (req : Request) : Doc :=
  optField "tenantId" (JStr <$> tenantId)
    (optField "resourceId" resourceId
      (list_to_map [
         ("userId", JStr userId);
         ("action", JStr action);
         ("resourceType", JStr resourceType);
         ("changes", changes);
         ("metadata", JObj (optField "userAgent" (JStr <$> req_headers req !! "user-agent")
                              {["ipAddress" := JStr (req_ip req)]}))])).

(** ** Task controller *)

Definition updateTaskStatus : Handler := fun req db =>
  let status := req_body req !! "status" in
  match findOneInTenant (tasks db) (req_params req !! "id") (req_tenantId req),
        req_params req !! "id" with
  | Some task, Some id =>
      let gate :=
        match req_user req with
        | Some u =>
            if bool_decide (user_role u = "EMPLOYEE") then
              if bool_decide (field "assigneeId" task ≠ Some (user_id u))
              then Some (Respond 403 (failure "You can only update status of tasks assigned to you"))
              else None
            else if bool_decide (user_role u = "PROJECT_MANAGER") then
              match findById (projects db) (field "projectId" task) with
              | Some project =>
                  if notManaging (user_id u) project
                  then Some (Respond 403 (failure
                               "You can only update status of tasks in projects you manage"))
                  else None
              | None => None
              end
            else None
        | None => None
        end in
      match gate with
      | Some denied => (denied, db)
      | None =>
          (* the transition check is commented out in the source *)
          let before := task in
          let oldStatus := field "status" task in
          let task :=
            match status with
            | Some s => <["status" := s]> task
            | None => delete "status" task
            end in
          if schemaValid TaskModel task then
            let task := touched (req_now req) before task in
            let db := setTasks (<[id := task]> (tasks db)) db in
            let task := populate "projectId" (projects db)
                          ["name"; "managerId"; "ownerId"; "members"] task in
            let task := populate "assigneeId" (users db)
                          ["firstName"; "lastName"; "email"] task in
            match req_user req with
            | None => (NextError "TypeError", db)
            | Some u =>
                let db :=
                  createAuditLog (req_now req)
                    (logData (req_tenantId req) (user_id u) "UPDATE" "TASK" (task !! "_id")
                       (obj [("before", JObj before); ("after", JObj task)]) req) db in
                if bool_decide (user_role u = "EMPLOYEE") && negb (strictEq oldStatus status)
                then
                  (* notification of the project's manager and owner *)
                  match users db !! user_id u with
                  | None => (NoResponse, db)
                  | Some _ => (Respond 200 (obj [("success", JBool true); ("data", JObj task)]), db)
                  end
                else (Respond 200 (obj [("success", JBool true); ("data", JObj task)]), db)
            end
          else (NextError "ValidationError", db)
      end
  | _, _ => (Respond 404 (failure "Task not found"), db)
  end.

Definition deleteTask : Handler := fun req db =>
  match findOneInTenant (tasks db) (req_params req !! "id") (req_tenantId req),
        req_params req !! "id" with
  | Some task, Some id =>
      let gate :=
        match req_user req with
        | Some u =>
            if bool_decide (user_role u = "PROJECT_MANAGER") then
              match findById (projects db) (field "projectId" task) with
              | Some project =>
                  if notManaging (user_id u) project
                  then Some (Respond 403 (failure "You can only delete tasks in projects you manage"))
                  else None
              | None => None
              end
            else None
        | None => None
        end in
      match gate with
      | Some denied => (denied, db)
      | None =>
          let before := task in
          let db := setTasks (delete id (tasks db)) db in
          match req_user req with
          | None => (NextError "TypeError", db)
          | Some u =>
              let db :=
                createAuditLog (req_now req)
                  (logData (req_tenantId req) (user_id u) "DELETE" "TASK" (task !! "_id")
                     (obj [("before", JObj before)]) req) db in
              (Respond 200 (obj [("success", JBool true);
                                 ("message", JStr "Task deleted successfully")]), db)
          end
      end
  | _, _ => (Respond 404 (failure "Task not found"), db)
  end.


(** ** Project controller *)

(** [m.userId?.toString() || m.userId.toString()] over the members;
    [None] is the TypeError raised for a member without a [userId]. *)
Definition memberIds (members : list Json) : option (list string) :=
  mapM (fun m => idString (prop "userId" (Some m))) members.

(** [member => ({ userId: member.userId || member, role: member.role || 'MEMBER',
                  joinedAt: member.joinedAt || new Date() })];
    [None] is the TypeError raised when [member] is [null]. *)
Definition toMember (now : Z) (member : Json) : option Json :=
  match member with
  | JNull => None
  | _ =>
      Some (obj [("userId", orJson (prop "userId" (Some member)) member);
                 ("role", orJson (prop "role" (Some member)) (JStr "MEMBER"));
                 ("joinedAt", orJson (prop "joinedAt" (Some member)) (JNum now))])
  end.

(** [if (key !== 'tenantId' && key !== 'ownerId' && key !== '_id')
      project[key] = req.body[key]]: a path of the document takes the cast
    of the value, a key of another name leaves the document as it is.
    [None] is a CastError on the way. *)
Definition assignField (key : string) (value : Json) (project : option Doc) : option Doc :=
  match project with
  | Some project =>
      if bool_decide (key ≠ "tenantId") && bool_decide (key ≠ "ownerId")
         && bool_decide (key ≠ "_id")
      then
        if bool_decide (key ∈ projectPaths) then
          match cast ProjectModel key value with
          | Some stored => Some (<[key := stored]> project)
          | None => None
          end
        else Some project
      else Some project
  | None => None
  end.

(** [Object.keys(req.body).forEach(key => { ... })] *)
Definition assignFields (body project : Doc) : option Doc :=
  map_fold assignField (Some project) body.

(** [project.members ? project.members.map(...) : []]: the ids of the
    members before the update. *)
Definition oldMembers (project : Doc) : option (list string) :=
  match project !! "members" with
  | Some (JArr ms) => memberIds ms
  | _ => Some []
  end.

(** [if (req.body.members && Array.isArray(req.body.members)) { ... }]: a
    supplied members array replaces the project's list, each entry passing
    through [toMember] and the list through the schema's cast, and leaves
    the body; the new list's ids are then read for the notifications.  On
    the left is the error met on the way: a TypeError, or the
    ValidationError [save()] makes of a CastError. *)
Definition replaceMembers (now : Z) (body project : Doc) : string + Doc * Doc :=
  match body !! "members" with
  | Some (JArr ms) =>
      match mapM (toMember now) ms with
      | Some members =>
          match cast ProjectModel "members" (JArr members) with
          | Some (JArr stored) =>
              match memberIds stored with
              | Some _ => inr (<["members" := JArr stored]> project, delete "members" body)
              | None => inl "TypeError"
              end
          | Some _ => inl "TypeError"
          | None => inl "ValidationError"
          end
      | None => inl "TypeError"
      end
  | _ => inr (project, body)
  end.

Definition updateProject : Handler := fun req db =>
  match findOneInTenant (projects db) (req_params req !! "id") (req_tenantId req),
        req_params req !! "id" with
  | Some project, Some id =>
      let before := project in
      match oldMembers project with
      | None => (NextError "TypeError", db)
      | Some oldMembers =>
          match replaceMembers (req_now req) (req_body req) project with
          | inl error => (NextError error, db)
          | inr (project, body) =>
              match assignFields body project with
              | None => (NextError "ValidationError", db)
              | Some project =>
                  if schemaValid ProjectModel project then
                    let project := touched (req_now req) before project in
                    let db := setProjects (<[id := project]> (projects db)) db in
                    match req_user req with
                    | None => (NextError "TypeError", db)
                    | Some u =>
                        let db :=
                          createAuditLog (req_now req)
                            (logData (req_tenantId req) (user_id u) "UPDATE" "PROJECT"
                               (project !! "_id")
                               (obj [("before", JObj before); ("after", JObj project)]) req)
                            db in
                        (* notifications to the newly added members follow *)
                        (Respond 200 (obj [("success", JBool true); ("data", JObj project)]),
                         db)
                    end
                  else (NextError "ValidationError", db)
              end
          end
      end
  | _, _ => (Respond 404 (failure "Project not found"), db)
  end.

Definition deleteProject : Handler := fun req db =>
  match findOneInTenant (projects db) (req_params req !! "id") (req_tenantId req),
        req_params req !! "id" with
  | Some project, Some id =>
      let taskCount :=
        countDocuments (tasks db)
          (fun t => bool_decide (field "projectId" t = field "_id" project)) in
      if Nat.ltb 0 taskCount then
        (Respond 400 (failure "Cannot delete project with existing tasks"), db)
      else
        let before := project in
        let db := setProjects (delete id (projects db)) db in
        match req_user req with
        | None => (NextError "TypeError", db)
        | Some u =>
            let db :=
              createAuditLog (req_now req)
                (logData (req_tenantId req) (user_id u) "DELETE" "PROJECT" (project !! "_id")
                   (obj [("before", JObj before)]) req) db in
            (Respond 200 (obj [("success", JBool true);
                               ("message", JStr "Project deleted successfully")]), db)
        end
  | _, _ => (Respond 404 (failure "Project not found"), db)
  end.


(** ** User controller *)

(** [User.findOne(query)] with [query = { _id, tenantId }] and, for an
    ORG_ADMIN, [query.role = { $ne: 'SUPER_ADMIN' }]. *)
Definition findUser (req : Request) (db : Db) : option Doc :=
  match findOneInTenant (users db) (req_params req !! "id") (req_tenantId req) with
  | Some user =>
      match req_user req with
      | Some u =>
          if bool_decide (user_role u = "ORG_ADMIN")
             && bool_decide (field "role" user = Some "SUPER_ADMIN")
          then None
          else Some user
      | None => Some user
      end
  | None => None
  end.

(** [select('-password -refreshToken')] and the schema's [toJSON] transform. *)
Definition withoutSecrets (user : Doc) : Doc :=
  delete "refreshToken" (delete "password" user).

(** [req.user && req.user.role === 'ORG_ADMIN' && role === 'SUPER_ADMIN'] *)
Definition orgAdminAssignsSuperAdmin (req : Request) (role : option Json) : bool :=
  match req_user req with
  | Some u => bool_decide (user_role u = "ORG_ADMIN") && strictEq (Some "SUPER_ADMIN") role
  | None => false
  end.

Definition getUserById : Handler := fun req db =>
  match findUser req db with
  | None => (Respond 404 (failure "User not found"), db)
  | Some user =>
      (Respond 200 (obj [("success", JBool true); ("data", JObj (withoutSecrets user))]), db)
  end.

(** [save()] of a user found under [id], followed by the audit record and
    the answer; the pre-save password hashing is left to the ORM. *)
Definition saveUser (req : Request) (db : Db) (id : string) (before user : Doc)
  : Outcome * Db :=
  if schemaValid UserModel user then
    let user := touched (req_now req) before user in
    let db := setUsers (<[id := user]> (users db)) db in
    match req_user req with
    | None => (NextError "TypeError", db)
    | Some u =>
        let db :=
          createAuditLog (req_now req)
            (logData (req_tenantId req) (user_id u) "UPDATE" "USER" (user !! "_id")
               (obj [("before", JObj before); ("after", JObj user)]) req) db in
        (Respond 200 (obj [("success", JBool true); ("data", JObj (withoutSecrets user))]), db)
    end
  else (NextError "ValidationError", db).

Definition updateUser : Handler := fun req db =>
  match findUser req db, req_params req !! "id" with
  | Some user, Some id =>
      if orgAdminAssignsSuperAdmin req (req_body req !! "role") then
        (Respond 403 (failure "You do not have permission to assign SUPER_ADMIN role"), db)
      else
        (* Object.assign(user, req.body) *)
        saveUser req db id user (req_body req ∪ user)
  | _, _ => (Respond 404 (failure "User not found"), db)
  end.

Definition deleteUser : Handler := fun req db =>
  match findUser req db, req_params req !! "id" with
  | Some user, Some id =>
      let before := user in
      let db := setUsers (delete id (users db)) db in
      match req_user req with
      | None => (NextError "TypeError", db)
      | Some u =>
          let db :=
            createAuditLog (req_now req)
              (logData (req_tenantId req) (user_id u) "DELETE" "USER" (user !! "_id")
                 (obj [("before", JObj before)]) req) db in
          (Respond 200 (obj [("success", JBool true);
                             ("message", JStr "User deleted successfully")]), db)
      end
  | _, _ => (Respond 404 (failure "User not found"), db)
  end.

Definition updateUserRole : Handler := fun req db =>
  let role := req_body req !! "role" in
  match findUser req db, req_params req !! "id" with
  | Some user, Some id =>
      if orgAdminAssignsSuperAdmin req role then
        (Respond 403 (failure "You do not have permission to assign SUPER_ADMIN role"), db)
      else
        saveUser req db id user
          match role with
          | Some r => <["role" := r]> user
          | None => delete "role" user
          end
  | _, _ => (Respond 404 (failure "User not found"), db)
  end.

(** ** Permission controller *)

(** [user.role] as the property name [getDefaultPermissionsForRole] looks
    up: a missing role reads as the name [undefined]. *)
Definition roleOf (user : Doc) : string := default "undefined" (field "role" user).

(** [Permission.findOne({ userId, isActive: true })] *)
Definition findActivePermission (db : Db) (userId : string) : option Doc :=
  match permissions db !! userId with
  | Some p => if truthy (p !! "isActive") then Some p else None
  | None => None
  end.

(** [Permission.findOneAndUpdate({ userId, isActive: true },
      { permissions, updatedAt: new Date() },
      { new: true, upsert: true, runValidators: true })].
    The record of a user matches when it is active; when the user has none,
    one is inserted; an inactive record makes the insert collide with the
    unique index on [userId].  The matrix is stored as the schema casts it,
    an [undefined] one leaving the record's as it is.  [None] is the
    exception raised. *)
Definition upsertPermission (userId : string) (perms : option Json) (now : Z) (db : Db)
  : option (Doc * Db) :=
  let update (p : Doc) : option Doc :=
    match perms with
    | Some matrix =>
        (fun m => <["updatedAt" := JNum now]> (<["permissions" := m]> p))
          <$> castPermissions matrix
    | None => Some (<["updatedAt" := JNum now]> p)
    end in
  let stored :=
    match permissions db !! userId with
    | Some p => if truthy (p !! "isActive") then update p else None
    | None =>
        update (list_to_map [("userId", JStr userId); ("isActive", JBool true);
                             ("permissions", noPermissions); ("createdAt", JNum now)])
    end in
  match stored with
  | Some p =>
      if schemaValid PermissionModel p
      then Some (p, setPermissions (<[userId := p]> (permissions db)) db)
      else None
  | None => None
  end.

(** The ORG_ADMIN scope checks shared by the three per-user operations:
    the target must be a PROJECT_MANAGER or EMPLOYEE of the caller's tenant. *)
Definition orgAdminScope (u : Principal) (req : Request) (user : Doc)
  (roleMessage tenantMessage : string) : option Outcome :=
  if bool_decide (user_role u = "ORG_ADMIN") then
    if bool_decide (field "role" user ≠ Some "PROJECT_MANAGER")
       && bool_decide (field "role" user ≠ Some "EMPLOYEE")
    then Some (Respond 403 (failure roleMessage))
    else if bool_decide (field "tenantId" user ≠ req_tenantId req)
    then Some (Respond 403 (failure tenantMessage))
    else None
  else None.

(** The answer after a successful update or reset: the stored matrix with
    the target's public fields.  The socket server is taken to be
    initialised; building the notification reads the acting user's record
    and throws, after the write, when there is none. *)
Definition permissionAnswer (u : Principal) (user updated : Doc) (message : string)
  (db : Db) : Outcome :=
  let userInfo := selectFields ["firstName"; "lastName"; "email"; "role"; "tenantId"] user in
  match users db !! user_id u with
  | Some updatedByUser =>
      Respond 200 (obj [("success", JBool true);
                        ("data", JObj (optField "userId" (updated !! "userId")
                                         (optField "permissions" (updated !! "permissions")
                                            {["user" := JObj userInfo]})));
                        ("message", JStr message)])
  | None => NextError "TypeError"
  end.

Definition getUserPermissions : Handler := fun req db =>
  match req_params req !! "userId" with
  | None => (Respond 404 (failure "User not found"), db)
  | Some userId =>
      match users db !! userId, req_user req with
      | None, _ => (Respond 404 (failure "User not found"), db)
      | Some _, None => (NextError "TypeError", db)
      | Some user, Some u =>
          match orgAdminScope u req user
                  "You can only view permissions for PROJECT_MANAGER and EMPLOYEE users"
                  "You can only view permissions for users in your tenant" with
          | Some denied => (denied, db)
          | None =>
              match findActivePermission db userId with
              | None =>
                  let defaultPermissions :=
                    getDefaultPermissionsForRole (roleOf user) in
                  (Respond 200 (obj [("success", JBool true);
                     ("data", obj [("userId", JStr userId);
                                   ("user", JObj (selectFields ["role"; "tenantId"] user));
                                   ("permissions", defaultPermissions);
                                   ("isDefault", JBool true)])]), db)
              | Some permission =>
                  (Respond 200 (obj [("success", JBool true);
                     ("data", JObj (optField "userId" (permission !! "userId")
                                (optField "permissions" (permission !! "permissions")
                                   (list_to_map [
                                      ("user", JObj (selectFields
                                         ["firstName"; "lastName"; "email"; "role"; "tenantId"]
                                         user));
                                      ("isDefault", JBool false)]))))]), db)
              end
          end
      end
  end.

Definition updateUserPermissions : Handler := fun req db =>
  let perms := req_body req !! "permissions" in
  match req_params req !! "userId" with
  | None => (Respond 404 (failure "User not found"), db)
  | Some userId =>
      match users db !! userId, req_user req with
      | None, _ => (Respond 404 (failure "User not found"), db)
      | Some _, None => (NextError "TypeError", db)
      | Some user, Some u =>
          match orgAdminScope u req user
                  "You can only manage permissions for PROJECT_MANAGER and EMPLOYEE users"
                  "You can only manage permissions for users in your tenant" with
          | Some denied => (denied, db)
          | None =>
              (* SUPER_ADMIN cannot update their own permissions (security) *)
              if bool_decide (user_role u = "SUPER_ADMIN") && bool_decide (userId = user_id u)
              then (Respond 403 (failure "Cannot modify your own permissions"), db)
              (* ORG_ADMIN cannot update their own permissions *)
              else if bool_decide (user_role u = "ORG_ADMIN") && bool_decide (userId = user_id u)
              then (Respond 403 (failure "Cannot modify your own permissions"), db)
              else
                match upsertPermission userId perms (req_now req) db with
                | None => (NextError "MongooseError", db)
                | Some (updatedPermission, db) =>
                    (permissionAnswer u user updatedPermission
                       "Permissions updated successfully" db, db)
                end
          end
      end
  end.

Definition resetUserPermissions : Handler := fun req db =>
  match req_params req !! "userId" with
  | None => (Respond 404 (failure "User not found"), db)
  | Some userId =>
      match users db !! userId, req_user req with
      | None, _ => (Respond 404 (failure "User not found"), db)
      | Some _, None => (NextError "TypeError", db)
      | Some user, Some u =>
          match orgAdminScope u req user
                  "You can only reset permissions for PROJECT_MANAGER and EMPLOYEE users"
                  "You can only reset permissions for users in your tenant" with
          | Some denied => (denied, db)
          | None =>
              let defaultPermissions :=
                getDefaultPermissionsForRole (roleOf user) in
              match upsertPermission userId (Some defaultPermissions) (req_now req) db with
              | None => (NextError "MongooseError", db)
              | Some (updatedPermission, db) =>
                  (permissionAnswer u user updatedPermission
                     "Permissions reset to defaults successfully" db, db)
              end
          end
      end
  end.


End Controllers.

(** ** Audit controller *)

Definition timestampOf (log : Doc) : Z :=
  match log !! "timestamp" with
  | Some (JNum t) => t
  | _ => 0%Z
  end.

(** [sort({ timestamp: -1 })] *)
Fixpoint insertByTimestamp (x : Doc) (l : list Doc) : list Doc :=
  match l with
  | [] => [x]
  | y :: l' =>
      if (timestampOf y <? timestampOf x)%Z then x :: l
      else y :: insertByTimestamp x l'
  end.

Definition newestFirst (l : list Doc) : list Doc := foldr insertByTimestamp [] l.

(** [limit(limit * 1).skip((page - 1) * limit)]; a limit of 0 is no limit.
    Pages are counted from 1: the page and the limit are the natural
    numbers the query string gives, and a page of 0, for which the code
    asks MongoDB to skip a negative number, is outside the embedding. *)
Definition paginate (page limit : nat) (l : list Doc) : list Doc :=
  let skipped := drop ((page - 1) * limit) l in
  if Nat.eqb limit 0 then skipped else take limit skipped.

(** [{ page, limit, total, pages: Math.ceil(total / limit) }]; a division
    by zero serialises as [null]. *)
Definition pagination (page limit total : nat) : Json :=
  obj [("page", JNum (Z.of_nat page));
       ("limit", JNum (Z.of_nat limit));
       ("total", JNum (Z.of_nat total));
       ("pages", if Nat.eqb limit 0 then JNull
                 else JNum (Z.of_nat ((total + limit - 1) / limit)))].

(** [User.find({ role: 'SUPER_ADMIN' }).select('_id')] mapped to the ids. *)
Definition superAdminIds (db : Db) : list string :=
  (map_to_list (filter (fun kv => field "role" kv.2 = Some "SUPER_ADMIN") (users db))).*1.

(** The conditions both queries of [getAuditLogs] start from: tenant, and
    the action, resource type and date range when given. *)
Definition auditBaseQuery (req : Request) (log : Doc) : bool :=
  bool_decide (field "tenantId" log = req_tenantId req)
  && (if truthyStr (req_query req !! "action")
      then bool_decide (field "action" log = req_query req !! "action") else true)
  && (if truthyStr (req_query req !! "resourceType")
      then bool_decide (field "resourceType" log = req_query req !! "resourceType") else true)
  && match req_startDate req with
     | Some d => (d <=? timestampOf log)%Z
     | None => true
     end
  && match req_endDate req with
     | Some d => (timestampOf log <=? d)%Z
     | None => true
     end.

(** [query]: [userId] as filtered, then the [$nin] of the super admins. *)
Definition auditQuery (req : Request) (ids : list string) (log : Doc) : bool :=
  let userId := req_query req !! "userId" in
  auditBaseQuery req log
  && (if Nat.ltb 0 (length ids) then
        if truthyStr userId
        then bool_decide (field "userId" log = userId)
             && negb (bool_decide (field "userId" log ∈ Some <$> ids))
        else negb (bool_decide (field "userId" log ∈ Some <$> ids))
      else
        if truthyStr userId then bool_decide (field "userId" log = userId) else true).

(** [countQuery]: the same exclusion, rebuilt for the count. *)
Definition auditCountQuery (req : Request) (ids : list string) (log : Doc) : bool :=
  let userId := req_query req !! "userId" in
  auditBaseQuery req log
  && (if Nat.ltb 0 (length ids) then
        if truthyStr userId
        then bool_decide (field "userId" log = userId)
             && negb (bool_decide (field "userId" log ∈ Some <$> ids))
        else negb (bool_decide (field "userId" log ∈ Some <$> ids))
      else if truthyStr userId then bool_decide (field "userId" log = userId)
      else true).

Definition listing (logs : list Doc) (page limit total : nat) : Outcome :=
  Respond 200 (obj [("success", JBool true);
                    ("data", JArr (JObj <$> logs));
                    ("pagination", pagination page limit total)]).

Definition getAuditLogs : Handler := fun req db =>
  let page := default 1 (req_page req) in
  let limit := default 50 (req_limit req) in
  let ids := superAdminIds db in
  let logs :=
    populate "userId" (users db) ["firstName"; "lastName"; "email"; "role"]
      <$> paginate page limit (newestFirst (filter (fun l => auditQuery req ids l = true)
                                              (auditLogs db))) in
  (* a second guard on the populated author's role *)
  let filteredLogs :=
    filter (fun log => idString (prop "role" (log !! "userId")) ≠ Some "SUPER_ADMIN") logs in
  let total := length (filter (fun l => auditCountQuery req ids l = true) (auditLogs db)) in
  (listing filteredLogs page limit total, db).

Definition getUserAuditLogs : Handler := fun req db =>
  let page := default 1 (req_page req) in
  let limit := default 50 (req_limit req) in
  let matches (log : Doc) :=
    bool_decide (field "tenantId" log = req_tenantId req)
    && bool_decide (field "userId" log = req_params req !! "userId") in
  let logs :=
    populate "userId" (users db) ["firstName"; "lastName"; "email"]
      <$> paginate page limit (newestFirst (filter (fun l => matches l = true) (auditLogs db))) in
  let total := length (filter (fun l => matches l = true) (auditLogs db)) in
  (listing logs page limit total, db).

(** ** Routers *)

(** [router.use(...)] of the task, project, report and audit routers. *)
Definition tenantWorkRouter : list Middleware :=
  [authenticate; resolveTenant; tenantScope; preventSuperAdminTenantWork].

Definition taskRouter : list Middleware := tenantWorkRouter.
Definition projectRouter : list Middleware := tenantWorkRouter.
Definition reportRouter : list Middleware := tenantWorkRouter.
Definition auditRouter : list Middleware := tenantWorkRouter.

(** [router.use(...)] of the user router. *)
Definition userRouter : list Middleware := [authenticate; resolveTenant; tenantScope].

(** [router.use(...)] of the permission router: the tenant is resolved for
    an ORG_ADMIN only. *)
Definition permissionRouter : list Middleware :=
  [authenticate;
   fun req db =>
     match req_user req with
     | Some u =>
         if bool_decide (user_role u = "ORG_ADMIN") then resolveTenant req db
         else (Next req, db)
     | None => (Stop (NextError "TypeError"), db)
     end].

Section Routes.

Variable cast : Model -> string -> Json -> option Json.
Variable schemaValid : Model -> Doc -> bool.

(** task.routes.js *)
Definition DELETE_tasks_id : Handler :=
  route (taskRouter ++ [authorize ["ORG_ADMIN"; "PROJECT_MANAGER"]]) (deleteTask schemaValid).
Definition PATCH_tasks_id_status : Handler :=
  route (taskRouter ++ [restrictToOwnTasks]) (updateTaskStatus schemaValid).

(** project.routes.js *)
Definition PUT_projects_id : Handler :=
  route (projectRouter ++ [authorize ["ORG_ADMIN"; "PROJECT_MANAGER"]; restrictToOwnProjects])
        (updateProject cast schemaValid).
Definition DELETE_projects_id : Handler :=
  route (projectRouter ++ [authorize ["ORG_ADMIN"]]) (deleteProject schemaValid).

(** user.routes.js *)
Definition GET_users_id : Handler := route userRouter getUserById.
Definition PUT_users_id : Handler :=
  route (userRouter ++ [authorize ["SUPER_ADMIN"; "ORG_ADMIN"]]) (updateUser schemaValid).
Definition DELETE_users_id : Handler :=
  route (userRouter ++ [authorize ["SUPER_ADMIN"; "ORG_ADMIN"]]) (deleteUser schemaValid).
Definition PUT_users_id_role : Handler :=
  route (userRouter ++ [authorize ["SUPER_ADMIN"; "ORG_ADMIN"]]) (updateUserRole schemaValid).

(** permission.routes.js *)
Definition GET_permissions_user : Handler :=
  route (permissionRouter ++ [authorize ["SUPER_ADMIN"; "ORG_ADMIN"]]) getUserPermissions.
Definition PUT_permissions_user : Handler :=
  route (permissionRouter ++ [authorize ["SUPER_ADMIN"; "ORG_ADMIN"]])
        (updateUserPermissions schemaValid).
Definition POST_permissions_user_reset : Handler :=
  route (permissionRouter ++ [authorize ["SUPER_ADMIN"; "ORG_ADMIN"]])
        (resetUserPermissions schemaValid).

(** audit.routes.js *)
Definition GET_audit : Handler := route (auditRouter ++ [authorize ["ORG_ADMIN"]]) getAuditLogs.
Definition GET_audit_user : Handler :=
  route (auditRouter ++ [authorize ["ORG_ADMIN"]]) getUserAuditLogs.

End Routes.

(** ** Reading an outcome *)

Definition statusOf (o : Outcome) : option nat :=
  match o with
  | Respond s _ => Some s
  | _ => None
  end.

Definition messageOf (o : Outcome) : option string :=
  match o with
  | Respond _ b => idString (prop "message" (Some b))
  | _ => None
  end.

Definition dataOf (o : Outcome) : option Json :=
  match o with
  | Respond _ b => prop "data" (Some b)
  | _ => None
  end.

(** ** The schemas' required paths and enums

    A validator read off the model files: the paths marked [required] and
    the [enum] lists of the User, Project, Task, Permission and AuditLog
    schemas, and the [match] and [minlength] of the User schema. *)

Definition inEnum (k : string) (values : list string) (d : Doc) : bool :=
  match d !! k with
  | None => true
  | Some (JStr s) => bool_decide (s ∈ values)
  | Some _ => false
  end.
Definition required (ks : list string) (d : Doc) : bool :=
  forallb (fun k => truthy (d !! k)) ks.

(** [minlength] of a String path. *)
Definition minLength (k : string) (n : nat) (d : Doc) : bool :=
  match d !! k with
  | Some (JStr s) => Nat.leb n (String.length s)
  | _ => true
  end.

(** [\s] on ASCII, which the strings of the embedding are taken to be. *)
Definition isSpace (c : ascii) : bool :=
  bool_decide (nat_of_ascii c ∈ [9; 10; 11; 12; 13; 32]).

Fixpoint noSpace (s : string) : bool :=
  match s with
  | EmptyString => true
  | String c rest => negb (isSpace c) && noSpace rest
  end.

(** The characters after the first [c], if there is one. *)
Fixpoint afterFirst (c : ascii) (s : string) : option string :=
  match s with
  | EmptyString => None
  | String c' rest => if Ascii.eqb c' c then Some rest else afterFirst c rest
  end.

(** A dot that is not the last character. *)
Fixpoint dotInside (s : string) : bool :=
  match s with
  | EmptyString => false
  | String c rest =>
      (Ascii.eqb c "."%char && negb (String.eqb rest EmptyString)) || dotInside rest
  end.

(** [/^\S+@\S+\.\S+$/.test(s)]: no white space, an [@] after the first
    character and, one character or more after it, a dot that is not the
    last character. *)
Definition emailShaped (s : string) : bool :=
  match s with
  | EmptyString => false
  | String _ rest =>
      noSpace s
      && match afterFirst "@"%char rest with
         | Some (String _ domain) => dotInside domain
         | _ => false
         end
  end.

(** [match] of a String path: an absent, [null] or empty value passes. *)
Definition matchesEmail (k : string) (d : Doc) : bool :=
  match d !! k with
  | Some (JStr s) => String.eqb s EmptyString || emailShaped s
  | _ => true
  end.

Definition requiredAndEnums (m : Model) (d : Doc) : bool :=
  match m with
  | UserModel =>
      required ["email"; "password"; "firstName"; "lastName"; "role"] d
      && matchesEmail "email" d
      && minLength "password" 8 d
      && inEnum "role" ["SUPER_ADMIN"; "ORG_ADMIN"; "PROJECT_MANAGER"; "EMPLOYEE"] d
  | ProjectModel =>
      required ["name"; "tenantId"; "ownerId"; "managerId"] d
      && inEnum "status" ["PLANNING"; "IN_PROGRESS"; "ON_HOLD"; "COMPLETED"; "CANCELLED"] d
      && inEnum "priority" ["LOW"; "MEDIUM"; "HIGH"; "CRITICAL"] d
  | TaskModel =>
      required ["title"; "tenantId"; "projectId"; "reporterId"] d
      && inEnum "type" ["EPIC"; "STORY"; "SUBTASK"] d
      && inEnum "status" ["TODO"; "IN_PROGRESS"; "IN_REVIEW"; "DONE"; "BLOCKED"; "CANCELLED"] d
      && inEnum "priority" ["LOW"; "MEDIUM"; "HIGH"; "CRITICAL"] d
  | PermissionModel => required ["userId"] d
  | AuditLogModel =>
      required ["tenantId"; "userId"; "action"; "resourceType"] d
      && inEnum "action" ["CREATE"; "READ"; "UPDATE"; "DELETE"; "LOGIN"; "LOGOUT";
                          "LOGIN_FAILED"; "PERMISSION_DENIED"; "EXPORT"; "IMPORT"] d
      && inEnum "resourceType" ["USER"; "PROJECT"; "TASK"; "TENANT"; "AUDIT"; "REPORT"] d
  end.

(** ** A sample deployment

    One tenant, [acme], with an administrator, a project manager who manages
    the only project, an employee assigned to its only task, the platform's
    super admin, and a second super admin whose record carries the tenant.
    Ids are written short; the handlers only ever compare them. *)

Module Sample.

Definition userDoc (id email first last role : string) (tenant : option string) : Doc :=
  optField "tenantId" (JStr <$> tenant)
    (list_to_map [("_id", JStr id); ("email", JStr email);
                  ("password", JStr "$2a$12$hash-of-the-password");
                  ("firstName", JStr first); ("lastName", JStr last); ("role", JStr role);
                  ("isActive", JBool true)]).
Definition root := mkPrincipal "u-root" "root@ewpm.io" "SUPER_ADMIN" None.
Definition admin := mkPrincipal "u-admin" "admin@acme.io" "ORG_ADMIN" (Some "acme").
Definition manager := mkPrincipal "u-pm" "pm@acme.io" "PROJECT_MANAGER" (Some "acme").
Definition employee := mkPrincipal "u-emp" "emp@acme.io" "EMPLOYEE" (Some "acme").
Definition project : Doc :=
  list_to_map [("_id", JStr "p-1"); ("name", JStr "Website"); ("tenantId", JStr "acme");
               ("ownerId", JStr "u-admin"); ("managerId", JStr "u-pm");
               ("status", JStr "IN_PROGRESS"); ("members", JArr [])].
Definition task : Doc :=
  list_to_map [("_id", JStr "k-1"); ("title", JStr "Landing page"); ("tenantId", JStr "acme");
               ("projectId", JStr "p-1"); ("reporterId", JStr "u-pm");
               ("assigneeId", JStr "u-emp"); ("status", JStr "DONE")].
Definition rootLog : Doc :=
  list_to_map [("tenantId", JStr "acme"); ("userId", JStr "u-root"); ("action", JStr "CREATE");
               ("resourceType", JStr "USER"); ("resourceId", JStr "u-emp");
               ("timestamp", JNum 10)].
Definition adminLog : Doc :=
  list_to_map [("tenantId", JStr "acme"); ("userId", JStr "u-admin"); ("action", JStr "CREATE");
               ("resourceType", JStr "PROJECT"); ("resourceId", JStr "p-1");
               ("timestamp", JNum 20)].
Definition world : Db :=
  mkDb (list_to_map [("u-root", userDoc "u-root" "root@ewpm.io" "Ro" "Ot" "SUPER_ADMIN" None);
                     ("u-admin", userDoc "u-admin" "admin@acme.io" "Ada" "Min" "ORG_ADMIN" (Some "acme"));
                     ("u-pm", userDoc "u-pm" "pm@acme.io" "Pat" "Em" "PROJECT_MANAGER" (Some "acme"));
                     ("u-emp", userDoc "u-emp" "emp@acme.io" "Em" "Ployee" "EMPLOYEE" (Some "acme"));
                     ("u-ops", userDoc "u-ops" "ops@acme.io" "Op" "Es" "SUPER_ADMIN" (Some "acme"))])
       {["p-1" := project]} {["k-1" := task]} ∅ [adminLog; rootLog].
Definition request (p : Principal) (headers params : list (string * string)) (body : list (string * Json)) : Request :=
  mkRequest (Verified p) "10.0.0.7" (list_to_map headers) ∅ None None None None
            (list_to_map params) (list_to_map body) None None ∅ 100.

(** The PROJECT_MANAGER defaults with [manageTasks.delete] switched off. *)
Definition noTaskDelete : Json :=
  obj [("manageTenants", crud false false false false);
       ("manageUsers", crud false false false false);
       ("manageProjects", crud true true true false);
       ("manageTasks", crudAssign true true true false true);
       ("viewReports", readOnly true);
       ("viewAuditLogs", readOnly false)].

End Sample.

(** ** The role-default table as the specification prints it

    Roles, resource categories and operations of section 4.1, and the table
    of defaults written row by row: CRUD is create, read, update, delete. *)

Inductive Role := SUPER_ADMIN | ORG_ADMIN | PROJECT_MANAGER | EMPLOYEE.
Inductive Category := TENANT | USER | PROJECT | TASK | REPORT | AUDIT.
Inductive Operation := Create | Read | Update | Delete | Assign.

Definition roleName (r : Role) : string :=
  match r with
  | SUPER_ADMIN => "SUPER_ADMIN"
  | ORG_ADMIN => "ORG_ADMIN"
  | PROJECT_MANAGER => "PROJECT_MANAGER"
  | EMPLOYEE => "EMPLOYEE"
  end.

Definition categoryKey (c : Category) : string :=
  match c with
  | TENANT => "manageTenants"
  | USER => "manageUsers"
  | PROJECT => "manageProjects"
  | TASK => "manageTasks"
  | REPORT => "viewReports"
  | AUDIT => "viewAuditLogs"
  end.

Definition operationKey (op : Operation) : string :=
  match op with
  | Create => "create"
  | Read => "read"
  | Update => "update"
  | Delete => "delete"
  | Assign => "assign"
  end.




(** [matrix[category][operation]], absent entries counting as [false]. *)
Definition capability (matrix : Json) (c : Category) (op : Operation) : bool :=
  match prop (operationKey op) (prop (categoryKey c) (Some matrix)) with
  | Some (JBool b) => b
  | _ => false
  end.

(** The property names an object value carries. *)
Definition keysOf (v : option Json) : gset string :=
  match v with
  | Some (JObj o) => dom o
  | _ => ∅
  end.

(** ** Vocabulary of the statements *)

(** The transition table of section 4.3, transcribed from the
    specification's text for comparison with [canTransitionTo]. *)
Definition transitions_spec : list (string * string) :=
  [("TODO", "IN_PROGRESS"); ("TODO", "CANCELLED");
   ("IN_PROGRESS", "IN_REVIEW"); ("IN_PROGRESS", "BLOCKED"); ("IN_PROGRESS", "CANCELLED");
   ("IN_REVIEW", "DONE"); ("IN_REVIEW", "IN_PROGRESS");
   ("DONE", "IN_PROGRESS");
   ("BLOCKED", "IN_PROGRESS"); ("BLOCKED", "CANCELLED")].

(** A middleware that neither reads nor writes the Permission collection. *)
Definition ignoresPermissions (m : Middleware) : Prop :=
  forall req db perms,
    m req (setPermissions perms db) = ((m req db).1, setPermissions perms (m req db).2).




(** The log's [userId] is the id of a user whose role is SUPER_ADMIN. *)
Definition authoredBySuperAdmin (db : Db) (log : Doc) : bool :=
  match field "userId" log with
  | Some id =>
      match users db !! id with
      | Some author => bool_decide (field "role" author = Some "SUPER_ADMIN")
      | None => false
      end
  | None => false
  end.

(** The [userId] filter of [getAuditLogs], when one is given. *)
Definition userIdFilter (req : Request) (log : Doc) : bool :=
  if truthyStr (req_query req !! "userId")
  then bool_decide (field "userId" log = req_query req !! "userId")
  else true.

(** The authors of the entries a listing returned (after [populate]). *)
Definition authorsOf (o : Outcome) : list (option string) :=
  match dataOf o with
  | Some (JArr logs) => (fun log => idString (prop "_id" (prop "userId" (Some log)))) <$> logs
  | _ => []
  end.

(** [pagination.total] of a listing. *)
Definition totalOf (o : Outcome) : option Json :=
  match o with
  | Respond _ b => prop "total" (prop "pagination" (Some b))
  | _ => None
  end.

(** Reading the store: whether a document is there, a string field of it,
    and the override matrix on record for a user. *)
Definition present (coll : gmap string Doc) (id : string) : bool :=
  match coll !! id with
  | Some _ => true
  | None => false
  end.

Definition storedField (coll : gmap string Doc) (id k : string) : option string :=
  match coll !! id with
  | Some d => field k d
  | None => None
  end.

Definition overrideOf (db : Db) (userId : string) : option Json :=
  match findActivePermission db userId with
  | Some p => p !! "permissions"
  | None => None
  end.

(** * Further code of the same files *)

(** ** Queries

    A Mongoose filter object: conditions by path, assigning a path again
    replacing its condition, as assigning a property of the [query] object
    does. *)

Inductive Cond :=
| CEq (v : option string)               (* { path: v }, [None] for undefined *)
| CNe (v : string)                      (* { path: { $ne: v } } *)
| CIn (vs : list string)                (* { path: { $in: vs } } *)
| CIs (b : bool)                        (* { path: b } on a Boolean path *)
| COr (alts : list (string * string)).  (* $or: [{ path: v }, ...] *)

(** The characters after the first dot, if there is one. *)
Fixpoint afterFirstDot (s : string) : option string :=
  match s with
  | EmptyString => None
  | String c rest => if Ascii.eqb c "."%char then Some rest else afterFirstDot rest
  end.

(** The values a path takes in a document: one for a plain path, one per
    element for a path through an array of subdocuments. *)
Definition valuesAt (path : string) (d : Doc) : list (option string) :=
  match afterFirstDot path with
  | None => [field path d]
  | Some k =>
      match d !! firstLabel path with
      | Some (JArr l) => (fun m => idString (prop k (Some m))) <$> l
      | v => [idString (prop k v)]
      end
  end.

Definition holds (path : string) (c : Cond) (d : Doc) : bool :=
  match c with
  | CEq v => bool_decide (v ∈ valuesAt path d)
  | CNe v => bool_decide (Some v ∉ valuesAt path d)
  | CIn vs => existsb (fun x => bool_decide (x ∈ Some <$> vs)) (valuesAt path d)
  | CIs b =>
      match d !! path with
      | Some (JBool b') => Bool.eqb b b'
      | _ => false
      end
  | COr alts => existsb (fun alt => bool_decide (Some alt.2 ∈ valuesAt alt.1 d)) alts
  end.

Definition matches (query : gmap string Cond) (d : Doc) : bool :=
  bool_decide (map_Forall (fun path c => holds path c d = true) query).

(** [Model.find(query)] *)
Definition find (coll : gmap string Doc) (query : gmap string Cond) : list Doc :=
  filter (fun d => matches query d = true) (map_to_list coll).*2.

(** [Model.findOne({ _id: id, ...query })] *)
Definition findOneById (coll : gmap string Doc) (id : option string)
  (query : gmap string Cond) : option Doc :=
  match findById coll id with
  | Some d => if matches query d then Some d else None
  | None => None
  end.

(** [if (v) query.path = v] *)
Definition setIf (path : string) (v : option string) (query : gmap string Cond)
  : gmap string Cond :=
  if truthyStr v then <[path := CEq v]> query else query.

(** [sort({ key: -1 })] on a numeric (date) path. *)
Definition numberAt (key : string) (d : Doc) : Z :=
  match d !! key with
  | Some (JNum t) => t
  | _ => 0%Z
  end.

Fixpoint insertDescBy (key : string) (x : Doc) (l : list Doc) : list Doc :=
  match l with
  | [] => [x]
  | y :: l' =>
      if (numberAt key y <? numberAt key x)%Z then x :: l
      else y :: insertDescBy key x l'
  end.

Definition sortDescBy (key : string) (l : list Doc) : list Doc :=
  foldr (insertDescBy key) [] l.

(** [d.k = v]: assigning [undefined] leaves the path unset. *)
Definition assignOpt (k : string) (v : option Json) (d : Doc) : Doc :=
  match v with
  | Some x => <[k := x]> d
  | None => delete k d
  end.

(** [populate('arr.path', select)] through an array of subdocuments. *)
Definition populateEach (arr path : string) (coll : gmap string Doc) (fields : list string)
  (d : Doc) : Doc :=
  match d !! arr with
  | Some (JArr l) =>
      <[arr := JArr ((fun m => match m with
                               | JObj o => JObj (populate path coll fields o)
                               | _ => m
                               end) <$> l)]> d
  | _ => d
  end.

(** [Model.create(data)]: the schema's defaults under the data, the id
    Mongoose generates unless the data brings one, and the timestamps. *)
Definition created (defaults data : Doc) (newId : string) (now : Z) : Doc :=
  data ∪ <["_id" := JStr newId]>
           (<["createdAt" := JNum now]> (<["updatedAt" := JNum now]> defaults)).

(** The insert of a created document under its [_id]; [None] is the error of
    an id that cannot be cast or is already taken. *)
Definition insertNew (coll : gmap string Doc) (d : Doc) : option (gmap string Doc) :=
  match field "_id" d with
  | Some i =>
      match coll !! i with
      | None => Some (<[i := d]> coll)
      | Some _ => None
      end
  | None => None
  end.

(** The array a path holds, empty when it holds none. *)
Definition arrayAt (k : string) (d : Doc) : list Json :=
  match d !! k with
  | Some (JArr l) => l
  | _ => []
  end.

(** Defaults of the Task, Project and User schemas. *)
Definition taskDefaults : Doc :=
  list_to_map [("parentTaskId", JNull); ("type", JStr "STORY"); ("status", JStr "TODO");
               ("priority", JStr "MEDIUM"); ("actualHours", JNum 0); ("dependencies", JArr []);
               ("tags", JArr []); ("attachments", JArr []); ("comments", JArr []);
               ("sla", obj [("breached", JBool false)])].

Definition projectDefaults : Doc :=
  list_to_map [("status", JStr "PLANNING"); ("priority", JStr "MEDIUM"); ("spent", JNum 0);
               ("members", JArr []); ("tags", JArr []);
               ("settings", obj [("allowPublicComments", JBool true);
                                 ("enableTimeTracking", JBool true);
                                 ("sla", obj [("enabled", JBool false)])])].

Definition userDefaults : Doc :=
  list_to_map [("role", JStr "EMPLOYEE"); ("isActive", JBool true); ("permissions", JArr [])].

(** [{ success: true, data }] *)
Definition success (data : Json) : Json := obj [("success", JBool true); ("data", data)].

Section MoreControllers.

Variable cast : Model -> string -> Json -> option Json.
Variable schemaValid : Model -> Doc -> bool.

(** ** Task controller, continued *)

(** The projects a PROJECT_MANAGER owns, manages or is a member of:
    [$or: [{ managerId }, { ownerId }, { 'members.userId' }]]. *)
Definition ownOrMember (id : string) : Cond :=
  COr [("managerId", id); ("ownerId", id); ("members.userId", id)].

(** The filter of [getTasks]: the tenant; for an EMPLOYEE the tasks assigned
    to them, for a PROJECT_MANAGER the tasks of their projects; then the
    [projectId], [status], [assigneeId] and [type] the query string gives. *)
Definition tasksQuery (req : Request) (db : Db) : gmap string Cond :=
  let query : gmap string Cond := {["tenantId" := CEq (req_tenantId req)]} in
  let query :=
    match req_user req with
    | Some u =>
        if bool_decide (user_role u = "EMPLOYEE")
        then <["assigneeId" := CEq (Some (user_id u))]> query
        else if bool_decide (user_role u = "PROJECT_MANAGER") then
          let managedProjects :=
            find (projects db)
              (<["$or" := ownOrMember (user_id u)]>
                 {["tenantId" := CEq (req_tenantId req)]}) in
          <["projectId" := CIn (omap (field "_id") managedProjects)]> query
        else query
    | None => query
    end in
  let query := setIf "projectId" (req_query req !! "projectId") query in
  let query := setIf "status" (req_query req !! "status") query in
  let query := setIf "assigneeId" (req_query req !! "assigneeId") query in
  setIf "type" (req_query req !! "type") query.

Definition getTasks : Handler := fun req db =>
  let page := default 1 (req_page req) in
  let limit := default 10 (req_limit req) in
  let found := find (tasks db) (tasksQuery req db) in
  let page_ :=
    (fun t => populate "projectId" (projects db) ["name"]
                (populate "reporterId" (users db) ["firstName"; "lastName"; "email"]
                   (populate "assigneeId" (users db) ["firstName"; "lastName"; "email"] t)))
      <$> paginate page limit (sortDescBy "createdAt" found) in
  (listing page_ page limit (length found), db).

Definition getTaskById : Handler := fun req db =>
  match findOneInTenant (tasks db) (req_params req !! "id") (req_tenantId req) with
  | None => (Respond 404 (failure "Task not found"), db)
  | Some task =>
      let task := populate "assigneeId" (users db) ["firstName"; "lastName"; "email"] task in
      let task := populate "reporterId" (users db) ["firstName"; "lastName"; "email"] task in
      let task := populate "projectId" (projects db) ["name"] task in
      let task := populate "parentTaskId" (tasks db) ["title"] task in
      let task := populateEach "dependencies" "taskId" (tasks db) ["title"; "status"] task in
      (Respond 200 (success (JObj task)), db)
  end.

Definition createTask (newId : string) : Handler := fun req db =>
  match findOneInTenant (projects db) (field "projectId" (req_body req)) (req_tenantId req) with
  | None => (Respond 404 (failure "Project not found"), db)
  | Some project =>
      match req_user req with
      | None => (NextError "TypeError", db)
      | Some u =>
          if bool_decide (user_role u = "PROJECT_MANAGER") && notManaging (user_id u) project
          then (Respond 403 (failure "You can only create tasks in projects you manage"), db)
          else
            let taskData :=
              <["reporterId" := JStr (user_id u)]>
                (assignOpt "tenantId" (JStr <$> req_tenantId req) (req_body req)) in
            let task := created taskDefaults taskData newId (req_now req) in
            match (if schemaValid TaskModel task then insertNew (tasks db) task else None) with
            | None => (NextError "MongooseError", db)
            | Some stored =>
                let db := setTasks stored db in
                let task := populate "projectId" (projects db) ["name"] task in
                let task :=
                  populate "assigneeId" (users db) ["firstName"; "lastName"; "email"] task in
                let db :=
                  createAuditLog schemaValid (req_now req)
                    (logData (req_tenantId req) (user_id u) "CREATE" "TASK" (task !! "_id")
                       (obj [("after", JObj task)]) req) db in
                (* notification of the assignee *)
                (Respond 201 (success (JObj task)), db)
            end
      end
  end.

Definition updateTask : Handler := fun req db =>
  match findOneInTenant (tasks db) (req_params req !! "id") (req_tenantId req),
        req_params req !! "id" with
  | Some task, Some id =>
      let gate :=
        match req_user req with
        | Some u =>
            if bool_decide (user_role u = "EMPLOYEE") then
              if bool_decide (field "assigneeId" task ≠ Some (user_id u))
              then Some (Respond 403 (failure "You can only update tasks assigned to you"))
              (* EMPLOYEE cannot change assignee *)
              else if truthy (req_body req !! "assigneeId")
                      && negb (strictEq (field "assigneeId" task) (req_body req !! "assigneeId"))
              then Some (Respond 403 (failure "You cannot reassign tasks"))
              else None
            else if bool_decide (user_role u = "PROJECT_MANAGER") then
              match findById (projects db) (field "projectId" task) with
              | Some project =>
                  if notManaging (user_id u) project
                  then Some (Respond 403 (failure
                               "You can only update tasks in projects you manage"))
                  else None
              | None => None
              end
            else None
        | None => None
        end in
      match gate with
      | Some denied => (denied, db)
      | None =>
          let before := task in
          (* Object.assign(task, req.body) *)
          let task := req_body req ∪ task in
          if schemaValid TaskModel task then
            let task := touched (req_now req) before task in
            let db := setTasks (<[id := task]> (tasks db)) db in
            let task := populate "projectId" (projects db) ["name"] task in
            let task :=
              populate "assigneeId" (users db) ["firstName"; "lastName"; "email"] task in
            match req_user req with
            | None => (NextError "TypeError", db)
            | Some u =>
                let db :=
                  createAuditLog schemaValid (req_now req)
                    (logData (req_tenantId req) (user_id u) "UPDATE" "TASK" (task !! "_id")
                       (obj [("before", JObj before); ("after", JObj task)]) req) db in
                (* notification of a new assignee *)
                (Respond 200 (success (JObj task)), db)
            end
          else (NextError "ValidationError", db)
      end
  | _, _ => (Respond 404 (failure "Task not found"), db)
  end.

(** [task.comments.id(commentId)] and the two things the handlers do to the
    comment it returns. *)
Definition isComment (commentId : option string) (c : Json) : bool :=
  bool_decide (is_Some commentId) && bool_decide (idString (prop "_id" (Some c)) = commentId).

Definition commentById (commentId : option string) (task : Doc) : option Json :=
  head (filter (fun c => isComment commentId c = true) (arrayAt "comments" task)).

(** The first element meeting [p] replaced by [f]'s result, or removed when
    there is none. *)
Fixpoint editFirst (p : Json -> bool) (f : Json -> option Json) (l : list Json) : list Json :=
  match l with
  | [] => []
  | c :: l' =>
      if p c then
        match f c with
        | Some c' => c' :: l'
        | None => l'
        end
      else c :: editFirst p f l'
  end.

(** [comment.userId.toString() !== req.user.id && req.user.role !== 'ORG_ADMIN'];
    [None] is the TypeError of a comment without author or a request without
    user. *)
Definition notCommentOwner (req : Request) (comment : Json) : option bool :=
  match idString (prop "userId" (Some comment)), req_user req with
  | Some author, Some u =>
      Some (bool_decide (author ≠ user_id u) && bool_decide (user_role u ≠ "ORG_ADMIN"))
  | _, _ => None
  end.

(** The check the comment handlers open with: an EMPLOYEE must be the task's
    assignee. *)
Definition notAssignee (req : Request) (task : Doc) : bool :=
  match req_user req with
  | Some u =>
      bool_decide (user_role u = "EMPLOYEE")
      && bool_decide (field "assigneeId" task ≠ Some (user_id u))
  | None => false
  end.

Definition addComment (newId : string) : Handler := fun req db =>
  let content := req_body req !! "content" in
  match findOneInTenant (tasks db) (req_params req !! "id") (req_tenantId req),
        req_params req !! "id" with
  | Some task, Some id =>
      let gate :=
        match req_user req with
        | Some u =>
            if bool_decide (user_role u = "EMPLOYEE") then
              if bool_decide (field "assigneeId" task ≠ Some (user_id u))
              then Some (Respond 403 (failure "You can only comment on tasks assigned to you"))
              else None
            else if bool_decide (user_role u = "PROJECT_MANAGER") then
              match findById (projects db) (field "projectId" task) with
              | Some project =>
                  if notManaging (user_id u) project
                  then Some (Respond 403 (failure
                               "You can only comment on tasks in projects you manage"))
                  else None
              | None => None
              end
            else None
        | None => None
        end in
      match gate, req_user req with
      | Some denied, _ => (denied, db)
      | None, None => (NextError "TypeError", db)
      | None, Some u =>
          let comment :=
            JObj (assignOpt "content" content
                    (list_to_map [("_id", JStr newId); ("userId", JStr (user_id u));
                                  ("createdAt", JNum (req_now req));
                                  ("updatedAt", JNum (req_now req))])) in
          let before := task in
          let task := <["comments" := JArr (arrayAt "comments" task ++ [comment])]> task in
          if schemaValid TaskModel task then
            let task := touched (req_now req) before task in
            let db := setTasks (<[id := task]> (tasks db)) db in
            let db :=
              createAuditLog schemaValid (req_now req)
                (logData (req_tenantId req) (user_id u) "UPDATE" "TASK" (task !! "_id")
                   (obj [("action", JStr "ADD_COMMENT")]) req) db in
            (Respond 200 (success (JObj task)), db)
          else (NextError "ValidationError", db)
      end
  | _, _ => (Respond 404 (failure "Task not found"), db)
  end.

Definition updateComment : Handler := fun req db =>
  let content := req_body req !! "content" in
  let commentId := req_params req !! "commentId" in
  match findOneInTenant (tasks db) (req_params req !! "id") (req_tenantId req),
        req_params req !! "id" with
  | Some task, Some id =>
      if notAssignee req task then
        (Respond 403 (failure "You can only update comments on tasks assigned to you"), db)
      else
        match commentById commentId task with
        | None => (Respond 404 (failure "Comment not found"), db)
        | Some comment =>
            match notCommentOwner req comment with
            | None => (NextError "TypeError", db)
            | Some true => (Respond 403 (failure "Not authorized to update this comment"), db)
            | Some false =>
                let edit (c : Json) :=
                  match c with
                  | JObj o =>
                      Some (JObj (<["updatedAt" := JNum (req_now req)]>
                                    (assignOpt "content" content o)))
                  | _ => Some c
                  end in
                let before := task in
                let task :=
                  <["comments" :=
                      JArr (editFirst (isComment commentId) edit (arrayAt "comments" task))]>
                    task in
                if schemaValid TaskModel task then
                  let task := touched (req_now req) before task in
                  (Respond 200 (success (JObj task)), setTasks (<[id := task]> (tasks db)) db)
                else (NextError "ValidationError", db)
            end
        end
  | _, _ => (Respond 404 (failure "Task not found"), db)
  end.

Definition deleteComment : Handler := fun req db =>
  let commentId := req_params req !! "commentId" in
  match findOneInTenant (tasks db) (req_params req !! "id") (req_tenantId req),
        req_params req !! "id" with
  | Some task, Some id =>
      if notAssignee req task then
        (Respond 403 (failure "You can only delete comments on tasks assigned to you"), db)
      else
        match commentById commentId task with
        | None => (Respond 404 (failure "Comment not found"), db)
        | Some comment =>
            match notCommentOwner req comment with
            | None => (NextError "TypeError", db)
            | Some true => (Respond 403 (failure "Not authorized to delete this comment"), db)
            | Some false =>
                let before := task in
                let task :=
                  <["comments" :=
                      JArr (editFirst (isComment commentId) (fun _ => None)
                              (arrayAt "comments" task))]> task in
                if schemaValid TaskModel task then
                  let task := touched (req_now req) before task in
                  (Respond 200 (obj [("success", JBool true);
                                     ("message", JStr "Comment deleted successfully")]),
                   setTasks (<[id := task]> (tasks db)) db)
                else (NextError "ValidationError", db)
            end
        end
  | _, _ => (Respond 404 (failure "Task not found"), db)
  end.

(** ** Project controller, continued *)

(** The filter [getProjects] and [getProjectById] build from the caller:
    the tenant, for a PROJECT_MANAGER the projects owned, managed or joined,
    for an EMPLOYEE the projects joined. *)
Definition visibleProjects (req : Request) : gmap string Cond :=
  let query : gmap string Cond := {["tenantId" := CEq (req_tenantId req)]} in
  let query :=
    match req_user req with
    | Some u =>
        if bool_decide (user_role u = "PROJECT_MANAGER")
        then <["$or" := ownOrMember (user_id u)]> query
        else query
    | None => query
    end in
  match req_user req with
  | Some u =>
      if bool_decide (user_role u = "EMPLOYEE")
      then <["members.userId" := CEq (Some (user_id u))]> query
      else query
  | None => query
  end.

Definition getProjects : Handler := fun req db =>
  let page := default 1 (req_page req) in
  let limit := default 10 (req_limit req) in
  let query := visibleProjects req in
  let query := setIf "status" (req_query req !! "status") query in
  let query := setIf "managerId" (req_query req !! "managerId") query in
  let found := find (projects db) query in
  let page_ :=
    (fun p => populate "managerId" (users db) ["firstName"; "lastName"; "email"]
                (populate "ownerId" (users db) ["firstName"; "lastName"; "email"] p))
      <$> paginate page limit (sortDescBy "createdAt" found) in
  (listing page_ page limit (length found), db).

Definition getProjectById : Handler := fun req db =>
  match findOneById (projects db) (req_params req !! "id") (visibleProjects req) with
  | None => (Respond 404 (failure "Project not found"), db)
  | Some project =>
      let project := populate "ownerId" (users db) ["firstName"; "lastName"; "email"] project in
      let project :=
        populate "managerId" (users db) ["firstName"; "lastName"; "email"] project in
      let project :=
        populateEach "members" "userId" (users db) ["firstName"; "lastName"; "email"] project in
      (Respond 200 (success (JObj project)), db)
  end.

(** [member => ({ userId: member.userId || member, role: member.role || 'MEMBER',
                  joinedAt: new Date() })];
    [None] is the TypeError raised when [member] is [null]. *)
Definition newMember (now : Z) (member : Json) : option Json :=
  match member with
  | JNull => None
  | _ =>
      Some (obj [("userId", orJson (prop "userId" (Some member)) member);
                 ("role", orJson (prop "role" (Some member)) (JStr "MEMBER"));
                 ("joinedAt", JNum now)])
  end.

Definition createProject (newId : string) : Handler := fun req db =>
  match req_user req with
  | None => (NextError "TypeError", db)
  | Some u =>
      (* PROJECT_MANAGER can only set themselves as manager *)
      let managerId :=
        if bool_decide (user_role u = "ORG_ADMIN") && truthy (req_body req !! "managerId")
        then default (JStr (user_id u)) (req_body req !! "managerId")
        else JStr (user_id u) in
      let members :=
        match req_body req !! "members" with
        | Some (JArr ms) => mapM (newMember (req_now req)) ms
        | _ => Some []
        end in
      match members with
      | None => (NextError "TypeError", db)
      | Some members =>
          let projectData :=
            <["members" := JArr members]>
              (<["managerId" := managerId]>
                 (<["ownerId" := JStr (user_id u)]>
                    (assignOpt "tenantId" (JStr <$> req_tenantId req) (req_body req)))) in
          let project := created projectDefaults projectData newId (req_now req) in
          match (if schemaValid ProjectModel project
                 then insertNew (projects db) project else None) with
          | None => (NextError "MongooseError", db)
          | Some stored =>
              let db := setProjects stored db in
              let db :=
                createAuditLog schemaValid (req_now req)
                  (logData (req_tenantId req) (user_id u) "CREATE" "PROJECT" (project !! "_id")
                     (obj [("after", JObj project)]) req) db in
              (* notifications to the members follow *)
              (Respond 201 (success (JObj project)), db)
          end
      end
  end.

(** [members.find(m => m.userId.toString() === userId)]: whether there is
    such a member; [None] is the TypeError of a member without [userId]
    met before one is found. *)
Fixpoint existingMember (userId : option Json) (members : list Json) : option bool :=
  match members with
  | [] => Some false
  | m :: rest =>
      match idString (prop "userId" (Some m)) with
      | None => None
      | Some i => if strictEq (Some i) userId then Some true else existingMember userId rest
      end
  end.

Definition addProjectMember : Handler := fun req db =>
  let userId := req_body req !! "userId" in
  let role := req_body req !! "role" in
  match findOneInTenant (projects db) (req_params req !! "id") (req_tenantId req),
        req_params req !! "id" with
  | Some project, Some id =>
      match existingMember userId (arrayAt "members" project) with
      | None => (NextError "TypeError", db)
      | Some true => (Respond 400 (failure "User is already a project member"), db)
      | Some false =>
          (* the pushed member's userId, cast to an ObjectId *)
          let memberId : option (option Json) :=
            match userId with
            | Some raw => Some <$> cast ProjectModel "members.userId" raw
            | None => Some None
            end in
          match memberId with
          | None => (NextError "ValidationError", db)
          | Some memberId =>
              let before := project in
              let member :=
                JObj (assignOpt "userId" memberId
                        (list_to_map [("role", orJson role (JStr "MEMBER"));
                                      ("joinedAt", JNum (req_now req))])) in
              let project :=
                <["members" := JArr (arrayAt "members" project ++ [member])]> project in
              if schemaValid ProjectModel project then
                let project := touched (req_now req) before project in
                let db := setProjects (<[id := project]> (projects db)) db in
                match req_user req with
                | None => (NextError "TypeError", db)
                | Some u =>
                    let db :=
                      createAuditLog schemaValid (req_now req)
                        (logData (req_tenantId req) (user_id u) "UPDATE" "PROJECT"
                           (project !! "_id")
                           (JObj (optField "userId" userId
                                    (optField "role" role {["action" := JStr "ADD_MEMBER"]})))
                           req) db in
                    (* notification of the member follows *)
                    (Respond 200 (success (JObj project)), db)
                end
              else (NextError "ValidationError", db)
          end
      end
  | _, _ => (Respond 404 (failure "Project not found"), db)
  end.

Definition removeProjectMember : Handler := fun req db =>
  match findOneInTenant (projects db) (req_params req !! "id") (req_tenantId req),
        req_params req !! "id" with
  | Some project, Some id =>
      (* m.userId.toString() of every member *)
      match memberIds (arrayAt "members" project) with
      | None => (NextError "TypeError", db)
      | Some _ =>
          let before := project in
          let project :=
            <["members" :=
                JArr (filter (fun m => idString (prop "userId" (Some m))
                                       ≠ req_params req !! "userId")
                        (arrayAt "members" project))]> project in
          if schemaValid ProjectModel project then
            let project := touched (req_now req) before project in
            let db := setProjects (<[id := project]> (projects db)) db in
            match req_user req with
            | None => (NextError "TypeError", db)
            | Some u =>
                let db :=
                  createAuditLog schemaValid (req_now req)
                    (logData (req_tenantId req) (user_id u) "UPDATE" "PROJECT" (project !! "_id")
                       (JObj (optField "userId" (JStr <$> req_params req !! "userId")
                                {["action" := JStr "REMOVE_MEMBER"]}))
                       req) db in
                (Respond 200 (success (JObj project)), db)
            end
          else (NextError "ValidationError", db)
      end
  | _, _ => (Respond 404 (failure "Project not found"), db)
  end.

(** ** User controller, continued *)

(** [String.prototype.trim] *)
Variable trim : string -> string.

(** [role && role.trim() !== ''] *)
Definition givenRole (role : option string) : bool :=
  match role with
  | Some r => negb (String.eqb r EmptyString) && negb (String.eqb (trim r) EmptyString)
  | None => false
  end.

(** The filter of [getUsers]; [None] is the early answer to an ORG_ADMIN
    asking for the SUPER_ADMIN role. *)
Definition usersQuery (req : Request) : option (gmap string Cond) :=
  let role := req_query req !! "role" in
  let isActive := req_query req !! "isActive" in
  let query : gmap string Cond := ∅ in
  let query :=
    if truthyStr (req_tenantId req) && bool_decide (req_tenantId req ≠ Some "all")
    then <["tenantId" := CEq (req_tenantId req)]> query
    else query in
  (* Exclude the logged-in user from the list *)
  let query :=
    match req_user req with
    | Some u =>
        if truthyStr (Some (user_id u)) then <["_id" := CNe (user_id u)]> query else query
    | None => query
    end in
  let query :=
    match req_user req with
    | Some u =>
        if bool_decide (user_role u = "ORG_ADMIN") then
          let query := <["role" := CNe "SUPER_ADMIN"]> query in
          if givenRole role then
            if bool_decide (role ≠ Some "SUPER_ADMIN")
            then Some (<["role" := CEq role]> query)
            else None
          else Some query
        else Some (if givenRole role then <["role" := CEq role]> query else query)
    | None => Some (if givenRole role then <["role" := CEq role]> query else query)
    end in
  (fun query =>
     match isActive with
     | Some a =>
         if bool_decide (a ≠ EmptyString)
         then <["isActive" := CIs (bool_decide (a = "true"))]> query
         else query
     | None => query
     end) <$> query.

Definition getUsers : Handler := fun req db =>
  let page := default 1 (req_page req) in
  let limit := default 10 (req_limit req) in
  match usersQuery req with
  | None =>
      (Respond 200 (obj [("success", JBool true);
                         ("data", JArr []);
                         ("pagination", obj [("page", JNum (Z.of_nat page));
                                             ("limit", JNum (Z.of_nat limit));
                                             ("total", JNum 0);
                                             ("pages", JNum 0)])]), db)
  | Some query =>
      let found := find (users db) query in
      let users := withoutSecrets <$> paginate page limit (sortDescBy "createdAt" found) in
      (listing users page limit (length found), db)
  end.

(** [User.create(userData)]: the email as the schema's setters leave it
    ([lowercase], [trim]), validation, then the insert, refused when that
    email is taken (the schema's unique index).  The document and the
    collection with it are returned; the password hashing is left to the
    ORM. *)
Definition createUserDoc (user : Doc) (db : Db) : option (Doc * gmap string Doc) :=
  let user :=
    match user !! "email" with
    | Some raw => (fun email => <["email" := email]> user) <$> cast UserModel "email" raw
    | None => Some user
    end in
  match user with
  | Some user =>
      if schemaValid UserModel user
         && negb (bool_decide (Exists (fun other => field "email" other = field "email" user)
                                 (map_to_list (users db)).*2))
      then pair user <$> insertNew (users db) user
      else None
  | None => None
  end.

Definition createUser (newId : string) : Handler := fun req db =>
  let role := req_body req !! "role" in
  (* Prevent ORG_ADMIN from creating SUPER_ADMIN users *)
  if orgAdminAssignsSuperAdmin req role then
    (Respond 403 (failure "You do not have permission to create SUPER_ADMIN users"), db)
  else
    let tenantId : option Json := JStr <$> req_tenantId req in
    let tenantId :=
      match req_user req with
      | Some u =>
          if bool_decide (user_role u = "SUPER_ADMIN") && truthy (req_body req !! "tenantId")
          then req_body req !! "tenantId"
          else tenantId
      | None => tenantId
      end in
    (* SUPER_ADMIN users should not have a tenantId *)
    let tenantId := if strictEq (Some "SUPER_ADMIN") role then Some JNull else tenantId in
    if negb (truthy tenantId) && negb (strictEq (Some "SUPER_ADMIN") role) then
      (Respond 400 (failure "Tenant ID is required for this role"), db)
    else
      let userData := assignOpt "tenantId" tenantId (req_body req) in
      let user := created userDefaults userData newId (req_now req) in
      match createUserDoc user db with
      | None => (NextError "MongooseError", db)
      | Some (user, stored) =>
          let db := setUsers stored db in
          match req_user req with
          | None => (NextError "TypeError", db)
          | Some u =>
              (* tenantId || req.tenantId || user.tenantId *)
              let auditTenant :=
                if truthy tenantId then tenantId
                else if truthyStr (req_tenantId req) then JStr <$> req_tenantId req
                else user !! "tenantId" in
              let db :=
                createAuditLog schemaValid (req_now req)
                  (optField "tenantId" auditTenant
                     (logData None (user_id u) "CREATE" "USER" (user !! "_id")
                        (obj [("after", JObj user)]) req)) db in
              (Respond 201 (success (JObj (withoutSecrets user))), db)
          end
      end.

(** ** Permission controller, continued *)

(** [sort({ firstName: 1, lastName: 1 })]: a missing name sorts first. *)
Definition nameLe (a b : option string) : bool :=
  match a, b with
  | None, _ => true
  | Some _, None => false
  | Some x, Some y => String.leb x y
  end.

Definition namesLe (a b : Doc) : bool :=
  if bool_decide (field "firstName" a = field "firstName" b)
  then nameLe (field "lastName" a) (field "lastName" b)
  else nameLe (field "firstName" a) (field "firstName" b).

Fixpoint insertByName (x : Doc) (l : list Doc) : list Doc :=
  match l with
  | [] => [x]
  | y :: l' => if namesLe x y then x :: l else y :: insertByName x l'
  end.

Definition getManageableUsers : Handler := fun req db =>
  match req_user req with
  | None => (NextError "TypeError", db)
  | Some u =>
      let query : gmap string Cond := {["isActive" := CIs true]} in
      let scope :=
        if bool_decide (user_role u = "SUPER_ADMIN") then
          Some (["SUPER_ADMIN"; "ORG_ADMIN"; "PROJECT_MANAGER"; "EMPLOYEE"], query)
        else if bool_decide (user_role u = "ORG_ADMIN") then
          Some (["PROJECT_MANAGER"; "EMPLOYEE"],
                <["tenantId" := CEq (req_tenantId req)]> query)
        else None in
      match scope with
      | None =>
          (Respond 403 (failure "You do not have permission to manage user permissions"), db)
      | Some (userRoles, query) =>
          let query := <["role" := CIn userRoles]> query in
          let users := foldr insertByName [] (find (users db) query) in
          let row (user : Doc) : option Json :=
            match field "_id" user with
            | None => None
            | Some id =>
                let userPermissions :=
                  match findActivePermission db id with
                  | Some p =>
                      orJson (p !! "permissions") (getDefaultPermissionsForRole (roleOf user))
                  | None => getDefaultPermissionsForRole (roleOf user)
                  end in
                Some (obj [("userId", JStr id);
                           ("user", JObj (selectFields ["firstName"; "lastName"; "email"; "role";
                                                        "tenantId"; "isActive"] user));
                           ("permissions", userPermissions)])
            end in
          match mapM row users with
          | None => (NextError "TypeError", db)
          | Some rows => (Respond 200 (success (JArr rows)), db)
          end
      end
  end.

End MoreControllers.

(** ** Audit controller, continued *)

Definition getResourceAuditLogs : Handler := fun req db =>
  let page := default 1 (req_page req) in
  let limit := default 50 (req_limit req) in
  let matches (log : Doc) :=
    bool_decide (field "tenantId" log = req_tenantId req)
    && bool_decide (field "resourceType" log = req_params req !! "resourceType")
    && bool_decide (field "resourceId" log = req_params req !! "resourceId") in
  let logs :=
    populate "userId" (users db) ["firstName"; "lastName"; "email"]
      <$> paginate page limit (newestFirst (filter (fun l => matches l = true) (auditLogs db))) in
  let total := length (filter (fun l => matches l = true) (auditLogs db)) in
  (listing logs page limit total, db).

(** ** Routes, continued *)

Section MoreRoutes.

Variable cast : Model -> string -> Json -> option Json.
Variable schemaValid : Model -> Doc -> bool.
Variable trim : string -> string.

(** task.routes.js *)
Definition GET_tasks : Handler := route taskRouter getTasks.
Definition GET_tasks_id : Handler := route (taskRouter ++ [restrictToOwnTasks]) getTaskById.
Definition POST_tasks (newId : string) : Handler :=
  route (taskRouter ++ [authorize ["ORG_ADMIN"; "PROJECT_MANAGER"]; canManageProjects])
        (createTask schemaValid newId).
Definition PUT_tasks_id : Handler :=
  route (taskRouter ++ [restrictToOwnTasks]) (updateTask schemaValid).
Definition POST_tasks_id_comments (newId : string) : Handler :=
  route (taskRouter ++ [restrictToOwnTasks]) (addComment schemaValid newId).
Definition PUT_tasks_id_comments_commentId : Handler :=
  route (taskRouter ++ [restrictToOwnTasks]) (updateComment schemaValid).
Definition DELETE_tasks_id_comments_commentId : Handler :=
  route (taskRouter ++ [restrictToOwnTasks]) (deleteComment schemaValid).

(** project.routes.js *)
Definition GET_projects : Handler := route projectRouter getProjects.
Definition GET_projects_id : Handler := route projectRouter getProjectById.
Definition POST_projects (newId : string) : Handler :=
  route (projectRouter ++ [authorize ["ORG_ADMIN"; "PROJECT_MANAGER"]; canManageProjects])
        (createProject schemaValid newId).
Definition POST_projects_id_members : Handler :=
  route (projectRouter ++ [authorize ["ORG_ADMIN"; "PROJECT_MANAGER"]; restrictToOwnProjects])
        (addProjectMember cast schemaValid).
Definition DELETE_projects_id_members_userId : Handler :=
  route (projectRouter ++ [authorize ["ORG_ADMIN"; "PROJECT_MANAGER"]; restrictToOwnProjects])
        (removeProjectMember schemaValid).

(** user.routes.js *)
Definition GET_users : Handler := route userRouter (getUsers trim).
Definition POST_users (newId : string) : Handler :=
  route (userRouter ++ [authorize ["SUPER_ADMIN"; "ORG_ADMIN"]]) (createUser cast schemaValid newId).

(** permission.routes.js *)
Definition GET_permissions_manageable : Handler :=
  route (permissionRouter ++ [authorize ["SUPER_ADMIN"; "ORG_ADMIN"]]) getManageableUsers.

(** audit.routes.js *)
Definition GET_audit_resource : Handler :=
  route (auditRouter ++ [authorize ["ORG_ADMIN"]]) getResourceAuditLogs.

End MoreRoutes.

(** ** Observations used in the statements below *)

(** The request as a router's own middleware hands it on: the verified
    principal, the resolved tenant and the tenant filter bound to it. *)
Definition bound (p : Principal) (t : string) (req : Request) : Request :=
  withQueryFilter (<["tenantId" := JStr t]> (req_queryFilter req))
    (withTenantId t (withUser p req)).

(** The documents a collection holds. *)
Definition documents (coll : gmap string Doc) : list Doc := (map_to_list coll).*2.

(** Manager, owner or member, in any role, of a project: what the filter
    [$or: [{ managerId }, { ownerId }, { 'members.userId' }]] selects. *)
Definition involved (id : string) (project : Doc) : Prop :=
  field "managerId" project = Some id
  \/ field "ownerId" project = Some id
  \/ Some id ∈ valuesAt "members.userId" project.

(** The [userId] of a member or comment, and the [_id] of a comment. *)
Definition userIdOf (m : Json) : option string := idString (prop "userId" (Some m)).

(** Managing a project: being its manager, its owner, or a member of it
    with the LEAD role. *)
Definition managing (id : string) (project : Doc) : Prop :=
  field "managerId" project = Some id
  \/ field "ownerId" project = Some id
  \/ exists m, m ∈ arrayAt "members" project
               /\ userIdOf m = Some id
               /\ idString (prop "role" (Some m)) = Some "LEAD".

(** The entries of a [{ success, data: [...] }] answer. *)
Definition entriesOf (o : Outcome) : list Json :=
  match dataOf o with
  | Some (JArr l) => l
  | _ => []
  end.

(** A validator that refuses every audit entry and is [schemaValid] on the
    other models; and a handler's result with the audit log left out. *)
Definition refusingAudit (schemaValid : Model -> Doc -> bool) : Model -> Doc -> bool :=
  fun m d =>
    match m with
    | AuditLogModel => false
    | _ => schemaValid m d
    end.

Definition unaudited (r : Outcome * Db) : Outcome * Db := (r.1, setAuditLogs [] r.2).



(** ** Further sample data *)

Module Fixture.

(** An ORG_ADMIN of another tenant. *)
Definition outsider := mkPrincipal "u-out" "admin@beta.io" "ORG_ADMIN" (Some "beta").

(** A handler's request as the routers hand it on. *)
Definition call (p : Principal) (t : string) (params : list (string * string))
  (body : list (string * Json)) : Request :=
  bound p t (Sample.request p [("x-tenant-id", t)] params body).

Definition withQuery (q : list (string * string)) (r : Request) : Request :=
  mkRequest (req_credential r) (req_ip r) (req_headers r) (list_to_map q) (req_page r)
            (req_limit r) (req_startDate r) (req_endDate r)
            (req_params r) (req_body r) (req_user r) (req_tenantId r) (req_queryFilter r)
            (req_now r).

(** Trimming of spaces, standing in for [String.prototype.trim] in the
    sample calls. *)
Fixpoint dropSpaces (s : string) : string :=
  match s with
  | EmptyString => EmptyString
  | String c rest => if Ascii.eqb c " "%char then dropSpaces rest else s
  end.

Definition trimSpaces (s : string) : string :=
  String.rev (dropSpaces (String.rev (dropSpaces s))).

(** Lower-casing of the ASCII letters, standing in for
    [String.prototype.toLowerCase] and for the lower-case hexadecimal in
    which an ObjectId is written. *)
Definition lowerAscii (c : ascii) : ascii :=
  let n := nat_of_ascii c in
  if Nat.leb 65 n && Nat.leb n 90 then ascii_of_nat (n + 32) else c.

Fixpoint toLower (s : string) : string :=
  match s with
  | EmptyString => EmptyString
  | String c rest => String (lowerAscii c) (toLower rest)
  end.

(** The casts of the sample calls: the setters of the String paths that
    have them (a user's email lower-cased and trimmed, a project's name and
    description trimmed), an id in lower case, any other value as given. *)
Definition cast (m : Model) (path : string) (v : Json) : option Json :=
  match v with
  | JStr s =>
      match m with
      | UserModel =>
          if bool_decide (path = "email") then Some (JStr (trimSpaces (toLower s)))
          else Some v
      | ProjectModel =>
          if bool_decide (path ∈ ["name"; "description"]) then Some (JStr (trimSpaces s))
          else if bool_decide (path ∈ ["managerId"; "members.userId"])
          then Some (JStr (toLower s))
          else Some v
      | _ => Some v
      end
  | _ => Some v
  end.

Definition comment (id author content : string) : Json :=
  obj [("_id", JStr id); ("userId", JStr author); ("content", JStr content);
       ("createdAt", JNum 50); ("updatedAt", JNum 50)].

(** The sample deployment with a comment of the employee on the task, and
    the employee a plain member of the project. *)
Definition commented : Db :=
  setProjects {["p-1" := <["members" := JArr [obj [("userId", JStr "u-emp");
                                                   ("role", JStr "MEMBER");
                                                   ("joinedAt", JNum 40)]]]> Sample.project]}
    (setTasks {["k-1" := <["comments" := JArr [comment "c-1" "u-emp" "Done"]]> Sample.task]}
       Sample.world).

End Fixture.

(** * Properties *)

Ltac listed := repeat constructor.

#[local] Open Scope list_scope.

(** ** Auxiliary facts *)

Lemma truthyStr_nonempty (s : option string) :
  truthyStr s = true -> exists t, s = Some t /\ t <> EmptyString.
Proof. destruct s as [[|c t]|]; simpl; intros H; try discriminate. eauto. Qed.

Lemma prop_obj_cons (k k' : string) (x : Json) (l : list (string * Json)) :
  prop k (Some (obj ((k', x) :: l)))
  = if decide (k' = k) then Some x else prop k (Some (obj l)).
Proof. unfold obj, prop. cbn [list_to_map foldr]. rewrite lookup_insert. reflexivity. Qed.


Lemma countDocuments_pos (coll : gmap string Doc) (matches : Doc -> bool) :
  0 < countDocuments coll matches <-> exists id d, coll !! id = Some d /\ matches d = true.
Proof.
  unfold countDocuments. split.
  - intros H.
    destruct (map_size_ne_0_lookup_1 (filter (fun kv => matches kv.2 = true) coll))
      as (i & [x Hx]); [lia|].
    apply map_lookup_filter_Some in Hx as [Hx Hm]. eauto.
  - intros (i & d & Hd & Hm).
    assert (size (filter (fun kv => matches kv.2 = true) coll) <> 0); [|lia].
    apply (map_size_ne_0_lookup_2 _ i). exists d. apply map_lookup_filter_Some. done.
Qed.

(** A chain that answers before its end answers the same whatever follows. *)
Lemma route_app_stop (chain rest : list Middleware) (h : Handler) (req : Request) (db : Db)
    (o : Outcome) (db' : Db) :
  (forall h', route chain h' req db = (o, db')) -> route (chain ++ rest) h req db = (o, db').
Proof.
  revert req db. induction chain as [|m chain IH]; intros req db H.
  - cbn in H. specialize (H (fun _ _ => (NoResponse, db))) as H1.
    specialize (H (fun _ _ => (NextError EmptyString, db))) as H2. cbn in *. congruence.
  - cbn in *. destruct (m req db) as [[req'|o'] db''].
    + apply IH. exact H.
    + exact (H h).
Qed.

Lemma resolveTenant_db (req : Request) (db : Db) : (resolveTenant req db).2 = db.
Proof.
  unfold resolveTenant. destruct (resolvedTenant req); [|reflexivity].
  cbn. destruct (req_user req); [|reflexivity].
  destruct (_ && _); reflexivity.
Qed.

(** The tenant that resolves is never the empty string. *)
Lemma resolvedTenant_truthy (req : Request) (t : string) :
  resolvedTenant req = Some t -> truthyStr (Some t) = true.
Proof.
  unfold resolvedTenant. cbv zeta.
  match goal with
  | |- (if truthyStr ?x then _ else _) = _ -> _ =>
      destruct (truthyStr x) eqn:E; [intros <-; exact E|discriminate]
  end.
Qed.

Lemma route_app (chain rest : list Middleware) (h : Handler) (req : Request) (db : Db) :
  route (chain ++ rest) h req db = route chain (route rest h) req db.
Proof.
  revert req db. induction chain as [|m chain IH]; intros req db; [reflexivity|].
  cbn. destruct (m req db) as [[req'|o] db']; [apply IH|reflexivity].
Qed.

(** What the four middleware of the task, project, report and audit routers
    make of a verified request. *)
Lemma tenantWorkRouter_cases (h : Handler) (req : Request) (db : Db) (p : Principal) :
  req_credential req = Verified p ->
  route tenantWorkRouter h req db
  = match resolvedTenant (withUser p req) with
    | None => (Respond 400 (failure "Tenant ID is required"), db)
    | Some t =>
        if bool_decide (user_tenantId p ≠ Some t) && bool_decide (user_role p ≠ "SUPER_ADMIN")
        then (Respond 403 (failure "Access denied to this tenant"), db)
        else if bool_decide (user_role p = "SUPER_ADMIN")
        then (Respond 403 (failure
                "SUPER_ADMIN cannot perform tenant-level operations. Use tenant management instead."),
              db)
        else h (bound p t req) db
    end.
Proof.
  intros Hc. unfold tenantWorkRouter. cbn [route]. unfold authenticate. rewrite Hc.
  unfold resolveTenant.
  destruct (resolvedTenant (withUser p req)) as [t|] eqn:Ht; [|reflexivity].
  apply resolvedTenant_truthy in Ht.
  cbn [req_user withTenantId withUser]. destruct (_ && _); [reflexivity|].
  unfold tenantScope. cbn [req_tenantId withTenantId]. rewrite Ht.
  unfold preventSuperAdminTenantWork. cbn [req_user withQueryFilter withTenantId withUser].
  case_bool_decide; reflexivity.
Qed.

Lemma userRouter_cases (h : Handler) (req : Request) (db : Db) (p : Principal) :
  req_credential req = Verified p ->
  route userRouter h req db
  = match resolvedTenant (withUser p req) with
    | None => (Respond 400 (failure "Tenant ID is required"), db)
    | Some t =>
        if bool_decide (user_tenantId p ≠ Some t) && bool_decide (user_role p ≠ "SUPER_ADMIN")
        then (Respond 403 (failure "Access denied to this tenant"), db)
        else h (bound p t req) db
    end.
Proof.
  intros Hc. unfold userRouter. cbn [route]. unfold authenticate. rewrite Hc.
  unfold resolveTenant.
  destruct (resolvedTenant (withUser p req)) as [t|] eqn:Ht; [|reflexivity].
  apply resolvedTenant_truthy in Ht.
  cbn [req_user withTenantId withUser]. destruct (_ && _); [reflexivity|].
  unfold tenantScope. cbn [req_tenantId withTenantId]. rewrite Ht. reflexivity.
Qed.

Lemma bound_user p t req : req_user (bound p t req) = Some p.
Proof. reflexivity. Qed.
Lemma bound_tenantId p t req : req_tenantId (bound p t req) = Some t.
Proof. reflexivity. Qed.
Lemma bound_params p t req : req_params (bound p t req) = req_params req.
Proof. reflexivity. Qed.
Lemma bound_body p t req : req_body (bound p t req) = req_body req.
Proof. reflexivity. Qed.
Lemma bound_query p t req : req_query (bound p t req) = req_query req.
Proof. reflexivity. Qed.

Create Rewrite HintDb bound.
#[local] Hint Rewrite bound_user bound_tenantId bound_params bound_body bound_query : bound.

Lemma findOneInTenant_Some (coll : gmap string Doc) (id : option string) (t : option string)
    (d : Doc) :
  findOneInTenant coll id t = Some d
  <-> exists i, id = Some i /\ coll !! i = Some d /\ field "tenantId" d = t.
Proof.
  unfold findOneInTenant. destruct id as [i|].
  - destruct (coll !! i) as [d'|] eqn:E.
    + case_bool_decide as Ht; split.
      * intros [= ->]. eauto.
      * intros (i' & [= <-] & Hd & _). congruence.
      * discriminate.
      * intros (i' & [= <-] & Hd & Ht'). congruence.
    + split; [discriminate|]. intros (i' & [= <-] & Hd & _). congruence.
  - split; [discriminate|]. intros (i' & Hi & _). discriminate.
Qed.

Lemma orStr_truthy (a b : option string) : truthyStr a = true -> orStr a b = a.
Proof. unfold orStr. by intros ->. Qed.

Lemma truthyStr_Some (s : string) : s <> EmptyString -> truthyStr (Some s) = true.
Proof. by destruct s. Qed.

Lemma authorize_listed (roles : list string) (req : Request) (db : Db) (p : Principal) :
  req_user req = Some p -> user_role p ∈ roles -> authorize roles req db = (Next req, db).
Proof. intros Hu Hr. unfold authorize. rewrite Hu. by rewrite bool_decide_eq_true_2. Qed.

(** Managing a project: its manager, its owner, or a member with the LEAD
    role. *)
Lemma notManaging_false (id : string) (project : Doc) :
  notManaging id project = false <-> managing id project.
Proof.
  unfold managing, notManaging, isManager, isLeadMember, arrayAt.
  rewrite andb_false_iff, !negb_false_iff, orb_true_iff, !bool_decide_eq_true.
  split.
  - intros [[H|H]|H]; [by left|by right; left|right; right].
    destruct (project !! "members") as [[| | | |ms|]|]; try discriminate.
    cbn in H. apply existsb_exists in H as (m & Hin & Hm).
    unfold isLead in Hm. apply andb_true_iff in Hm as [H1 H2].
    apply bool_decide_eq_true in H1, H2.
    exists m. split; [by apply list_elem_of_In|]. done.
  - intros [H|[H|(m & Hin & H1 & H2)]]; [by left; left|by left; right|right].
    destruct (project !! "members") as [[| | | |ms|]|]; try by apply elem_of_nil in Hin.
    cbn. apply existsb_exists. exists m. split; [by apply list_elem_of_In|].
    unfold isLead. apply andb_true_iff. by rewrite !bool_decide_eq_true.
Qed.

(** A save touches no path but [updatedAt]. *)
Lemma touched_lookup (now : Z) (before after : Doc) (k : string) :
  k <> "updatedAt" -> touched now before after !! k = after !! k.
Proof.
  intros Hk. unfold touched. case_bool_decide; [reflexivity|].
  by rewrite lookup_insert_ne.
Qed.

Lemma touched_field (now : Z) (before after : Doc) (k : string) :
  k <> "updatedAt" -> field k (touched now before after) = field k after.
Proof. intros Hk. unfold field. by rewrite touched_lookup. Qed.




Section AuditService.

Variable schemaValid : Model -> Doc -> bool.

Lemma createAuditLog_setPermissions (now : Z) (d : Doc) (perms : gmap string Doc) (db : Db) :
  createAuditLog schemaValid now d (setPermissions perms db)
  = setPermissions perms (createAuditLog schemaValid now d db).
Proof. unfold createAuditLog. cbn. destruct (schemaValid AuditLogModel _); reflexivity. Qed.

Lemma createAuditLog_projects (now : Z) (d : Doc) (db : Db) :
  projects (createAuditLog schemaValid now d db) = projects db.
Proof. unfold createAuditLog. destruct (schemaValid AuditLogModel _); reflexivity. Qed.

Lemma createAuditLog_tasks (now : Z) (d : Doc) (db : Db) :
  tasks (createAuditLog schemaValid now d db) = tasks db.
Proof. unfold createAuditLog. destruct (schemaValid AuditLogModel _); reflexivity. Qed.

End AuditService.

(** ** Principal and role model *)



(** A role outside the table falls back to the EMPLOYEE defaults. *)
Lemma getDefaultPermissionsForRole_fallback (role : string) :
  role ∉ roleName <$> [SUPER_ADMIN; ORG_ADMIN; PROJECT_MANAGER; EMPLOYEE] ->
  getDefaultPermissionsForRole role = getDefaultPermissionsForRole "EMPLOYEE".
Proof.
  intros H. unfold getDefaultPermissionsForRole.
  assert (defaultPermissions !! role = None) as ->; [|reflexivity].
  apply not_elem_of_dom. unfold defaultPermissions. rewrite dom_list_to_map_L.
  cbn in *. set_solver.
Qed.

(** The role defaults have the shape of the Permission schema: the cast
    leaves them as they are. *)
Lemma castPermissions_default (role : string) :
  castPermissions (getDefaultPermissionsForRole role)
  = Some (getDefaultPermissionsForRole role).
Proof.
  destruct (decide (role ∈ roleName <$> [SUPER_ADMIN; ORG_ADMIN; PROJECT_MANAGER; EMPLOYEE]))
    as [Hin|Hout].
  - cbn in Hin. rewrite !elem_of_cons, elem_of_nil in Hin.
    destruct Hin as [->|[->|[->|[->|[]]]]]; vm_compute; reflexivity.
  - rewrite (getDefaultPermissionsForRole_fallback role Hout). vm_compute. reflexivity.
Qed.

(** ** Tenant resolver *)

(** C4. When the tenant a request resolves to (header, then query, then host
    label, then the credential's tenant) is not the principal's home tenant
    and the principal is not a SUPER_ADMIN, [resolveTenant] answers 403
    "Access denied to this tenant"; an explicit indicator, when present, is
    the tenant resolved; and [resolveTenant] never changes the database. *)
Theorem resolveTenant_cross_tenant_denied (req : Request) (db : Db) (p : Principal)
    (resolved : string) :
  req_user req = Some p ->
  resolvedTenant req = Some resolved ->
  user_tenantId p <> Some resolved ->
  user_role p <> "SUPER_ADMIN" ->
  resolveTenant req db = (Stop (Respond 403 (failure "Access denied to this tenant")), db)
  /\ (forall explicit,
        orStr (req_headers req !! "x-tenant-id")
          (orStr (req_query req !! "tenantId") (firstLabel <$> req_headers req !! "host"))
        = Some explicit ->
        explicit <> EmptyString -> resolved = explicit)
  /\ (forall req' db', (resolveTenant req' db').2 = db').
Proof.
  intros Hu Hres Hne Hrole. split; [|split].
  - unfold resolveTenant. rewrite Hres. cbn. rewrite Hu.
    rewrite !bool_decide_eq_true_2 by done. reflexivity.
  - intros e He Hnz. unfold resolvedTenant in Hres. rewrite He, Hu in Hres.
    destruct e; [done|]. cbn in Hres. congruence.
  - apply resolveTenant_db.
Qed.

(** The sample deployment meets the hypotheses of the theorem above. *)
Lemma resolveTenant_cross_tenant_denied_witness :
  resolveTenant (withUser Sample.employee
                   (Sample.request Sample.employee [("x-tenant-id", "globex")] [] []))
                Sample.world
  = (Stop (Respond 403 (failure "Access denied to this tenant")), Sample.world).
Proof.
  apply (resolveTenant_cross_tenant_denied
           (withUser Sample.employee
              (Sample.request Sample.employee [("x-tenant-id", "globex")] [] []))
           Sample.world Sample.employee "globex").
  - reflexivity.
  - reflexivity.
  - discriminate.
  - discriminate.
Defined.

(** A principal of the resolved tenant, and any SUPER_ADMIN, passes with the
    tenant bound to the request. *)
Lemma resolveTenant_passes (req : Request) (db : Db) (p : Principal) (t : string) :
  req_user req = Some p ->
  resolvedTenant req = Some t ->
  user_tenantId p = Some t \/ user_role p = "SUPER_ADMIN" ->
  resolveTenant req db = (Next (withTenantId t req), db).
Proof.
  intros Hu Hres H. unfold resolveTenant. rewrite Hres. cbn. rewrite Hu.
  destruct H as [H|H].
  - rewrite (bool_decide_eq_false_2 (user_tenantId p <> Some t)) by (intros N; by apply N).
    reflexivity.
  - rewrite (bool_decide_eq_false_2 (user_role p <> "SUPER_ADMIN")) by (intros N; by apply N).
    rewrite andb_false_r. reflexivity.
Qed.

(** ** The SUPER_ADMIN gate *)

(** C3, as stated, fails twice.  A SUPER_ADMIN deletes a tenant's user through
    the user router (a USER operation, category other than TENANT) and is
    answered 200; and on the task router a SUPER_ADMIN request from which no
    tenant resolves is answered 400 "Tenant ID is required", not 403. *)
Lemma super_admin_scope_counterexample :
  let deleteUser :=
    DELETE_users_id requiredAndEnums
      (Sample.request Sample.root [("x-tenant-id", "acme")] [("id", "u-emp")] [])
      Sample.world in
  let deleteTask :=
    DELETE_tasks_id requiredAndEnums
      (Sample.request Sample.root [("host", EmptyString)] [("id", "k-1")] []) Sample.world in
  user_role Sample.root = "SUPER_ADMIN"
  /\ present (users Sample.world) "u-emp" = true
  /\ statusOf deleteUser.1 = Some 200
  /\ messageOf deleteUser.1 = Some "User deleted successfully"
  /\ present (users deleteUser.2) "u-emp" = false
  /\ statusOf deleteTask.1 = Some 400
  /\ messageOf deleteTask.1 = Some "Tenant ID is required".
Proof. cbv zeta. repeat split; vm_compute; reflexivity. Qed.

(** C3, amended.  On every route of the task, project, report and audit
    routers, whatever middleware and controller follow the router's own, a
    SUPER_ADMIN's request is answered before the controller runs and the
    database is left as it was: 403 "SUPER_ADMIN cannot perform tenant-level
    operations..." when a tenant resolves from the request, 400 "Tenant ID
    is required" when none does. *)
Theorem super_admin_refused_on_tenant_work (router rest : list Middleware) (h : Handler)
    (req : Request) (db : Db) (p : Principal) :
  router ∈ [taskRouter; projectRouter; reportRouter; auditRouter] ->
  req_credential req = Verified p ->
  user_role p = "SUPER_ADMIN" ->
  route (router ++ rest) h req db
  = (match resolvedTenant (withUser p req) with
     | Some _ =>
         Respond 403 (failure
           "SUPER_ADMIN cannot perform tenant-level operations. Use tenant management instead.")
     | None => Respond 400 (failure "Tenant ID is required")
     end, db).
Proof.
  intros Hr Hc Hrole.
  assert (router = tenantWorkRouter) as ->.
  { rewrite !elem_of_cons in Hr. rewrite elem_of_nil in Hr. intuition. }
  rewrite route_app, (tenantWorkRouter_cases _ _ _ _ Hc).
  destruct (resolvedTenant (withUser p req)) as [t|]; [|reflexivity].
  rewrite Hrole.
  rewrite (bool_decide_eq_false_2 ("SUPER_ADMIN" <> "SUPER_ADMIN")) by (intros H; by apply H).
  rewrite andb_false_r. reflexivity.
Qed.

(** The sample deployment meets the hypotheses of the theorem above. *)
Lemma super_admin_refused_on_tenant_work_witness :
  DELETE_tasks_id requiredAndEnums
    (Sample.request Sample.root [("x-tenant-id", "acme")] [("id", "k-1")] []) Sample.world
  = (Respond 403 (failure
       "SUPER_ADMIN cannot perform tenant-level operations. Use tenant management instead."),
     Sample.world).
Proof.
  apply (super_admin_refused_on_tenant_work taskRouter
           [authorize ["ORG_ADMIN"; "PROJECT_MANAGER"]] (deleteTask requiredAndEnums)
           (Sample.request Sample.root [("x-tenant-id", "acme")] [("id", "k-1")] [])
           Sample.world Sample.root).
  - constructor.
  - reflexivity.
  - reflexivity.
Defined.

(** ** Permission overrides *)

(** C1, as stated, fails.  An ORG_ADMIN stores an override for the project
    manager with [manageTasks.delete] off (the role default has it on); the
    manager then deletes a task of the project they manage and is answered
    200, the task gone. *)
Lemma override_ignored_counterexample :
  let set :=
    PUT_permissions_user requiredAndEnums
      (Sample.request Sample.admin [("host", "acme.ewpm.io")] [("userId", "u-pm")]
         [("permissions", Sample.noTaskDelete)]) Sample.world in
  let delete :=
    DELETE_tasks_id requiredAndEnums
      (Sample.request Sample.manager [("host", "acme.ewpm.io")] [("id", "k-1")] []) set.2 in
  statusOf set.1 = Some 200
  /\ (fun matrix => capability matrix TASK Delete) <$> overrideOf set.2 "u-pm" = Some false
  /\ capability (getDefaultPermissionsForRole "PROJECT_MANAGER") TASK Delete = true
  /\ isManager "u-pm" Sample.project = true
  /\ storedField (tasks set.2) "k-1" "projectId" = Some "p-1"
  /\ statusOf delete.1 = Some 200
  /\ messageOf delete.1 = Some "Task deleted successfully"
  /\ present (tasks delete.2) "k-1" = false.
Proof. cbv zeta. repeat split; vm_compute; reflexivity. Qed.

Section Overrides.

Variable schemaValid : Model -> Doc -> bool.

Lemma route_ignoresPermissions (chain : list Middleware) (h : Handler) :
  Forall ignoresPermissions chain ->
  (forall req db perms,
     h req (setPermissions perms db) = ((h req db).1, setPermissions perms (h req db).2)) ->
  forall req db perms,
    route chain h req (setPermissions perms db)
    = ((route chain h req db).1, setPermissions perms (route chain h req db).2).
Proof.
  intros Hc Hh. induction Hc as [|m chain Hm Hc IH]; intros req db perms; cbn.
  - apply Hh.
  - rewrite Hm. destruct (m req db) as [[req'|o] db']; cbn; [apply IH|reflexivity].
Qed.

Lemma authenticate_ignoresPermissions : ignoresPermissions authenticate.
Proof. intros req db perms. unfold authenticate. destruct (req_credential req); reflexivity. Qed.

Lemma resolveTenant_ignoresPermissions : ignoresPermissions resolveTenant.
Proof.
  intros req db perms. unfold resolveTenant. destruct (resolvedTenant req); [|reflexivity].
  cbn. destruct (req_user req); [|reflexivity]. destruct (_ && _); reflexivity.
Qed.

Lemma tenantScope_ignoresPermissions : ignoresPermissions tenantScope.
Proof.
  intros req db perms. unfold tenantScope.
  destruct (req_tenantId req); [destruct (truthyStr _)|]; reflexivity.
Qed.

Lemma preventSuperAdminTenantWork_ignoresPermissions :
  ignoresPermissions preventSuperAdminTenantWork.
Proof.
  intros req db perms. unfold preventSuperAdminTenantWork.
  destruct (req_user req); [|reflexivity]. destruct (bool_decide _); reflexivity.
Qed.

Lemma authorize_ignoresPermissions (roles : list string) : ignoresPermissions (authorize roles).
Proof.
  intros req db perms. unfold authorize.
  destruct (req_user req); [|reflexivity]. destruct (bool_decide _); reflexivity.
Qed.

Lemma deleteTask_ignoresPermissions (req : Request) (db : Db) (perms : gmap string Doc) :
  deleteTask schemaValid req (setPermissions perms db)
  = ((deleteTask schemaValid req db).1,
     setPermissions perms (deleteTask schemaValid req db).2).
Proof.
  unfold deleteTask. cbn [tasks projects setPermissions].
  destruct (findOneInTenant _ _ _) as [task|]; [|reflexivity].
  destruct (req_params req !! "id") as [id|]; [|reflexivity].
  destruct (req_user req) as [u|]; [|reflexivity].
  destruct (bool_decide (user_role u = "PROJECT_MANAGER")).
  - destruct (findById _ _) as [project|].
    + destruct (notManaging _ _); [reflexivity|].
      unfold setTasks at 1. cbn. rewrite <- createAuditLog_setPermissions. reflexivity.
    + unfold setTasks at 1. cbn. rewrite <- createAuditLog_setPermissions. reflexivity.
  - unfold setTasks at 1. cbn. rewrite <- createAuditLog_setPermissions. reflexivity.
Qed.

(** C1, amended.  No capability matrix is consulted when a task delete is
    authorised.  The whole DELETE /tasks/:id route answers the same, and
    leaves the same database, whatever the Permission collection holds.  The
    effective matrix, the active override when there is one and the role
    default otherwise, is what reading a user's permissions returns.  What
    decides the route, for a principal on their own tenant and a task of
    it, is the role and, for a PROJECT_MANAGER, the management of the task's
    project: an ORG_ADMIN deletes the task; a PROJECT_MANAGER deletes it
    when they manage the project it names (or the project is gone) and is
    answered 403, the database as it was, when they do not; every other
    role is answered 403, the database as it was. *)
Theorem task_delete_ignores_overrides :
  (forall (req : Request) (db : Db) (perms : gmap string Doc),
     DELETE_tasks_id schemaValid req (setPermissions perms db)
     = ((DELETE_tasks_id schemaValid req db).1,
        setPermissions perms (DELETE_tasks_id schemaValid req db).2))
  /\ (forall (req : Request) (db : Db) (u : Principal) (userId : string) (user : Doc),
        req_user req = Some u ->
        req_params req !! "userId" = Some userId ->
        users db !! userId = Some user ->
        user_role u <> "ORG_ADMIN"
        \/ (field "role" user = Some "PROJECT_MANAGER" \/ field "role" user = Some "EMPLOYEE")
           /\ field "tenantId" user = req_tenantId req ->
        exists answer,
          getUserPermissions req db = (answer, db)
          /\ statusOf answer = Some 200
          /\ prop "permissions" (dataOf answer)
             = match findActivePermission db userId with
               | Some override => override !! "permissions"
               | None => Some (getDefaultPermissionsForRole (roleOf user))
               end)
  /\ (forall (req : Request) (db : Db) (p : Principal) (t id : string) (task : Doc),
        req_credential req = Verified p ->
        resolvedTenant (withUser p req) = Some t ->
        user_tenantId p = Some t ->
        req_params req !! "id" = Some id ->
        tasks db !! id = Some task ->
        field "tenantId" task = Some t ->
        let answer := DELETE_tasks_id schemaValid req db in
        let deleted :=
          answer.1 = Respond 200 (obj [("success", JBool true);
                                       ("message", JStr "Task deleted successfully")])
          /\ tasks answer.2 = delete id (tasks db) in
        let refused (message : string) := answer = (Respond 403 (failure message), db) in
        (user_role p = "ORG_ADMIN" -> deleted)
        /\ (user_role p = "PROJECT_MANAGER" ->
            match findById (projects db) (field "projectId" task) with
            | Some project =>
                (managing (user_id p) project -> deleted)
                /\ (~ managing (user_id p) project ->
                    refused "You can only delete tasks in projects you manage")
            | None => deleted
            end)
        /\ (user_role p <> "ORG_ADMIN" -> user_role p <> "PROJECT_MANAGER" ->
            exists message, refused message)).
Proof.
  split; [|split].
  - unfold DELETE_tasks_id.
    apply route_ignoresPermissions; [|apply deleteTask_ignoresPermissions].
    unfold taskRouter, tenantWorkRouter. cbn [app].
    repeat constructor;
      auto using authenticate_ignoresPermissions, resolveTenant_ignoresPermissions,
        tenantScope_ignoresPermissions, preventSuperAdminTenantWork_ignoresPermissions,
        authorize_ignoresPermissions.
  - intros req db u userId user Hu Hp Huser Hscope.
    unfold getUserPermissions. rewrite Hp, Huser, Hu.
    assert (orgAdminScope u req user
              "You can only view permissions for PROJECT_MANAGER and EMPLOYEE users"
              "You can only view permissions for users in your tenant" = None) as ->.
    { unfold orgAdminScope. case_bool_decide as Hr; [|reflexivity].
      destruct Hscope as [?|[Hrole Hten]]; [done|].
      rewrite Hten.
      rewrite (bool_decide_eq_false_2 (req_tenantId req <> req_tenantId req))
        by (intros H; by apply H).
      destruct Hrole as [-> | ->]; reflexivity. }
    destruct (findActivePermission db userId) as [p|]; eexists; (split; [reflexivity|]);
      (split; [reflexivity|]).
    + unfold dataOf. rewrite prop_obj_cons. rewrite decide_False by done.
      rewrite prop_obj_cons. rewrite decide_True by done.
      unfold prop, optField. destruct (p !! "userId"), (p !! "permissions");
        simplify_map_eq; reflexivity.
    + unfold dataOf. rewrite prop_obj_cons. rewrite decide_False by done.
      rewrite prop_obj_cons. rewrite decide_True by done.
      rewrite !prop_obj_cons. repeat (rewrite decide_False by done).
      rewrite decide_True by done. reflexivity.
  - intros req db p t id task Hc Hres Hown Hid Htask Hten. cbv zeta.
    unfold DELETE_tasks_id, taskRouter.
    rewrite route_app, (tenantWorkRouter_cases _ _ _ _ Hc), Hres.
    rewrite (bool_decide_eq_false_2 (user_tenantId p <> Some t)) by (intros N; by apply N).
    cbn [andb].
    assert (findOneInTenant (tasks db) (Some id) (Some t) = Some task) as Hfind
      by (apply findOneInTenant_Some; eauto).
    assert (forall role, user_role p = role -> role ∈ ["ORG_ADMIN"; "PROJECT_MANAGER"] ->
              (if bool_decide (user_role p = "SUPER_ADMIN")
               then (Respond 403 (failure
                       "SUPER_ADMIN cannot perform tenant-level operations. Use tenant management instead."),
                     db)
               else route [authorize ["ORG_ADMIN"; "PROJECT_MANAGER"]] (deleteTask schemaValid)
                      (bound p t req) db)
              = deleteTask schemaValid (bound p t req) db) as Hruns.
    { intros role Hrole Hin.
      rewrite bool_decide_eq_false_2
        by (rewrite Hrole; intros ->; rewrite !elem_of_cons, elem_of_nil in Hin;
            by destruct Hin as [?|[?|[]]]).
      cbn [route]. rewrite (authorize_listed _ _ _ p) by (rewrite ?Hrole; done).
      reflexivity. }
    split; [|split].
    + intros Hrole. rewrite (Hruns _ Hrole) by listed.
      unfold deleteTask. autorewrite with bound. rewrite Hid, Hfind, Hrole.
      rewrite bool_decide_eq_false_2 by done. cbn [fst snd].
      split; [reflexivity|]. rewrite createAuditLog_tasks. reflexivity.
    + intros Hrole. rewrite (Hruns _ Hrole) by listed.
      unfold deleteTask. autorewrite with bound. rewrite Hid, Hfind, Hrole.
      rewrite bool_decide_eq_true_2 by done.
      destruct (findById (projects db) (field "projectId" task)) as [project|].
      * destruct (notManaging (user_id p) project) eqn:Hm.
        -- split; [|reflexivity].
           intros Hyes. apply notManaging_false in Hyes. congruence.
        -- cbn [fst snd]. rewrite createAuditLog_tasks. split; [done|].
           intros Hno. exfalso. apply Hno. by apply notManaging_false.
      * cbn [fst snd]. rewrite createAuditLog_tasks. done.
    + intros Hadmin Hmanager. case_bool_decide; [by eexists|].
      cbn [route]. unfold authorize. autorewrite with bound.
      rewrite bool_decide_eq_false_2; [by eexists|].
      rewrite !elem_of_cons, elem_of_nil. intuition.
Qed.

(** A PROJECT_MANAGER who manages the task's project deletes the task,
    whatever is on record for them. *)
Lemma deleteTask_by_manager (req : Request) (db : Db) (u : Principal) (id : string)
    (task project : Doc) :
  req_user req = Some u ->
  user_role u = "PROJECT_MANAGER" ->
  req_params req !! "id" = Some id ->
  findOneInTenant (tasks db) (Some id) (req_tenantId req) = Some task ->
  findById (projects db) (field "projectId" task) = Some project ->
  notManaging (user_id u) project = false ->
  exists db',
    deleteTask schemaValid req db
    = (Respond 200 (obj [("success", JBool true);
                         ("message", JStr "Task deleted successfully")]), db')
    /\ tasks db' = delete id (tasks db).
Proof.
  intros Hu Hr Hid Hfind Hproj Hman. unfold deleteTask.
  rewrite Hid, Hfind, Hu, Hr. cbn. rewrite Hproj, Hman.
  eexists. split; [reflexivity|]. rewrite createAuditLog_tasks. reflexivity.
Qed.

End Overrides.

(** In the sample deployment the administrator reads the manager's
    effective matrix, the role default; the manager deletes the task of the
    project they manage; and a PROJECT_MANAGER of the tenant who does not
    manage that project is refused, the database as it was. *)
Lemma task_delete_ignores_overrides_witness :
  (exists answer,
     getUserPermissions
       (withTenantId "acme" (withUser Sample.admin
          (Sample.request Sample.admin [] [("userId", "u-pm")] []))) Sample.world
     = (answer, Sample.world)
     /\ statusOf answer = Some 200
     /\ prop "permissions" (dataOf answer)
        = Some (getDefaultPermissionsForRole "PROJECT_MANAGER"))
  /\ (let answer :=
        DELETE_tasks_id requiredAndEnums
          (Sample.request Sample.manager [("x-tenant-id", "acme")] [("id", "k-1")] [])
          Sample.world in
      answer.1 = Respond 200 (obj [("success", JBool true);
                                   ("message", JStr "Task deleted successfully")])
      /\ tasks answer.2 = delete "k-1" (tasks Sample.world))
  /\ DELETE_tasks_id requiredAndEnums
       (Sample.request (mkPrincipal "u-pm2" "pm2@acme.io" "PROJECT_MANAGER" (Some "acme"))
          [("x-tenant-id", "acme")] [("id", "k-1")] [])
       Sample.world
     = (Respond 403 (failure "You can only delete tasks in projects you manage"), Sample.world).
Proof.
  destruct (task_delete_ignores_overrides requiredAndEnums) as (_ & Hread & Hdecides).
  assert (findById (projects Sample.world) (field "projectId" Sample.task) = Some Sample.project)
    as Hproject by reflexivity.
  split; [|split].
  - apply (Hread
             (withTenantId "acme" (withUser Sample.admin
                (Sample.request Sample.admin [] [("userId", "u-pm")] [])))
             Sample.world Sample.admin "u-pm"
             (Sample.userDoc "u-pm" "pm@acme.io" "Pat" "Em" "PROJECT_MANAGER" (Some "acme"))).
    + reflexivity.
    + reflexivity.
    + reflexivity.
    + right. split; [left|]; reflexivity.
  - destruct (Hdecides
                (Sample.request Sample.manager [("x-tenant-id", "acme")] [("id", "k-1")] [])
                Sample.world Sample.manager "acme" "k-1" Sample.task)
      as (_ & Hmanager & _).
    + reflexivity.
    + reflexivity.
    + reflexivity.
    + reflexivity.
    + reflexivity.
    + reflexivity.
    + specialize (Hmanager eq_refl). rewrite Hproject in Hmanager.
      apply Hmanager. left. reflexivity.
  - destruct (Hdecides
                (Sample.request (mkPrincipal "u-pm2" "pm2@acme.io" "PROJECT_MANAGER" (Some "acme"))
                   [("x-tenant-id", "acme")] [("id", "k-1")] [])
                Sample.world (mkPrincipal "u-pm2" "pm2@acme.io" "PROJECT_MANAGER" (Some "acme"))
                "acme" "k-1" Sample.task)
      as (_ & Hmanager & _).
    + reflexivity.
    + reflexivity.
    + reflexivity.
    + reflexivity.
    + reflexivity.
    + reflexivity.
    + specialize (Hmanager eq_refl). rewrite Hproject in Hmanager.
      apply Hmanager. intros [H|[H|(m & Hin & _)]].
      * vm_compute in H. discriminate H.
      * vm_compute in H. discriminate H.
      * vm_compute in Hin. inversion Hin.
Defined.

(** C6.  The code lets a principal reset their own override.  The platform's
    SUPER_ADMIN, who has no override record, asks to reset the permissions
    of their own user id: the answer is 200 "Permissions reset to defaults
    successfully" and a record now exists for them.  The sibling update, on
    the same id by the same principal, is answered 403 "Cannot modify your
    own permissions" and writes nothing. *)
Theorem resetUserPermissions_allows_self :
  let reset :=
    POST_permissions_user_reset requiredAndEnums
      (Sample.request Sample.root [] [("userId", "u-root")] []) Sample.world in
  let set :=
    PUT_permissions_user requiredAndEnums
      (Sample.request Sample.root [] [("userId", "u-root")]
         [("permissions", getDefaultPermissionsForRole "EMPLOYEE")]) Sample.world in
  user_id Sample.root = "u-root"
  /\ present (permissions Sample.world) "u-root" = false
  /\ statusOf set.1 = Some 403
  /\ messageOf set.1 = Some "Cannot modify your own permissions"
  /\ present (permissions set.2) "u-root" = false
  /\ statusOf reset.1 = Some 200
  /\ messageOf reset.1 = Some "Permissions reset to defaults successfully"
  /\ present (permissions reset.2) "u-root" = true
  /\ (fun matrix => capability matrix TENANT Create) <$> overrideOf reset.2 "u-root"
     = Some true.
Proof. cbv zeta. repeat split; vm_compute; reflexivity. Qed.

Section Unguarded.

Variable schemaValid : Model -> Doc -> bool.

(** Having no self check, [resetUserPermissions] writes the caller's own
    record when the caller is a SUPER_ADMIN. *)
Lemma resetUserPermissions_no_self_check (req : Request) (db : Db) (u : Principal)
    (user : Doc) :
  req_user req = Some u ->
  user_role u = "SUPER_ADMIN" ->
  req_params req !! "userId" = Some (user_id u) ->
  users db !! user_id u = Some user ->
  permissions db !! user_id u = None ->
  (forall p, schemaValid PermissionModel p = true) ->
  exists body db',
    resetUserPermissions schemaValid req db = (Respond 200 body, db')
    /\ overrideOf db' (user_id u) = Some (getDefaultPermissionsForRole (roleOf user)).
Proof.
  intros Hu Hr Hid Huser Hnone Hv. unfold resetUserPermissions.
  rewrite Hid, Huser, Hu. unfold orgAdminScope. rewrite Hr. cbn.
  unfold upsertPermission. rewrite Hnone, castPermissions_default.
  cbn [fmap option_fmap option_map]. rewrite Hv. unfold permissionAnswer.
  cbn [users setPermissions]. rewrite Huser.
  eexists _, _. split; [reflexivity|].
  unfold overrideOf, findActivePermission. cbn [permissions setPermissions].
  rewrite lookup_insert_eq. cbn [list_to_map foldr].
  rewrite (lookup_insert_ne _ "updatedAt" "isActive"),
    (lookup_insert_ne _ "permissions" "isActive"),
    (lookup_insert_ne _ "userId" "isActive"), lookup_insert_eq by done.
  cbn [truthy snd]. rewrite lookup_insert_ne, lookup_insert_eq by done. reflexivity.
Qed.

End Unguarded.

(** An ORG_ADMIN naming their own id is refused by the scope check that
    comes first, with its message, on update and on reset alike. *)
Lemma org_admin_self_refused_by_scope :
  let set :=
    PUT_permissions_user requiredAndEnums
      (Sample.request Sample.admin [("host", "acme.ewpm.io")] [("userId", "u-admin")]
         [("permissions", Sample.noTaskDelete)]) Sample.world in
  let reset :=
    POST_permissions_user_reset requiredAndEnums
      (Sample.request Sample.admin [("host", "acme.ewpm.io")] [("userId", "u-admin")] [])
      Sample.world in
  statusOf set.1 = Some 403
  /\ messageOf set.1
     = Some "You can only manage permissions for PROJECT_MANAGER and EMPLOYEE users"
  /\ present (permissions set.2) "u-admin" = false
  /\ statusOf reset.1 = Some 403
  /\ messageOf reset.1
     = Some "You can only reset permissions for PROJECT_MANAGER and EMPLOYEE users"
  /\ present (permissions reset.2) "u-admin" = false.
Proof. cbv zeta. repeat split; vm_compute; reflexivity. Qed.

(** ** Task status *)

(** [canTransitionTo] is the table of section 4.3. *)
Lemma canTransitionTo_table (task : Doc) (s n : string) :
  field "status" task = Some s ->
  canTransitionTo task (Some (JStr n)) = bool_decide ((s, n) ∈ transitions_spec).
Proof.
  intros Hs. unfold canTransitionTo. rewrite Hs.
  destruct (decide (s ∈ ["TODO"; "IN_PROGRESS"; "IN_REVIEW"; "DONE"; "BLOCKED"; "CANCELLED"]))
    as [Hin|Hout].
  - rewrite !elem_of_cons, elem_of_nil in Hin.
    destruct Hin as [->|[->|[->|[->|[->|[->|[]]]]]]];
      (match goal with
       | |- context [validTransitions !! ?k] =>
           let r := eval vm_compute in (validTransitions !! k) in
           change (validTransitions !! k) with r
       end);
      apply bool_decide_ext; unfold transitions_spec;
      rewrite !elem_of_cons, !elem_of_nil;
      (split; intros H; repeat destruct H as [H|H]; simplify_eq; tauto).
  - assert (validTransitions !! s = None) as ->.
    { apply not_elem_of_dom. unfold validTransitions. rewrite dom_list_to_map_L. cbn.
      intros H. apply Hout. set_solver. }
    symmetry. apply bool_decide_eq_false_2. unfold transitions_spec.
    rewrite !elem_of_cons, elem_of_nil. intros H. apply Hout.
    rewrite !elem_of_cons.
    repeat destruct H as [H|H]; simplify_eq; tauto.
Qed.

(** C2.  The code applies a transition the table forbids.  The task is DONE
    and [canTransitionTo] refuses BLOCKED; the ORG_ADMIN's PATCH of the
    status to BLOCKED is answered 200 and the stored task is BLOCKED. *)
Theorem updateTaskStatus_skips_transition_check :
  let req :=
    Sample.request Sample.admin [("x-tenant-id", "acme")] [("id", "k-1")]
      [("status", JStr "BLOCKED")] in
  let r := PATCH_tasks_id_status requiredAndEnums req Sample.world in
  storedField (tasks Sample.world) "k-1" "status" = Some "DONE"
  /\ canTransitionTo Sample.task (Some (JStr "BLOCKED")) = false
  /\ statusOf r.1 = Some 200
  /\ storedField (tasks r.2) "k-1" "status" = Some "BLOCKED".
Proof. cbv zeta. repeat split; vm_compute; reflexivity. Qed.

Section Status.

Variable schemaValid : Model -> Doc -> bool.

(** Not consulting [canTransitionTo], [updateTaskStatus] stores whatever status
    an ORG_ADMIN supplies for a task of the tenant, provided the schema
    accepts the document. *)
Lemma updateTaskStatus_stores_any_status (req : Request) (db : Db) (u : Principal)
    (id : string) (task : Doc) (status : Json) :
  req_user req = Some u ->
  user_role u = "ORG_ADMIN" ->
  req_params req !! "id" = Some id ->
  findOneInTenant (tasks db) (Some id) (req_tenantId req) = Some task ->
  req_body req !! "status" = Some status ->
  schemaValid TaskModel (<["status" := status]> task) = true ->
  exists body db' stored,
    updateTaskStatus schemaValid req db = (Respond 200 body, db')
    /\ tasks db' !! id = Some stored
    /\ stored !! "status" = Some status.
Proof.
  intros Hu Hr Hid Hfind Hs Hv. unfold updateTaskStatus.
  rewrite Hid, Hfind, Hu, Hr, Hs, Hv. cbn.
  eexists _, _, _. split; [reflexivity|].
  rewrite createAuditLog_tasks. cbn. split; [apply lookup_insert_eq|].
  rewrite touched_lookup by done. apply lookup_insert_eq.
Qed.

End Status.

(** ** Users *)

(** C7, as stated, fails.  An ORG_ADMIN updating a SUPER_ADMIN-role user of
    their own tenant is answered 404 "User not found", not a 403 denial. *)
Lemma org_admin_on_super_admin_counterexample :
  let req := withTenantId "acme" (withUser Sample.admin
               (Sample.request Sample.admin [] [("id", "u-ops")]
                  [("firstName", JStr "Renamed")])) in
  let r := updateUser requiredAndEnums req Sample.world in
  user_role Sample.admin = "ORG_ADMIN"
  /\ storedField (users Sample.world) "u-ops" "role" = Some "SUPER_ADMIN"
  /\ storedField (users Sample.world) "u-ops" "tenantId" = Some "acme"
  /\ statusOf r.1 = Some 404
  /\ messageOf r.1 = Some "User not found"
  /\ statusOf r.1 <> Some 403
  /\ storedField (users r.2) "u-ops" "firstName" = Some "Op".
Proof.
  cbv zeta. repeat split; try (vm_compute; reflexivity). vm_compute. discriminate.
Qed.

Section Users.

Variable schemaValid : Model -> Doc -> bool.

Lemma findUser_hides_super_admin (req : Request) (db : Db) (p : Principal) (id : string)
    (target : Doc) :
  req_user req = Some p ->
  user_role p = "ORG_ADMIN" ->
  req_params req !! "id" = Some id ->
  users db !! id = Some target ->
  field "role" target = Some "SUPER_ADMIN" ->
  findUser req db = None.
Proof.
  intros Hu Hr Hid Ht Hrole. unfold findUser, findOneInTenant. rewrite Hid, Ht.
  case_bool_decide; [|reflexivity]. rewrite Hu, Hr, Hrole. reflexivity.
Qed.

(** C7, amended.  For an ORG_ADMIN and a user record whose role is SUPER_ADMIN,
    reading, updating, deleting and assigning a role to that user all answer
    404 "User not found" and leave the database as it was: the lookup
    excludes such records, whatever any capability matrix holds. *)
Theorem org_admin_never_finds_super_admin (req : Request) (db : Db) (p : Principal)
    (id : string) (target : Doc) :
  req_user req = Some p ->
  user_role p = "ORG_ADMIN" ->
  req_params req !! "id" = Some id ->
  users db !! id = Some target ->
  field "role" target = Some "SUPER_ADMIN" ->
  getUserById req db = (Respond 404 (failure "User not found"), db)
  /\ updateUser schemaValid req db = (Respond 404 (failure "User not found"), db)
  /\ deleteUser schemaValid req db = (Respond 404 (failure "User not found"), db)
  /\ updateUserRole schemaValid req db = (Respond 404 (failure "User not found"), db).
Proof.
  intros Hu Hr Hid Ht Hrole.
  pose proof (findUser_hides_super_admin req db p id target Hu Hr Hid Ht Hrole) as Hf.
  unfold getUserById, updateUser, deleteUser, updateUserRole. rewrite Hf. auto.
Qed.

(** An ORG_ADMIN asking to assign the SUPER_ADMIN role to a user it can see
    is the one case answered 403. *)
Lemma org_admin_cannot_assign_super_admin (req : Request) (db : Db) (p : Principal)
    (id : string) (user : Doc) :
  req_user req = Some p ->
  user_role p = "ORG_ADMIN" ->
  req_params req !! "id" = Some id ->
  findUser req db = Some user ->
  req_body req !! "role" = Some (JStr "SUPER_ADMIN") ->
  updateUserRole schemaValid req db
  = (Respond 403 (failure "You do not have permission to assign SUPER_ADMIN role"), db).
Proof.
  intros Hu Hr Hid Hf Hb. unfold updateUserRole, orgAdminAssignsSuperAdmin.
  rewrite Hf, Hid, Hu, Hr, Hb. reflexivity.
Qed.

End Users.

(** The sample deployment meets the hypotheses of the theorem above. *)
Lemma org_admin_never_finds_super_admin_witness :
  let req := withTenantId "acme" (withUser Sample.admin
               (Sample.request Sample.admin [] [("id", "u-ops")] [])) in
  getUserById req Sample.world = (Respond 404 (failure "User not found"), Sample.world)
  /\ updateUser requiredAndEnums req Sample.world
     = (Respond 404 (failure "User not found"), Sample.world)
  /\ deleteUser requiredAndEnums req Sample.world
     = (Respond 404 (failure "User not found"), Sample.world)
  /\ updateUserRole requiredAndEnums req Sample.world
     = (Respond 404 (failure "User not found"), Sample.world).
Proof.
  apply (org_admin_never_finds_super_admin requiredAndEnums
           (withTenantId "acme" (withUser Sample.admin
              (Sample.request Sample.admin [] [("id", "u-ops")] [])))
           Sample.world Sample.admin "u-ops"
           (Sample.userDoc "u-ops" "ops@acme.io" "Op" "Es" "SUPER_ADMIN" (Some "acme")));
    reflexivity.
Defined.

(** ** Audit listings *)

Lemma superAdminIds_spec (db : Db) (id : string) :
  id ∈ superAdminIds db
  <-> exists author, users db !! id = Some author /\ field "role" author = Some "SUPER_ADMIN".
Proof.
  unfold superAdminIds. rewrite list_elem_of_fmap. split.
  - intros ([i d] & -> & H). apply elem_of_map_to_list in H.
    apply map_lookup_filter_Some in H as [H1 H2]. eauto.
  - intros (d & H1 & H2). exists (id, d). split; [done|].
    apply elem_of_map_to_list, map_lookup_filter_Some. done.
Qed.

Lemma in_superAdminIds (db : Db) (log : Doc) :
  bool_decide (field "userId" log ∈ Some <$> superAdminIds db) = authoredBySuperAdmin db log.
Proof.
  unfold authoredBySuperAdmin. destruct (field "userId" log) as [id|].
  - destruct (users db !! id) as [author|] eqn:Ha.
    + apply bool_decide_ext. rewrite list_elem_of_fmap. split.
      * intros (i & [= <-] & Hi). apply superAdminIds_spec in Hi as (a & Ha' & Hr).
        congruence.
      * intros Hr. exists id. split; [done|]. apply superAdminIds_spec. eauto.
    + apply bool_decide_eq_false_2. rewrite list_elem_of_fmap.
      intros (i & [= <-] & Hi). apply superAdminIds_spec in Hi as (a & Ha' & Hr). congruence.
  - apply bool_decide_eq_false_2. rewrite list_elem_of_fmap. intros (i & ? & _). done.
Qed.

Lemma superAdminIds_nil (db : Db) (log : Doc) :
  Nat.ltb 0 (length (superAdminIds db)) = false -> authoredBySuperAdmin db log = false.
Proof.
  intros H. rewrite <- in_superAdminIds. apply bool_decide_eq_false_2.
  destruct (superAdminIds db); [|done]. cbn. apply not_elem_of_nil.
Qed.

Lemma auditQuery_spec (req : Request) (db : Db) (log : Doc) :
  auditQuery req (superAdminIds db) log
  = auditBaseQuery req log && userIdFilter req log && negb (authoredBySuperAdmin db log).
Proof.
  unfold auditQuery, userIdFilter. rewrite !in_superAdminIds.
  destruct (Nat.ltb 0 _) eqn:Hn.
  - destruct (truthyStr _); [|cbn]; rewrite ?andb_assoc, ?andb_true_r; reflexivity.
  - rewrite (superAdminIds_nil db log Hn). cbn. rewrite !andb_true_r. reflexivity.
Qed.

Lemma auditCountQuery_spec (req : Request) (db : Db) (log : Doc) :
  auditCountQuery req (superAdminIds db) log = auditQuery req (superAdminIds db) log.
Proof. reflexivity. Qed.

Lemma paginate_subset (page limit : nat) (l : list Doc) : paginate page limit l ⊆ l.
Proof.
  unfold paginate. intros x Hx. destruct (Nat.eqb limit 0).
  - apply list_elem_of_lookup in Hx as [i Hi]. rewrite lookup_drop in Hi.
    eapply list_elem_of_lookup_2; eauto.
  - apply list_elem_of_lookup in Hx as [i Hi]. apply lookup_take_Some in Hi as [Hi _].
    rewrite lookup_drop in Hi. eapply list_elem_of_lookup_2; eauto.
Qed.

Lemma insertByTimestamp_elem (x y : Doc) (l : list Doc) :
  y ∈ insertByTimestamp x l <-> y = x \/ y ∈ l.
Proof.
  induction l as [|z l IH]; cbn.
  - rewrite list_elem_of_singleton, elem_of_nil. tauto.
  - destruct (_ <? _)%Z; rewrite !elem_of_cons; [tauto|]. rewrite IH. tauto.
Qed.

Lemma newestFirst_elem (y : Doc) (l : list Doc) : y ∈ newestFirst l <-> y ∈ l.
Proof.
  unfold newestFirst. induction l as [|x l IH]; cbn; [done|].
  rewrite insertByTimestamp_elem, elem_of_cons, IH. done.
Qed.

(** The general listing, [getAuditLogs], does exclude the super admins: every
    entry of the page comes from a log no SUPER_ADMIN authored, and the
    total counts exactly the logs that pass the filters and have no
    SUPER_ADMIN author. *)
Lemma getAuditLogs_excludes_super_admins (req : Request) (db : Db) :
  exists page total,
    getAuditLogs req db
    = (listing page (default 1 (req_page req)) (default 50 (req_limit req)) total, db)
    /\ Forall (fun entry =>
                 exists log, log ∈ auditLogs db
                   /\ entry = populate "userId" (users db)
                                ["firstName"; "lastName"; "email"; "role"] log
                   /\ authoredBySuperAdmin db log = false) page
    /\ total = length (filter (fun log => auditBaseQuery req log && userIdFilter req log
                                          && negb (authoredBySuperAdmin db log) = true)
                         (auditLogs db)).
Proof.
  eexists _, _. split; [reflexivity|]. split.
  - apply Forall_forall. intros entry Hin.
    apply list_elem_of_filter in Hin as [_ Hin].
    apply list_elem_of_fmap in Hin as (log & -> & Hlog).
    apply paginate_subset in Hlog. rewrite newestFirst_elem in Hlog.
    apply list_elem_of_filter in Hlog as [Hq Hlog].
    exists log. split; [done|]. split; [done|].
    rewrite auditQuery_spec in Hq. apply andb_true_iff in Hq as [_ Hq].
    by apply negb_true_iff in Hq.
  - f_equal. apply list_filter_iff. intros log.
    rewrite auditCountQuery_spec, auditQuery_spec. done.
Qed.

(** C8.  The per-user listing does not exclude them.  The tenant holds one
    audit record authored by the platform's SUPER_ADMIN; the ORG_ADMIN's
    GET /audit/user/:userId for that id returns the record with a total of
    1, while the general listing filtered by the same id returns nothing
    with a total of 0. *)
Theorem getUserAuditLogs_lists_super_admin :
  let byUser :=
    GET_audit_user
      (Sample.request Sample.admin [("host", "acme.ewpm.io")] [("userId", "u-root")] [])
      Sample.world in
  let general :=
    GET_audit
      (mkRequest (Verified Sample.admin) "10.0.0.7" {["host" := "acme.ewpm.io"]}
         {["userId" := "u-root"]} None None None None ∅ ∅ None None ∅ 100%Z)
      Sample.world in
  storedField (users Sample.world) "u-root" "role" = Some "SUPER_ADMIN"
  /\ (fun log => (field "tenantId" log, field "userId" log)) <$> auditLogs Sample.world
     = [(Some "acme", Some "u-admin"); (Some "acme", Some "u-root")]
  /\ statusOf byUser.1 = Some 200
  /\ authorsOf byUser.1 = [Some "u-root"]
  /\ totalOf byUser.1 = Some (JNum 1)
  /\ statusOf general.1 = Some 200
  /\ authorsOf general.1 = []
  /\ totalOf general.1 = Some (JNum 0).
Proof. cbv zeta. repeat split; vm_compute; reflexivity. Qed.

(** ** Projects *)

Section UpdateProject.

Variable cast : Model -> string -> Json -> option Json.
Variable schemaValid : Model -> Doc -> bool.






End UpdateProject.



Section DeleteProject.

Variable schemaValid : Model -> Doc -> bool.

(** C10.  For a project found in the request's tenant: if some task carries
    its id, [deleteProject] answers 400 "Cannot delete project with existing
    tasks" and leaves the database as it was; an answer of 200 is only given
    when no task does; and when none does the project is removed, the tasks
    untouched. *)
Theorem deleteProject_refuses_project_with_tasks (req : Request) (db : Db) (id : string)
    (project : Doc) :
  req_params req !! "id" = Some id ->
  findOneInTenant (projects db) (Some id) (req_tenantId req) = Some project ->
  let hasTask :=
    exists taskId task,
      tasks db !! taskId = Some task /\ field "projectId" task = field "_id" project in
  (hasTask ->
     deleteProject schemaValid req db
     = (Respond 400 (failure "Cannot delete project with existing tasks"), db))
  /\ (forall body db', deleteProject schemaValid req db = (Respond 200 body, db') -> ~ hasTask)
  /\ (~ hasTask -> forall u, req_user req = Some u ->
      exists db',
        deleteProject schemaValid req db
        = (Respond 200 (obj [("success", JBool true);
                             ("message", JStr "Project deleted successfully")]), db')
        /\ projects db' = delete id (projects db)
        /\ tasks db' = tasks db).
Proof.
  intros Hid Hfind hasTask.
  assert (hasTask <-> 0 < countDocuments (tasks db)
            (fun t => bool_decide (field "projectId" t = field "_id" project))) as Hcount.
  { rewrite countDocuments_pos. unfold hasTask. split.
    - intros (i & t & Ht & Hp). exists i, t. split; [done|]. by apply bool_decide_eq_true_2.
    - intros (i & t & Ht & Hp). exists i, t. split; [done|].
      by apply bool_decide_eq_true_1 in Hp. }
  unfold deleteProject. rewrite Hid, Hfind.
  split; [|split].
  - intros H. apply Hcount in H. apply Nat.ltb_lt in H. rewrite H. reflexivity.
  - intros body db' Hrun H. apply Hcount in H. apply Nat.ltb_lt in H. rewrite H in Hrun.
    discriminate.
  - intros H u Hu. rewrite Hu.
    destruct (Nat.ltb_spec 0 (countDocuments (tasks db)
      (fun t => bool_decide (field "projectId" t = field "_id" project)))) as [Hlt|_].
    { exfalso. apply H, Hcount, Hlt. }
    eexists. split; [reflexivity|].
    rewrite createAuditLog_projects, createAuditLog_tasks. done.
Qed.

End DeleteProject.

(** The sample deployment meets the hypotheses of the theorem above. *)
Lemma deleteProject_refuses_project_with_tasks_witness :
  deleteProject requiredAndEnums
    (withTenantId "acme" (withUser Sample.admin
       (Sample.request Sample.admin [] [("id", "p-1")] []))) Sample.world
  = (Respond 400 (failure "Cannot delete project with existing tasks"), Sample.world).
Proof.
  apply (proj1 (deleteProject_refuses_project_with_tasks requiredAndEnums
           (withTenantId "acme" (withUser Sample.admin
              (Sample.request Sample.admin [] [("id", "p-1")] [])))
           Sample.world "p-1" Sample.project eq_refl eq_refl)).
  exists "k-1", Sample.task. split; reflexivity.
Defined.

(** * Further properties of the routers, middleware and controllers *)

(** ** Routing *)

#[local] Open Scope list_scope.

(** On the task, project, report and audit routers whatever is registered
    after the router's own middleware runs only for a principal who is not a
    SUPER_ADMIN, on the principal's own tenant, and with that tenant bound
    to the request; every other verified request is answered 400 or 403
    with the database as it was. *)
Theorem tenant_work_runs_in_own_tenant (rest : list Middleware) (h : Handler)
    (req : Request) (db : Db) (p : Principal) :
  req_credential req = Verified p ->
  (exists t, user_tenantId p = Some t
             /\ user_role p <> "SUPER_ADMIN"
             /\ resolvedTenant (withUser p req) = Some t
             /\ route (tenantWorkRouter ++ rest) h req db = route rest h (bound p t req) db)
  \/ (exists s m, s ∈ [400; 403]
                  /\ route (tenantWorkRouter ++ rest) h req db = (Respond s (failure m), db)).
Proof.
  intros Hc. rewrite route_app, (tenantWorkRouter_cases _ _ _ _ Hc).
  destruct (resolvedTenant (withUser p req)) as [t|].
  - case_bool_decide as Ht; cbn [andb].
    + case_bool_decide as Hr.
      * right. eexists 403, _. split; [listed|reflexivity].
      * rewrite bool_decide_eq_true_2 by (by destruct (decide (user_role p = "SUPER_ADMIN"))).
        right. eexists 403, _. split; [listed|reflexivity].
    + case_bool_decide as Hr.
      * right. eexists 403, _. split; [listed|reflexivity].
      * left. exists t. split; [by destruct (decide (user_tenantId p = Some t))|]. done.
  - right. eexists 400, _. split; [listed|reflexivity].
Qed.

(** The sample deployment meets the hypothesis of the theorem above. *)
Lemma tenant_work_runs_in_own_tenant_witness :
  (exists t, user_tenantId Sample.admin = Some t
             /\ user_role Sample.admin <> "SUPER_ADMIN"
             /\ resolvedTenant
                  (withUser Sample.admin
                     (Sample.request Sample.admin [("x-tenant-id", "acme")] [("id", "k-1")] []))
                = Some t
             /\ route (tenantWorkRouter ++ [restrictToOwnTasks]) getTaskById
                  (Sample.request Sample.admin [("x-tenant-id", "acme")] [("id", "k-1")] [])
                  Sample.world
                = route [restrictToOwnTasks] getTaskById
                    (bound Sample.admin t
                       (Sample.request Sample.admin [("x-tenant-id", "acme")] [("id", "k-1")] []))
                    Sample.world)
  \/ (exists s m, s ∈ [400; 403]
                  /\ route (tenantWorkRouter ++ [restrictToOwnTasks]) getTaskById
                       (Sample.request Sample.admin [("x-tenant-id", "acme")] [("id", "k-1")] [])
                       Sample.world
                     = (Respond s (failure m), Sample.world)).
Proof.
  apply (tenant_work_runs_in_own_tenant [restrictToOwnTasks] getTaskById
           (Sample.request Sample.admin [("x-tenant-id", "acme")] [("id", "k-1")] [])
           Sample.world Sample.admin).
  reflexivity.
Defined.

(** On the user router the controller runs only with a resolved tenant bound
    to the request, which is the principal's own unless the principal is a
    SUPER_ADMIN. *)
Theorem user_routes_run_in_resolved_tenant (rest : list Middleware) (h : Handler)
    (req : Request) (db : Db) (p : Principal) :
  req_credential req = Verified p ->
  (exists t, (user_tenantId p = Some t \/ user_role p = "SUPER_ADMIN")
             /\ resolvedTenant (withUser p req) = Some t
             /\ route (userRouter ++ rest) h req db = route rest h (bound p t req) db)
  \/ (exists s m, s ∈ [400; 403]
                  /\ route (userRouter ++ rest) h req db = (Respond s (failure m), db)).
Proof.
  intros Hc. rewrite route_app, (userRouter_cases _ _ _ _ Hc).
  destruct (resolvedTenant (withUser p req)) as [t|].
  - case_bool_decide as Ht; cbn [andb].
    + case_bool_decide as Hr.
      * right. eexists 403, _. split; [listed|reflexivity].
      * left. exists t. split; [|done]. right.
        by destruct (decide (user_role p = "SUPER_ADMIN")).
    + left. exists t. split; [|done]. left.
      by destruct (decide (user_tenantId p = Some t)).
  - right. eexists 400, _. split; [listed|reflexivity].
Qed.

(** The sample deployment meets the hypothesis of the theorem above. *)
Lemma user_routes_run_in_resolved_tenant_witness :
  (exists t, (user_tenantId Sample.root = Some t \/ user_role Sample.root = "SUPER_ADMIN")
             /\ resolvedTenant
                  (withUser Sample.root
                     (Sample.request Sample.root [("x-tenant-id", "acme")] [("id", "u-emp")] []))
                = Some t
             /\ route (userRouter ++ []) getUserById
                  (Sample.request Sample.root [("x-tenant-id", "acme")] [("id", "u-emp")] [])
                  Sample.world
                = route [] getUserById
                    (bound Sample.root t
                       (Sample.request Sample.root [("x-tenant-id", "acme")] [("id", "u-emp")] []))
                    Sample.world)
  \/ (exists s m, s ∈ [400; 403]
                  /\ route (userRouter ++ []) getUserById
                       (Sample.request Sample.root [("x-tenant-id", "acme")] [("id", "u-emp")] [])
                       Sample.world
                     = (Respond s (failure m), Sample.world)).
Proof.
  apply (user_routes_run_in_resolved_tenant [] getUserById
           (Sample.request Sample.root [("x-tenant-id", "acme")] [("id", "u-emp")] [])
           Sample.world Sample.root).
  reflexivity.
Defined.

(** A route registered with [authorize(roles)] on one of the five routers
    never runs what follows for a principal whose role is not listed: the
    answer is a 400 or 403 whatever the controller, and the database is as
    it was. *)
Theorem authorize_stops_unlisted_roles (router rest : list Middleware) (roles : list string)
    (req : Request) (db : Db) (p : Principal) :
  router ∈ [taskRouter; projectRouter; reportRouter; auditRouter; userRouter] ->
  req_credential req = Verified p ->
  user_role p ∉ roles ->
  exists s m, s ∈ [400; 403]
    /\ forall h, route (router ++ authorize roles :: rest) h req db = (Respond s (failure m), db).
Proof.
  intros Hin Hc Hrole.
  assert (router = tenantWorkRouter \/ router = userRouter) as [-> | ->].
  { rewrite !elem_of_cons, elem_of_nil in Hin. unfold taskRouter, projectRouter, reportRouter,
      auditRouter in Hin. intuition. }
  - destruct (resolvedTenant (withUser p req)) as [t|] eqn:Ht.
    + destruct (bool_decide (user_tenantId p ≠ Some t) && bool_decide (user_role p ≠ "SUPER_ADMIN"))
        eqn:Hd; [|destruct (bool_decide (user_role p = "SUPER_ADMIN")) eqn:Hs].
      * eexists 403, _. split; [listed|]. intros h.
        rewrite route_app, (tenantWorkRouter_cases _ _ _ _ Hc), Ht, Hd. reflexivity.
      * eexists 403, _. split; [listed|]. intros h.
        rewrite route_app, (tenantWorkRouter_cases _ _ _ _ Hc), Ht, Hd, Hs. reflexivity.
      * eexists 403, _. split; [listed|]. intros h.
        rewrite route_app, (tenantWorkRouter_cases _ _ _ _ Hc), Ht, Hd, Hs.
        cbn. rewrite bool_decide_eq_false_2 by done. reflexivity.
    + eexists 400, _. split; [listed|]. intros h.
      rewrite route_app, (tenantWorkRouter_cases _ _ _ _ Hc), Ht. reflexivity.
  - destruct (resolvedTenant (withUser p req)) as [t|] eqn:Ht.
    + destruct (bool_decide (user_tenantId p ≠ Some t) && bool_decide (user_role p ≠ "SUPER_ADMIN"))
        eqn:Hd.
      * eexists 403, _. split; [listed|]. intros h.
        rewrite route_app, (userRouter_cases _ _ _ _ Hc), Ht, Hd. reflexivity.
      * eexists 403, _. split; [listed|]. intros h.
        rewrite route_app, (userRouter_cases _ _ _ _ Hc), Ht, Hd.
        cbn. rewrite bool_decide_eq_false_2 by done. reflexivity.
    + eexists 400, _. split; [listed|]. intros h.
      rewrite route_app, (userRouter_cases _ _ _ _ Hc), Ht. reflexivity.
Qed.

(** The sample deployment meets the hypotheses of the theorem above. *)
Lemma authorize_stops_unlisted_roles_witness :
  exists s m, s ∈ [400; 403]
    /\ forall h,
         route (projectRouter ++ authorize ["ORG_ADMIN"] :: []) h
           (Sample.request Sample.manager [("x-tenant-id", "acme")] [("id", "p-1")] [])
           Sample.world
         = (Respond s (failure m), Sample.world).
Proof.
  apply (authorize_stops_unlisted_roles projectRouter [] ["ORG_ADMIN"]
           (Sample.request Sample.manager [("x-tenant-id", "acme")] [("id", "p-1")] [])
           Sample.world Sample.manager).
  - repeat constructor.
  - reflexivity.
  - vm_compute. intros H. inversion H as [|? ? ? H']; subst. inversion H'.
Defined.

(** Without a verified token nothing registered on any of the six routers
    runs: the answer is a 401 and the database is as it was. *)
Theorem unverified_token_is_answered_401 (router rest : list Middleware) (h : Handler)
    (req : Request) (db : Db) :
  router ∈ [taskRouter; projectRouter; reportRouter; auditRouter; userRouter; permissionRouter] ->
  (forall p, req_credential req <> Verified p) ->
  exists m, route (router ++ rest) h req db = (Respond 401 (failure m), db).
Proof.
  intros Hin Hc.
  assert (exists tail, router = authenticate :: tail) as [tail ->].
  { rewrite !elem_of_cons, elem_of_nil in Hin.
    destruct Hin as [->|[->|[->|[->|[->|[->|[]]]]]]]; eexists; reflexivity. }
  cbn. unfold authenticate.
  destruct (req_credential req) as [| | | |p] eqn:E; try (eexists; reflexivity).
  by destruct (Hc p).
Qed.

(** A request without a bearer token meets the hypotheses of the theorem
    above. *)
Lemma unverified_token_is_answered_401_witness :
  exists m,
    route (permissionRouter ++ [authorize ["SUPER_ADMIN"; "ORG_ADMIN"]]) getManageableUsers
      (mkRequest NoBearer "10.0.0.7" ∅ ∅ None None None None ∅ ∅ None None ∅ 100) Sample.world
    = (Respond 401 (failure m), Sample.world).
Proof.
  apply (unverified_token_is_answered_401 permissionRouter
           [authorize ["SUPER_ADMIN"; "ORG_ADMIN"]] getManageableUsers
           (mkRequest NoBearer "10.0.0.7" ∅ ∅ None None None None ∅ ∅ None None ∅ 100)
           Sample.world).
  - repeat constructor.
  - intros p H. discriminate H.
Defined.

(** ** Ownership middleware *)

(** Every task route that names a task ([GET], [PUT], [PATCH .../status] and
    the three comment routes) runs its controller for an EMPLOYEE exactly
    when the task is one of the employee's tenant, on which the request
    resolves, and is assigned to the employee: then the route is the
    controller on the request bound to that tenant; in every other case the
    answer is a 400, 403 or 404 whatever the controller, and the database
    is as it was. *)
Theorem employee_reaches_only_assigned_tasks (h : Handler) (req : Request) (db : Db)
    (p : Principal) (id : string) :
  req_credential req = Verified p ->
  user_role p = "EMPLOYEE" ->
  req_params req !! "id" = Some id ->
  id <> EmptyString ->
  let reached (t : string) :=
    resolvedTenant (withUser p req) = Some t
    /\ user_tenantId p = Some t
    /\ exists task,
         tasks db !! id = Some task
         /\ field "tenantId" task = Some t
         /\ field "assigneeId" task = Some (user_id p) in
  (forall t, reached t ->
             route (taskRouter ++ [restrictToOwnTasks]) h req db = h (bound p t req) db)
  /\ ((forall t, ~ reached t) ->
      exists s m, s ∈ [400; 403; 404]
                  /\ route (taskRouter ++ [restrictToOwnTasks]) h req db
                     = (Respond s (failure m), db)).
Proof.
  intros Hc Hrole Hid Hne. cbv zeta.
  rewrite route_app, (tenantWorkRouter_cases _ _ _ _ Hc).
  assert (forall t, route [restrictToOwnTasks] h (bound p t req) db
                    = match findOneInTenant (tasks db) (Some id) (Some t) with
                      | None => (Respond 404 (failure "Task not found"), db)
                      | Some task =>
                          if bool_decide (field "assigneeId" task ≠ Some (user_id p))
                          then (Respond 403
                                  (failure "You can only access tasks assigned to you"), db)
                          else h (bound p t req) db
                      end) as Hguard.
  { intros t. cbn [route]. unfold restrictToOwnTasks. autorewrite with bound.
    rewrite Hrole, Hid. rewrite bool_decide_eq_true_2 by done.
    rewrite orStr_truthy by (by apply truthyStr_Some). rewrite truthyStr_Some by done.
    destruct (findOneInTenant (tasks db) (Some id) (Some t)); [|reflexivity].
    case_bool_decide; reflexivity. }
  split.
  - intros t (Hres & Hown & task & Htask & Hten & Hassigned).
    rewrite Hres, Hrole.
    rewrite (bool_decide_eq_false_2 (user_tenantId p <> Some t)) by (intros N; by apply N).
    cbn [andb]. rewrite bool_decide_eq_false_2 by done.
    rewrite Hguard.
    assert (findOneInTenant (tasks db) (Some id) (Some t) = Some task) as ->
      by (apply findOneInTenant_Some; eauto).
    by rewrite bool_decide_eq_false_2 by (intros N; by apply N).
  - intros Hnot.
    destruct (resolvedTenant (withUser p req)) as [t|] eqn:Hres;
      [|eexists 400, _; split; [listed|reflexivity]].
    case_bool_decide as Ht; cbn [andb];
      [case_bool_decide; [eexists 403, _; split; [listed|reflexivity]|]|];
      (case_bool_decide; [eexists 403, _; split; [listed|reflexivity]|]);
      [congruence|].
    assert (user_tenantId p = Some t) as Hown
      by (by destruct (decide (user_tenantId p = Some t))).
    rewrite Hguard.
    destruct (findOneInTenant (tasks db) (Some id) (Some t)) as [task|] eqn:Hf;
      [|eexists 404, _; split; [listed|reflexivity]].
    apply findOneInTenant_Some in Hf as (i & [= <-] & Htask & Hten).
    case_bool_decide as Ha; [eexists 403, _; split; [listed|reflexivity]|].
    exfalso. apply (Hnot t). split; [done|]. split; [done|]. exists task.
    split; [done|]. split; [done|].
    by destruct (decide (field "assigneeId" task = Some (user_id p))).
Qed.

(** In the sample deployment the employee reaches the task assigned to
    them. *)
Lemma employee_reaches_only_assigned_tasks_witness :
  route (taskRouter ++ [restrictToOwnTasks]) getTaskById
    (Sample.request Sample.employee [("x-tenant-id", "acme")] [("id", "k-1")] [])
    Sample.world
  = getTaskById
      (bound Sample.employee "acme"
         (Sample.request Sample.employee [("x-tenant-id", "acme")] [("id", "k-1")] []))
      Sample.world.
Proof.
  apply (proj1 (employee_reaches_only_assigned_tasks getTaskById
                  (Sample.request Sample.employee [("x-tenant-id", "acme")] [("id", "k-1")] [])
                  Sample.world Sample.employee "k-1"
                  eq_refl eq_refl eq_refl ltac:(discriminate)) "acme").
  split; [reflexivity|]. split; [reflexivity|].
  exists Sample.task. split; [reflexivity|]. split; reflexivity.
Defined.

(** The project routes guarded by [restrictToOwnProjects] (update, add and
    remove member) run their controller for a PROJECT_MANAGER exactly when
    the project is one of the manager's tenant, on which the request
    resolves, and the manager manages it as its manager, its owner or a
    LEAD member; being a plain member is not enough.  Then the route is the
    controller on the request bound to that tenant; in every other case the
    answer is a 400, 403 or 404 whatever the controller, and the database
    is as it was. *)
Theorem project_manager_reaches_only_managed_projects (h : Handler) (req : Request) (db : Db)
    (p : Principal) (id : string) :
  req_credential req = Verified p ->
  user_role p = "PROJECT_MANAGER" ->
  req_params req !! "id" = Some id ->
  id <> EmptyString ->
  let reached (t : string) :=
    resolvedTenant (withUser p req) = Some t
    /\ user_tenantId p = Some t
    /\ exists project,
         projects db !! id = Some project
         /\ field "tenantId" project = Some t
         /\ managing (user_id p) project in
  (forall t, reached t ->
             route (projectRouter ++ [authorize ["ORG_ADMIN"; "PROJECT_MANAGER"];
                                      restrictToOwnProjects]) h req db
             = h (bound p t req) db)
  /\ ((forall t, ~ reached t) ->
      exists s m, s ∈ [400; 403; 404]
                  /\ route (projectRouter ++ [authorize ["ORG_ADMIN"; "PROJECT_MANAGER"];
                                              restrictToOwnProjects]) h req db
                     = (Respond s (failure m), db)).
Proof.
  intros Hc Hrole Hid Hne. cbv zeta.
  rewrite route_app, (tenantWorkRouter_cases _ _ _ _ Hc).
  assert (forall t, route [authorize ["ORG_ADMIN"; "PROJECT_MANAGER"]; restrictToOwnProjects] h
                      (bound p t req) db
                    = match findOneInTenant (projects db) (Some id) (Some t) with
                      | None => (Respond 404 (failure "Project not found"), db)
                      | Some project =>
                          if notManaging (user_id p) project
                          then (Respond 403
                                  (failure "You can only manage projects you own or manage"),
                                db)
                          else h (bound p t req) db
                      end) as Hguard.
  { intros t. cbn [route].
    rewrite (authorize_listed _ _ _ p) by (rewrite ?Hrole; done || listed).
    unfold restrictToOwnProjects. autorewrite with bound.
    rewrite Hrole, Hid. rewrite bool_decide_eq_true_2 by done.
    rewrite orStr_truthy by (by apply truthyStr_Some). rewrite truthyStr_Some by done.
    destruct (findOneInTenant (projects db) (Some id) (Some t)); [|reflexivity].
    destruct (notManaging _ _); reflexivity. }
  split.
  - intros t (Hres & Hown & project & Hproject & Hten & Hmanaging).
    rewrite Hres, Hrole.
    rewrite (bool_decide_eq_false_2 (user_tenantId p <> Some t)) by (intros N; by apply N).
    cbn [andb]. rewrite bool_decide_eq_false_2 by done.
    rewrite Hguard.
    assert (findOneInTenant (projects db) (Some id) (Some t) = Some project) as ->
      by (apply findOneInTenant_Some; eauto).
    apply notManaging_false in Hmanaging. by rewrite Hmanaging.
  - intros Hnot.
    destruct (resolvedTenant (withUser p req)) as [t|] eqn:Hres;
      [|eexists 400, _; split; [listed|reflexivity]].
    case_bool_decide as Ht; cbn [andb];
      [case_bool_decide; [eexists 403, _; split; [listed|reflexivity]|]|];
      (case_bool_decide; [eexists 403, _; split; [listed|reflexivity]|]);
      [congruence|].
    assert (user_tenantId p = Some t) as Hown
      by (by destruct (decide (user_tenantId p = Some t))).
    rewrite Hguard.
    destruct (findOneInTenant (projects db) (Some id) (Some t)) as [project|] eqn:Hf;
      [|eexists 404, _; split; [listed|reflexivity]].
    apply findOneInTenant_Some in Hf as (i & [= <-] & Hproject & Hten).
    destruct (notManaging (user_id p) project) eqn:Hm;
      [eexists 403, _; split; [listed|reflexivity]|].
    exfalso. apply (Hnot t). split; [done|]. split; [done|]. exists project.
    split; [done|]. split; [done|]. by apply notManaging_false.
Qed.

(** In the sample deployment the manager reaches the project they manage. *)
Lemma project_manager_reaches_only_managed_projects_witness :
  route (projectRouter ++ [authorize ["ORG_ADMIN"; "PROJECT_MANAGER"]; restrictToOwnProjects])
    (addProjectMember Fixture.cast requiredAndEnums)
    (Sample.request Sample.manager [("x-tenant-id", "acme")] [("id", "p-1")] [])
    Sample.world
  = addProjectMember Fixture.cast requiredAndEnums
      (bound Sample.manager "acme"
         (Sample.request Sample.manager [("x-tenant-id", "acme")] [("id", "p-1")] []))
      Sample.world.
Proof.
  apply (proj1 (project_manager_reaches_only_managed_projects
                  (addProjectMember Fixture.cast requiredAndEnums)
                  (Sample.request Sample.manager [("x-tenant-id", "acme")] [("id", "p-1")] [])
                  Sample.world Sample.manager "p-1"
                  eq_refl eq_refl eq_refl ltac:(discriminate)) "acme").
  split; [reflexivity|]. split; [reflexivity|].
  exists Sample.project. split; [reflexivity|]. split; [reflexivity|].
  left. reflexivity.
Defined.

(** ** Queries *)

Lemma matches_true (query : gmap string Cond) (d : Doc) :
  matches query d = true
  <-> forall path c, query !! path = Some c -> holds path c d = true.
Proof. unfold matches. rewrite bool_decide_eq_true. reflexivity. Qed.

Lemma holds_CEq (path : string) (v : option string) (d : Doc) :
  afterFirstDot path = None -> holds path (CEq v) d = true <-> field path d = v.
Proof.
  intros Hp. unfold holds, valuesAt. rewrite Hp, bool_decide_eq_true.
  rewrite list_elem_of_singleton. split; congruence.
Qed.

Lemma holds_CNe (path : string) (v : string) (d : Doc) :
  afterFirstDot path = None -> holds path (CNe v) d = true <-> field path d <> Some v.
Proof.
  intros Hp. unfold holds, valuesAt. rewrite Hp, bool_decide_eq_true.
  rewrite list_elem_of_singleton. split; intros H E; apply H; congruence.
Qed.

Lemma find_elem (coll : gmap string Doc) (query : gmap string Cond) (d : Doc) :
  d ∈ find coll query <-> d ∈ documents coll /\ matches query d = true.
Proof. unfold find, documents. rewrite list_elem_of_filter. tauto. Qed.

Lemma documents_elem (coll : gmap string Doc) (d : Doc) :
  d ∈ documents coll <-> exists k, coll !! k = Some d.
Proof.
  unfold documents. rewrite list_elem_of_fmap. split.
  - intros ([k d'] & -> & H). exists k. by apply elem_of_map_to_list in H.
  - intros (k & H). exists (k, d). split; [done|]. by apply elem_of_map_to_list.
Qed.

Lemma setIf_lookup_ne (path k : string) (v : option string) (query : gmap string Cond) :
  k <> path -> setIf path v query !! k = query !! k.
Proof. intros H. unfold setIf. destruct (truthyStr v); [|done]. by rewrite lookup_insert_ne. Qed.

Lemma visibleProjects_tenant (req : Request) :
  visibleProjects req !! "tenantId" = Some (CEq (req_tenantId req)).
Proof.
  unfold visibleProjects. destruct (req_user req) as [u|]; [|done].
  repeat case_bool_decide; by simplify_map_eq.
Qed.

(** ** Tenant isolation of the handlers that name a document *)

Section Isolation.

Variable cast : Model -> string -> Json -> option Json.
Variable schemaValid : Model -> Doc -> bool.

Lemma findOneInTenant_elsewhere (coll : gmap string Doc) (id t : option string) :
  (forall i d, id = Some i -> coll !! i = Some d -> field "tenantId" d <> t) ->
  findOneInTenant coll id t = None.
Proof.
  intros H. destruct (findOneInTenant coll id t) as [d|] eqn:E; [|done].
  apply findOneInTenant_Some in E as (i & -> & Hd & Ht). by destruct (H i d).
Qed.

(** Every task handler that names a task, given the id of a task that is
    not of the request's tenant (or of no task), answers 404 "Task not
    found" and leaves the database as it was. *)
Theorem task_of_another_tenant_is_not_found (h : Handler) (newId : string) (req : Request)
    (db : Db) :
  h ∈ [getTaskById; updateTask schemaValid; updateTaskStatus schemaValid;
       deleteTask schemaValid; addComment schemaValid newId; updateComment schemaValid;
       deleteComment schemaValid] ->
  (forall id task, req_params req !! "id" = Some id -> tasks db !! id = Some task ->
                   field "tenantId" task <> req_tenantId req) ->
  h req db = (Respond 404 (failure "Task not found"), db).
Proof.
  intros Hh Hout. apply findOneInTenant_elsewhere in Hout.
  rewrite !elem_of_cons, elem_of_nil in Hh.
  destruct Hh as [->|[->|[->|[->|[->|[->|[->|[]]]]]]]];
    [unfold getTaskById|unfold updateTask|unfold updateTaskStatus|unfold deleteTask
    |unfold addComment|unfold updateComment|unfold deleteComment];
    rewrite Hout; reflexivity.
Qed.

(** Every project handler that names a project, given the id of a project
    that is not of the request's tenant (or of no project), answers 404
    "Project not found" and leaves the database as it was. *)
Theorem project_of_another_tenant_is_not_found (h : Handler) (req : Request) (db : Db) :
  h ∈ [getProjectById; updateProject cast schemaValid; deleteProject schemaValid;
       addProjectMember cast schemaValid; removeProjectMember schemaValid] ->
  (forall id project, req_params req !! "id" = Some id -> projects db !! id = Some project ->
                      field "tenantId" project <> req_tenantId req) ->
  h req db = (Respond 404 (failure "Project not found"), db).
Proof.
  intros Hh Hout.
  rewrite !elem_of_cons, elem_of_nil in Hh.
  destruct Hh as [->|[->|[->|[->|[->|[]]]]]].
  - unfold getProjectById, findOneById, findById.
    destruct (req_params req !! "id") as [id|] eqn:Hid; [|reflexivity].
    destruct (projects db !! id) as [project|] eqn:Hp; [|reflexivity].
    destruct (matches (visibleProjects req) project) eqn:Hm; [|reflexivity].
    destruct (Hout id project eq_refl Hp).
    rewrite matches_true in Hm. specialize (Hm _ _ (visibleProjects_tenant req)).
    by apply holds_CEq in Hm.
  - apply findOneInTenant_elsewhere in Hout. unfold updateProject. by rewrite Hout.
  - apply findOneInTenant_elsewhere in Hout. unfold deleteProject. by rewrite Hout.
  - apply findOneInTenant_elsewhere in Hout. unfold addProjectMember. by rewrite Hout.
  - apply findOneInTenant_elsewhere in Hout. unfold removeProjectMember. by rewrite Hout.
Qed.

(** Every user handler that names a user, given the id of a user that is
    not of the request's tenant (or of no user), answers 404 "User not
    found" and leaves the database as it was. *)
Theorem user_of_another_tenant_is_not_found (h : Handler) (req : Request) (db : Db) :
  h ∈ [getUserById; updateUser schemaValid; deleteUser schemaValid;
       updateUserRole schemaValid] ->
  (forall id user, req_params req !! "id" = Some id -> users db !! id = Some user ->
                   field "tenantId" user <> req_tenantId req) ->
  h req db = (Respond 404 (failure "User not found"), db).
Proof.
  intros Hh Hout. apply findOneInTenant_elsewhere in Hout.
  assert (findUser req db = None) as Hnone by (unfold findUser; by rewrite Hout).
  rewrite !elem_of_cons, elem_of_nil in Hh.
  destruct Hh as [->|[->|[->|[->|[]]]]];
    [unfold getUserById|unfold updateUser|unfold deleteUser|unfold updateUserRole];
    rewrite Hnone; reflexivity.
Qed.

End Isolation.

(** A request on tenant beta for a task, a project and a user of tenant acme
    meets the hypotheses of the three theorems above. *)
Lemma task_of_another_tenant_is_not_found_witness :
  deleteTask requiredAndEnums (Fixture.call Fixture.outsider "beta" [("id", "k-1")] [])
    Sample.world
  = (Respond 404 (failure "Task not found"), Sample.world).
Proof.
  apply (task_of_another_tenant_is_not_found requiredAndEnums _ EmptyString).
  - listed.
  - intros id task Hid Ht.
    assert (id = "k-1") as -> by (vm_compute in Hid; congruence).
    assert (storedField (tasks Sample.world) "k-1" "tenantId" = Some "acme") as E
      by (vm_compute; reflexivity).
    unfold storedField in E. rewrite Ht in E. cbn [req_tenantId Fixture.call bound
      withQueryFilter withTenantId]. congruence.
Defined.

(** The sample deployment meets the hypotheses of the corresponding theorem. *)
Lemma project_of_another_tenant_is_not_found_witness :
  removeProjectMember requiredAndEnums
    (Fixture.call Fixture.outsider "beta" [("id", "p-1"); ("userId", "u-pm")] []) Sample.world
  = (Respond 404 (failure "Project not found"), Sample.world).
Proof.
  apply (project_of_another_tenant_is_not_found Fixture.cast requiredAndEnums).
  - listed.
  - intros id project Hid Hp.
    assert (id = "p-1") as -> by (vm_compute in Hid; congruence).
    assert (storedField (projects Sample.world) "p-1" "tenantId" = Some "acme") as E
      by (vm_compute; reflexivity).
    unfold storedField in E. rewrite Hp in E. cbn [req_tenantId Fixture.call bound
      withQueryFilter withTenantId]. congruence.
Defined.

(** The sample deployment meets the hypotheses of the corresponding theorem. *)
Lemma user_of_another_tenant_is_not_found_witness :
  updateUserRole requiredAndEnums
    (Fixture.call Fixture.outsider "beta" [("id", "u-emp")] [("role", JStr "ORG_ADMIN")])
    Sample.world
  = (Respond 404 (failure "User not found"), Sample.world).
Proof.
  apply (user_of_another_tenant_is_not_found requiredAndEnums).
  - listed.
  - intros id user Hid Hu.
    assert (id = "u-emp") as -> by (vm_compute in Hid; congruence).
    assert (storedField (users Sample.world) "u-emp" "tenantId" = Some "acme") as E
      by (vm_compute; reflexivity).
    unfold storedField in E. rewrite Hu in E. cbn [req_tenantId Fixture.call bound
      withQueryFilter withTenantId]. congruence.
Defined.

(** ** Task controller *)

Section Tasks.

Variable schemaValid : Model -> Doc -> bool.

Lemma createAuditLog_users (now : Z) (d : Doc) (db : Db) :
  users (createAuditLog schemaValid now d db) = users db.
Proof. unfold createAuditLog. destruct (schemaValid AuditLogModel _); reflexivity. Qed.

Lemma createAuditLog_permissions (now : Z) (d : Doc) (db : Db) :
  permissions (createAuditLog schemaValid now d db) = permissions db.
Proof. unfold createAuditLog. destruct (schemaValid AuditLogModel _); reflexivity. Qed.

Lemma insertNew_Some (coll stored : gmap string Doc) (d : Doc) :
  insertNew coll d = Some stored
  -> exists i, field "_id" d = Some i /\ coll !! i = None /\ stored = <[i := d]> coll.
Proof.
  unfold insertNew. destruct (field "_id" d) as [i|]; [|discriminate].
  destruct (coll !! i) eqn:E; [discriminate|]. intros [= <-]. eauto.
Qed.

(** A task that [createTask] answers 201 for is stored under a fresh id
    with the request's tenant and the caller as reporter, whatever the body
    says of either; its project is the one the body names, a project of the
    request's tenant, and one the caller manages when the caller is a
    PROJECT_MANAGER; nothing else in the task, project and user collections
    changes. *)
Theorem createTask_stamps_tenant_and_reporter (newId : string) (req : Request) (db : Db)
    (u : Principal) :
  req_user req = Some u ->
  statusOf (createTask schemaValid newId req db).1 = Some 201 ->
  exists i task project,
    tasks db !! i = None
    /\ tasks (createTask schemaValid newId req db).2 = <[i := task]> (tasks db)
    /\ task !! "tenantId" = JStr <$> req_tenantId req
    /\ task !! "reporterId" = Some (JStr (user_id u))
    /\ field "projectId" task = field "projectId" (req_body req)
    /\ findOneInTenant (projects db) (field "projectId" (req_body req)) (req_tenantId req)
       = Some project
    /\ (user_role u = "PROJECT_MANAGER" -> notManaging (user_id u) project = false)
    /\ projects (createTask schemaValid newId req db).2 = projects db
    /\ users (createTask schemaValid newId req db).2 = users db.
Proof.
  intros Hu. unfold createTask. rewrite Hu.
  destruct (findOneInTenant _ _ _) as [project|] eqn:Hproject; [|discriminate].
  destruct (bool_decide (user_role u = "PROJECT_MANAGER") && notManaging (user_id u) project)
    eqn:Hgate; [discriminate|].
  destruct (schemaValid TaskModel _); [|discriminate].
  destruct (insertNew _ _) as [stored|] eqn:Hins; [|discriminate].
  intros _. apply insertNew_Some in Hins as (i & Hi & Hfresh & ->).
  cbn [fst snd]. rewrite createAuditLog_tasks, createAuditLog_projects, createAuditLog_users.
  cbn [tasks projects users setTasks].
  eexists i, _, project. split; [done|]. split; [reflexivity|].
  unfold created. repeat split.
  - destruct (req_tenantId req) as [t|]; cbn [assignOpt fmap option_fmap option_map].
    + apply lookup_union_Some_l. by simplify_map_eq.
    + rewrite lookup_union_r by (by simplify_map_eq). by simplify_map_eq.
  - apply lookup_union_Some_l. by simplify_map_eq.
  - apply findOneInTenant_Some in Hproject as (i' & Hbody & _).
    unfold field in Hbody |- *.
    destruct (req_body req !! "projectId") as [v|] eqn:Hv; [|discriminate].
    erewrite lookup_union_Some_l; [reflexivity|].
    rewrite lookup_insert_ne by done.
    unfold assignOpt. destruct (req_tenantId req); cbn;
      [by rewrite lookup_insert_ne|by rewrite lookup_delete_ne].
  - intros Hr. rewrite bool_decide_eq_true_2 in Hgate by done. exact Hgate.
Qed.

(** An EMPLOYEE cannot hand a task on: after an update by an EMPLOYEE that
    is answered 200 the stored task is still assigned to that employee, or
    the body gave a falsy [assigneeId] and the task holds that. *)
Theorem updateTask_employee_cannot_reassign (req : Request) (db : Db) (u : Principal)
    (id : string) :
  req_user req = Some u ->
  user_role u = "EMPLOYEE" ->
  req_params req !! "id" = Some id ->
  statusOf (updateTask schemaValid req db).1 = Some 200 ->
  exists task,
    tasks (updateTask schemaValid req db).2 !! id = Some task
    /\ (field "assigneeId" task = Some (user_id u)
        \/ (truthy (task !! "assigneeId") = false
            /\ task !! "assigneeId" = req_body req !! "assigneeId")).
Proof.
  intros Hu Hr Hid. unfold updateTask. rewrite Hid, Hu, Hr.
  destruct (findOneInTenant _ _ _) as [task|]; [|discriminate].
  rewrite bool_decide_eq_true_2 by done.
  case_bool_decide as Hmine; [discriminate|].
  destruct (truthy (req_body req !! "assigneeId")
            && negb (strictEq (field "assigneeId" task) (req_body req !! "assigneeId")))
    eqn:Hre; [discriminate|].
  destruct (schemaValid TaskModel _); [|discriminate].
  intros _. cbn [fst snd]. rewrite createAuditLog_tasks. cbn [tasks setTasks].
  eexists. split; [apply lookup_insert_eq|].
  rewrite touched_field, !touched_lookup by done.
  assert (field "assigneeId" task = Some (user_id u)) as Hmine'
    by (by destruct (decide (field "assigneeId" task = Some (user_id u)))).
  destruct (req_body req !! "assigneeId") as [v|] eqn:Hb.
  - destruct (truthy (Some v)) eqn:Htr; cbn [andb] in Hre.
    + left. apply negb_false_iff in Hre. unfold strictEq in Hre.
      destruct v; try discriminate. apply bool_decide_eq_true in Hre.
      unfold field. erewrite lookup_union_Some_l by exact Hb. cbn. congruence.
    + right. erewrite lookup_union_Some_l by exact Hb. done.
  - left. unfold field. rewrite lookup_union_r by done. exact Hmine'.
Qed.

(** A comment is changed or removed only by its author or by an ORG_ADMIN,
    and by an EMPLOYEE only on a task assigned to them: when [updateComment]
    or [deleteComment] answers 200 the task is one of the request's tenant,
    the comment is one of its comments and the caller is its author or an
    ORG_ADMIN. *)
Theorem comment_changes_need_author_or_org_admin (h : Handler) (req : Request) (db : Db)
    (u : Principal) :
  h ∈ [updateComment schemaValid; deleteComment schemaValid] ->
  req_user req = Some u ->
  statusOf (h req db).1 = Some 200 ->
  exists id task comment,
    req_params req !! "id" = Some id
    /\ tasks db !! id = Some task
    /\ field "tenantId" task = req_tenantId req
    /\ commentById (req_params req !! "commentId") task = Some comment
    /\ (userIdOf comment = Some (user_id u) \/ user_role u = "ORG_ADMIN")
    /\ (user_role u = "EMPLOYEE" -> field "assigneeId" task = Some (user_id u)).
Proof.
  intros Hh Hu.
  assert (forall task comment,
            notAssignee req task = false ->
            notCommentOwner req comment = Some false ->
            (userIdOf comment = Some (user_id u) \/ user_role u = "ORG_ADMIN")
            /\ (user_role u = "EMPLOYEE" -> field "assigneeId" task = Some (user_id u)))
    as Hgates.
  { intros task comment Ha Ho. unfold notAssignee, notCommentOwner in *. rewrite Hu in *.
    unfold userIdOf. destruct (idString (prop "userId" (Some comment))) as [author|];
      [|discriminate].
    injection Ho as Ho. apply andb_false_iff in Ho, Ha. split.
    - destruct Ho as [Ho|Ho]; apply bool_decide_eq_false in Ho.
      + left. f_equal. by destruct (decide (author = user_id u)).
      + right. by destruct (decide (user_role u = "ORG_ADMIN")).
    - intros Hr. destruct Ha as [Ha|Ha]; apply bool_decide_eq_false in Ha; [done|].
      by destruct (decide (field "assigneeId" task = Some (user_id u))). }
  rewrite !elem_of_cons, elem_of_nil in Hh.
  destruct Hh as [->|[->|[]]]; [unfold updateComment|unfold deleteComment];
    (destruct (findOneInTenant _ _ _) as [task|] eqn:Hf; [|discriminate]);
    (destruct (req_params req !! "id") as [id|] eqn:Hid; [|discriminate]);
    (destruct (notAssignee req task) eqn:Ha; [discriminate|]);
    (destruct (commentById _ task) as [comment|] eqn:Hcomment; [|discriminate]);
    (destruct (notCommentOwner req comment) as [[|]|] eqn:Ho; try discriminate);
    intros _; apply findOneInTenant_Some in Hf as (i & [= <-] & Htask & Hten);
    exists id, task, comment; destruct (Hgates task comment Ha Ho); done.
Qed.






End Tasks.

(** The sample deployment meets the hypotheses of the five theorems above. *)
Lemma createTask_stamps_tenant_and_reporter_witness :
  exists i task project,
    tasks Sample.world !! i = None
    /\ tasks (createTask requiredAndEnums "k-2"
                (Fixture.call Sample.manager "acme" []
                   [("projectId", JStr "p-1"); ("title", JStr "Banner");
                    ("tenantId", JStr "beta")])
                Sample.world).2
       = <[i := task]> (tasks Sample.world)
    /\ task !! "tenantId"
       = JStr <$> req_tenantId
                    (Fixture.call Sample.manager "acme" []
                       [("projectId", JStr "p-1"); ("title", JStr "Banner");
                        ("tenantId", JStr "beta")])
    /\ task !! "reporterId" = Some (JStr (user_id Sample.manager))
    /\ field "projectId" task
       = field "projectId"
           (req_body
              (Fixture.call Sample.manager "acme" []
                 [("projectId", JStr "p-1"); ("title", JStr "Banner");
                  ("tenantId", JStr "beta")]))
    /\ findOneInTenant (projects Sample.world)
         (field "projectId"
            (req_body
               (Fixture.call Sample.manager "acme" []
                  [("projectId", JStr "p-1"); ("title", JStr "Banner");
                   ("tenantId", JStr "beta")])))
         (req_tenantId
            (Fixture.call Sample.manager "acme" []
               [("projectId", JStr "p-1"); ("title", JStr "Banner");
                ("tenantId", JStr "beta")]))
       = Some project
    /\ (user_role Sample.manager = "PROJECT_MANAGER" ->
        notManaging (user_id Sample.manager) project = false)
    /\ projects (createTask requiredAndEnums "k-2"
                   (Fixture.call Sample.manager "acme" []
                      [("projectId", JStr "p-1"); ("title", JStr "Banner");
                       ("tenantId", JStr "beta")])
                   Sample.world).2
       = projects Sample.world
    /\ users (createTask requiredAndEnums "k-2"
                (Fixture.call Sample.manager "acme" []
                   [("projectId", JStr "p-1"); ("title", JStr "Banner");
                    ("tenantId", JStr "beta")])
                Sample.world).2
       = users Sample.world.
Proof.
  apply (createTask_stamps_tenant_and_reporter requiredAndEnums "k-2"
           (Fixture.call Sample.manager "acme" []
              [("projectId", JStr "p-1"); ("title", JStr "Banner"); ("tenantId", JStr "beta")])
           Sample.world Sample.manager).
  - reflexivity.
  - vm_compute. reflexivity.
Defined.

(** The sample deployment meets the hypotheses of the corresponding theorem. *)
Lemma updateTask_employee_cannot_reassign_witness :
  exists task,
    tasks (updateTask requiredAndEnums
             (Fixture.call Sample.employee "acme" [("id", "k-1")]
                [("title", JStr "Landing page, second draft")])
             Sample.world).2 !! "k-1" = Some task
    /\ (field "assigneeId" task = Some (user_id Sample.employee)
        \/ (truthy (task !! "assigneeId") = false
            /\ task !! "assigneeId"
               = req_body (Fixture.call Sample.employee "acme" [("id", "k-1")]
                             [("title", JStr "Landing page, second draft")])
                 !! "assigneeId")).
Proof.
  apply (updateTask_employee_cannot_reassign requiredAndEnums
           (Fixture.call Sample.employee "acme" [("id", "k-1")]
              [("title", JStr "Landing page, second draft")])
           Sample.world Sample.employee "k-1").
  - reflexivity.
  - reflexivity.
  - vm_compute. reflexivity.
  - vm_compute. reflexivity.
Defined.

(** The sample deployment meets the hypotheses of the corresponding theorem. *)
Lemma comment_changes_need_author_or_org_admin_witness :
  exists id task comment,
    req_params (Fixture.call Sample.employee "acme" [("id", "k-1"); ("commentId", "c-1")] [])
      !! "id" = Some id
    /\ tasks Fixture.commented !! id = Some task
    /\ field "tenantId" task
       = req_tenantId
           (Fixture.call Sample.employee "acme" [("id", "k-1"); ("commentId", "c-1")] [])
    /\ commentById
         (req_params
            (Fixture.call Sample.employee "acme" [("id", "k-1"); ("commentId", "c-1")] [])
          !! "commentId") task
       = Some comment
    /\ (userIdOf comment = Some (user_id Sample.employee)
        \/ user_role Sample.employee = "ORG_ADMIN")
    /\ (user_role Sample.employee = "EMPLOYEE" ->
        field "assigneeId" task = Some (user_id Sample.employee)).
Proof.
  apply (comment_changes_need_author_or_org_admin requiredAndEnums
           (deleteComment requiredAndEnums)
           (Fixture.call Sample.employee "acme" [("id", "k-1"); ("commentId", "c-1")] [])
           Fixture.commented Sample.employee).
  - listed.
  - reflexivity.
  - vm_compute. reflexivity.
Defined.



(** ** Listings *)

Lemma insertDescBy_elem (key : string) (x y : Doc) (l : list Doc) :
  y ∈ insertDescBy key x l <-> y = x \/ y ∈ l.
Proof.
  induction l as [|z l IH]; cbn.
  - rewrite list_elem_of_singleton, elem_of_nil. tauto.
  - destruct (_ <? _)%Z; rewrite !elem_of_cons; [tauto|]. rewrite IH. tauto.
Qed.

Lemma sortDescBy_elem (key : string) (y : Doc) (l : list Doc) :
  y ∈ sortDescBy key l <-> y ∈ l.
Proof.
  unfold sortDescBy. induction l as [|x l IH]; cbn; [done|].
  rewrite insertDescBy_elem, elem_of_cons, IH. tauto.
Qed.

Lemma holds_CIn (path : string) (vs : list string) (d : Doc) :
  afterFirstDot path = None ->
  holds path (CIn vs) d = true <-> exists v, v ∈ vs /\ field path d = Some v.
Proof.
  intros Hp. unfold holds, valuesAt. rewrite Hp. cbn [existsb].
  rewrite orb_false_r, bool_decide_eq_true.
  rewrite list_elem_of_fmap. split; intros (v & H1 & H2); eauto.
Qed.

Lemma holds_ownOrMember (path id : string) (d : Doc) :
  holds path (ownOrMember id) d = true <-> involved id d.
Proof.
  unfold holds, ownOrMember, involved. cbn [existsb fst snd].
  rewrite orb_false_r, !orb_true_iff, !bool_decide_eq_true.
  change (valuesAt "managerId" d) with [field "managerId" d].
  change (valuesAt "ownerId" d) with [field "ownerId" d].
  rewrite !list_elem_of_singleton. split; intros [H|[H|H]]; auto.
Qed.

Lemma tasksQuery_tenant (req : Request) (db : Db) :
  tasksQuery req db !! "tenantId" = Some (CEq (req_tenantId req)).
Proof.
  unfold tasksQuery. rewrite !setIf_lookup_ne by done.
  destruct (req_user req) as [u|]; [|done].
  repeat case_bool_decide; by simplify_map_eq.
Qed.

Lemma tasksQuery_employee (req : Request) (db : Db) (u : Principal) :
  req_user req = Some u -> user_role u = "EMPLOYEE" ->
  tasksQuery req db !! "assigneeId"
  = Some (CEq (orStr (req_query req !! "assigneeId") (Some (user_id u)))).
Proof.
  intros Hu Hr. unfold tasksQuery. rewrite Hu, Hr, bool_decide_eq_true_2 by done.
  rewrite setIf_lookup_ne by done. unfold setIf at 1, orStr.
  destruct (truthyStr (req_query req !! "assigneeId")); [by rewrite lookup_insert_eq|].
  rewrite !setIf_lookup_ne by done. by rewrite lookup_insert_eq.
Qed.

Lemma tasksQuery_manager (req : Request) (db : Db) (u : Principal) :
  req_user req = Some u -> user_role u = "PROJECT_MANAGER" ->
  truthyStr (req_query req !! "projectId") = false ->
  tasksQuery req db !! "projectId"
  = Some (CIn (omap (field "_id")
                 (find (projects db)
                    (<["$or" := ownOrMember (user_id u)]>
                       {["tenantId" := CEq (req_tenantId req)]})))).
Proof.
  intros Hu Hr Hq. unfold tasksQuery. rewrite Hu, Hr.
  rewrite bool_decide_eq_false_2, bool_decide_eq_true_2 by done.
  rewrite !setIf_lookup_ne by done. unfold setIf. rewrite Hq. by rewrite lookup_insert_eq.
Qed.

(** [getTasks] lists tasks of the request's tenant only.  To an EMPLOYEE it
    lists the tasks assigned to them, or, when the query string gives an
    [assigneeId], the tasks assigned to that user; to a PROJECT_MANAGER who
    gives no [projectId] it lists tasks of the tenant's projects they
    manage, own or are a member of. *)
Theorem getTasks_lists_tasks_in_scope (req : Request) (db : Db) :
  exists page total,
    getTasks req db
    = (listing page (default 1 (req_page req)) (default 10 (req_limit req)) total, db)
    /\ Forall (fun entry =>
         exists task,
           task ∈ documents (tasks db)
           /\ entry = populate "projectId" (projects db) ["name"]
                        (populate "reporterId" (users db) ["firstName"; "lastName"; "email"]
                           (populate "assigneeId" (users db)
                              ["firstName"; "lastName"; "email"] task))
           /\ field "tenantId" task = req_tenantId req
           /\ (forall u, req_user req = Some u -> user_role u = "EMPLOYEE" ->
                 field "assigneeId" task
                 = orStr (req_query req !! "assigneeId") (Some (user_id u)))
           /\ (forall u, req_user req = Some u -> user_role u = "PROJECT_MANAGER" ->
                 truthyStr (req_query req !! "projectId") = false ->
                 exists project,
                   project ∈ documents (projects db)
                   /\ field "tenantId" project = req_tenantId req
                   /\ involved (user_id u) project
                   /\ field "projectId" task = field "_id" project)) page.
Proof.
  eexists _, _. split; [reflexivity|].
  apply Forall_forall. intros entry Hin.
  apply list_elem_of_fmap in Hin as (task & -> & Hin).
  apply paginate_subset in Hin. rewrite sortDescBy_elem, find_elem in Hin.
  destruct Hin as [Hdoc Hm]. rewrite matches_true in Hm.
  exists task. split; [done|]. split; [done|]. split; [|split].
  - specialize (Hm _ _ (tasksQuery_tenant req db)). by apply holds_CEq in Hm.
  - intros u Hu Hr. specialize (Hm _ _ (tasksQuery_employee req db u Hu Hr)).
    by apply holds_CEq in Hm.
  - intros u Hu Hr Hq. specialize (Hm _ _ (tasksQuery_manager req db u Hu Hr Hq)).
    apply holds_CIn in Hm as (v & Hv & Hp); [|done].
    apply list_elem_of_omap in Hv as (project & Hproject & Hid).
    apply find_elem in Hproject as [Hpdoc Hpm]. rewrite matches_true in Hpm.
    exists project. split; [done|]. split; [|split].
    + assert (holds "tenantId" (CEq (req_tenantId req)) project = true) as H
        by (apply Hpm; by simplify_map_eq).
      by apply holds_CEq in H.
    + apply (holds_ownOrMember "$or"). apply Hpm. by simplify_map_eq.
    + congruence.
Qed.

(** ** Project controller *)

Lemma visibleProjects_manager (req : Request) (u : Principal) :
  req_user req = Some u -> user_role u = "PROJECT_MANAGER" ->
  visibleProjects req !! "$or" = Some (ownOrMember (user_id u)).
Proof.
  intros Hu Hr. unfold visibleProjects. rewrite Hu, Hr.
  repeat case_bool_decide; try done; by simplify_map_eq.
Qed.

Lemma visibleProjects_employee (req : Request) (u : Principal) :
  req_user req = Some u -> user_role u = "EMPLOYEE" ->
  visibleProjects req !! "members.userId" = Some (CEq (Some (user_id u))).
Proof.
  intros Hu Hr. unfold visibleProjects. rewrite Hu, Hr.
  repeat case_bool_decide; try done; by simplify_map_eq.
Qed.

(** What a project matched by a filter that extends [visibleProjects] on
    other paths is to the caller. *)
Lemma visible_project (req : Request) (query : gmap string Cond) (project : Doc) :
  (forall k, k ∈ ["tenantId"; "$or"; "members.userId"] ->
             query !! k = visibleProjects req !! k) ->
  matches query project = true ->
  field "tenantId" project = req_tenantId req
  /\ (forall u, req_user req = Some u -> user_role u = "PROJECT_MANAGER" ->
                involved (user_id u) project)
  /\ (forall u, req_user req = Some u -> user_role u = "EMPLOYEE" ->
                Some (user_id u) ∈ valuesAt "members.userId" project).
Proof.
  intros Hq Hm. rewrite matches_true in Hm. split; [|split].
  - assert (holds "tenantId" (CEq (req_tenantId req)) project = true) as H.
    { apply Hm. rewrite Hq by listed. apply visibleProjects_tenant. }
    by apply holds_CEq in H.
  - intros u Hu Hr. apply (holds_ownOrMember "$or"). apply Hm.
    rewrite Hq by listed. by apply visibleProjects_manager.
  - intros u Hu Hr.
    assert (holds "members.userId" (CEq (Some (user_id u))) project = true) as H.
    { apply Hm. rewrite Hq by listed. by apply visibleProjects_employee. }
    by apply bool_decide_eq_true in H.
Qed.

(** [getProjectById] changes nothing, whatever it answers, and it answers
    200 or 404 "Project not found".  It shows a project only of the
    request's tenant, to a PROJECT_MANAGER only one they manage, own or are
    a member of, to an EMPLOYEE only one they are a member of; and to an
    ORG_ADMIN it shows every project of the request's tenant. *)
Theorem getProjectById_shows_visible_projects (req : Request) (db : Db) :
  (getProjectById req db).2 = db
  /\ (statusOf (getProjectById req db).1 = Some 200
      \/ (getProjectById req db).1 = Respond 404 (failure "Project not found"))
  /\ (statusOf (getProjectById req db).1 = Some 200 ->
      exists id project,
        req_params req !! "id" = Some id
        /\ projects db !! id = Some project
        /\ field "tenantId" project = req_tenantId req
        /\ (forall u, req_user req = Some u -> user_role u = "PROJECT_MANAGER" ->
                      involved (user_id u) project)
        /\ (forall u, req_user req = Some u -> user_role u = "EMPLOYEE" ->
                      Some (user_id u) ∈ valuesAt "members.userId" project))
  /\ (forall u id project,
        req_user req = Some u ->
        user_role u = "ORG_ADMIN" ->
        req_params req !! "id" = Some id ->
        projects db !! id = Some project ->
        field "tenantId" project = req_tenantId req ->
        statusOf (getProjectById req db).1 = Some 200).
Proof.
  split; [|split; [|split]].
  - unfold getProjectById. by destruct (findOneById _ _ _).
  - unfold getProjectById. destruct (findOneById _ _ _); [by left|by right].
  - unfold getProjectById, findOneById, findById.
    destruct (req_params req !! "id") as [id|]; [|discriminate].
    destruct (projects db !! id) as [project|] eqn:Hp; [|discriminate].
    destruct (matches (visibleProjects req) project) eqn:Hm; [|discriminate].
    intros _. exists id, project. split; [done|]. split; [done|].
    destruct (visible_project req _ project (fun _ _ => eq_refl) Hm) as (H1 & H2 & H3). done.
  - intros u id project Hu Hrole Hid Hp Hten.
    unfold getProjectById, findOneById, findById. rewrite Hid, Hp.
    assert (matches (visibleProjects req) project = true) as ->; [|reflexivity].
    apply matches_true. unfold visibleProjects. rewrite Hu, Hrole.
    rewrite !bool_decide_eq_false_2 by done.
    intros path c Hq. apply lookup_singleton_Some in Hq as [<- <-].
    by apply holds_CEq.
Qed.

(** In the sample deployment the administrator is shown the tenant's
    project. *)
Lemma getProjectById_shows_visible_projects_witness :
  statusOf (getProjectById (Fixture.call Sample.admin "acme" [("id", "p-1")] [])
              Sample.world).1 = Some 200.
Proof.
  apply (proj2 (proj2 (proj2 (getProjectById_shows_visible_projects
                                (Fixture.call Sample.admin "acme" [("id", "p-1")] [])
                                Sample.world)))
           Sample.admin "p-1" Sample.project); reflexivity.
Defined.

(** [getProjects] lists projects of the request's tenant only, to a
    PROJECT_MANAGER only those they manage, own or are a member of, to an
    EMPLOYEE only those they are a member of. *)
Theorem getProjects_lists_visible_projects (req : Request) (db : Db) :
  exists page total,
    getProjects req db
    = (listing page (default 1 (req_page req)) (default 10 (req_limit req)) total, db)
    /\ Forall (fun entry =>
         exists project,
           project ∈ documents (projects db)
           /\ entry = populate "managerId" (users db) ["firstName"; "lastName"; "email"]
                        (populate "ownerId" (users db) ["firstName"; "lastName"; "email"]
                           project)
           /\ field "tenantId" project = req_tenantId req
           /\ (forall u, req_user req = Some u -> user_role u = "PROJECT_MANAGER" ->
                         involved (user_id u) project)
           /\ (forall u, req_user req = Some u -> user_role u = "EMPLOYEE" ->
                         Some (user_id u) ∈ valuesAt "members.userId" project)) page.
Proof.
  eexists _, _. split; [reflexivity|].
  apply Forall_forall. intros entry Hin.
  apply list_elem_of_fmap in Hin as (project & -> & Hin).
  apply paginate_subset in Hin. rewrite sortDescBy_elem, find_elem in Hin.
  destruct Hin as [Hdoc Hm].
  exists project. split; [done|]. split; [done|].
  apply (visible_project req _ project) in Hm; [done|].
  intros k Hk. rewrite !elem_of_cons, elem_of_nil in Hk.
  destruct Hk as [->|[->|[->|[]]]]; by rewrite !setIf_lookup_ne.
Qed.

Section Projects.

Variable schemaValid : Model -> Doc -> bool.


End Projects.


Section Members.

Variable cast : Model -> string -> Json -> option Json.
Variable schemaValid : Model -> Doc -> bool.







End Members.




(** ** User controller *)

Lemma entriesOf_listing (l : list Doc) (page limit total : nat) :
  entriesOf (listing l page limit total) = JObj <$> l.
Proof.
  unfold entriesOf, listing, dataOf. rewrite !prop_obj_cons.
  rewrite decide_False, decide_True by done. reflexivity.
Qed.

Section UserListing.

Variable trim : string -> string.

Lemma usersQuery_by_org_admin (req : Request) (u : Principal) (query : gmap string Cond) :
  req_user req = Some u ->
  user_role u = "ORG_ADMIN" ->
  usersQuery trim req = Some query ->
  (query !! "role" = Some (CNe "SUPER_ADMIN")
   \/ exists r, query !! "role" = Some (CEq (Some r)) /\ r <> "SUPER_ADMIN")
  /\ (user_id u <> EmptyString -> query !! "_id" = Some (CNe (user_id u)))
  /\ (truthyStr (req_tenantId req) = true -> req_tenantId req <> Some "all" ->
      query !! "tenantId" = Some (CEq (req_tenantId req))).
Proof.
  intros Hu Hr. unfold usersQuery. rewrite Hu, Hr. rewrite (bool_decide_eq_true_2 (_ = _)) by done.
  set (q0 := if truthyStr (req_tenantId req) && bool_decide (req_tenantId req ≠ Some "all")
             then _ else _).
  set (q1 := if truthyStr (Some (user_id u)) then _ else _).
  assert (q1 !! "_id" = (if truthyStr (Some (user_id u)) then Some (CNe (user_id u)) else None)
          /\ q1 !! "tenantId" = q0 !! "tenantId"
          /\ q0 !! "tenantId"
             = (if truthyStr (req_tenantId req) && bool_decide (req_tenantId req ≠ Some "all")
                then Some (CEq (req_tenantId req)) else None)) as (Hid & Hten & Hten0).
  { unfold q1, q0. destruct (truthyStr (Some (user_id u))), (_ && _); by simplify_map_eq. }
  assert (forall q q' : gmap string Cond,
            (forall k, k <> "role" -> q' !! k = q1 !! k) ->
            (q' !! "role" = Some (CNe "SUPER_ADMIN")
             \/ exists r, q' !! "role" = Some (CEq (Some r)) /\ r <> "SUPER_ADMIN") ->
            (fun query : gmap string Cond =>
               match req_query req !! "isActive" with
               | Some a =>
                   if bool_decide (a ≠ EmptyString)
                   then <["isActive" := CIs (bool_decide (a = "true"))]> query
                   else query
               | None => query
               end) <$> Some q' = Some q ->
            (q !! "role" = Some (CNe "SUPER_ADMIN")
             \/ exists r, q !! "role" = Some (CEq (Some r)) /\ r <> "SUPER_ADMIN")
            /\ (user_id u <> EmptyString -> q !! "_id" = Some (CNe (user_id u)))
            /\ (truthyStr (req_tenantId req) = true -> req_tenantId req <> Some "all" ->
                q !! "tenantId" = Some (CEq (req_tenantId req)))) as Hfinish.
  { intros q q' Hsame Hrole. cbn. intros [= <-].
    assert (forall k, k <> "isActive" ->
              match req_query req !! "isActive" with
              | Some a =>
                  if bool_decide (a ≠ EmptyString)
                  then <["isActive" := CIs (bool_decide (a = "true"))]> q'
                  else q'
              | None => q'
              end !! k = q' !! k) as Hk.
    { intros k Hne. destruct (req_query req !! "isActive") as [a|]; [|done].
      destruct (bool_decide (a ≠ EmptyString)); [|done]. by rewrite lookup_insert_ne. }
    rewrite !Hk by done. split; [done|]. rewrite !Hsame by done. split.
    - intros Hne. rewrite Hid, truthyStr_Some by done. done.
    - intros Ht Hall. rewrite Hten, Hten0, Ht. by rewrite bool_decide_eq_true_2. }
  destruct (givenRole trim (req_query req !! "role")) eqn:Hgiven.
  - destruct (bool_decide (req_query req !! "role" ≠ Some "SUPER_ADMIN")) eqn:Hrole;
      [|cbn; discriminate].
    apply bool_decide_eq_true in Hrole.
    apply Hfinish.
    + intros k Hk. by rewrite !lookup_insert_ne.
    + right. unfold givenRole in Hgiven. destruct (req_query req !! "role") as [r|]; [|done].
      exists r. rewrite lookup_insert_eq. split; [done|]. congruence.
  - apply Hfinish.
    + intros k Hk. by rewrite !lookup_insert_ne.
    + left. by rewrite lookup_insert_eq.
Qed.

(** To an ORG_ADMIN [getUsers] never lists a SUPER_ADMIN, never the caller,
    never a user of another tenant, and never a password or refresh token;
    it changes nothing. *)
Theorem getUsers_hides_super_admins_from_org_admin (req : Request) (db : Db) (u : Principal) :
  req_user req = Some u ->
  user_role u = "ORG_ADMIN" ->
  user_id u <> EmptyString ->
  truthyStr (req_tenantId req) = true ->
  req_tenantId req <> Some "all" ->
  (getUsers trim req db).2 = db
  /\ Forall (fun entry =>
       exists user,
         user ∈ documents (users db)
         /\ entry = JObj (withoutSecrets user)
         /\ field "role" user <> Some "SUPER_ADMIN"
         /\ field "_id" user <> Some (user_id u)
         /\ field "tenantId" user = req_tenantId req
         /\ prop "password" (Some entry) = None
         /\ prop "refreshToken" (Some entry) = None)
       (entriesOf (getUsers trim req db).1).
Proof.
  intros Hu Hr Hid Ht Hall. unfold getUsers.
  destruct (usersQuery trim req) as [query|] eqn:Hq; [|split; [done|constructor]].
  split; [done|]. cbn [fst]. rewrite entriesOf_listing.
  destruct (usersQuery_by_org_admin req u query Hu Hr Hq) as (Hrole & Hself & Hten).
  apply Forall_forall. intros entry Hin.
  apply list_elem_of_fmap in Hin as (user' & -> & Hin).
  apply list_elem_of_fmap in Hin as (user & -> & Hin).
  apply paginate_subset in Hin. rewrite sortDescBy_elem, find_elem in Hin.
  destruct Hin as [Hdoc Hm]. rewrite matches_true in Hm.
  exists user. split; [done|]. split; [done|]. split; [|split; [|split; [|split]]].
  - destruct Hrole as [Hrole|(r & Hrole & Hne)]; apply Hm in Hrole.
    + by apply holds_CNe in Hrole.
    + apply holds_CEq in Hrole; [|done]. congruence.
  - specialize (Hm _ _ (Hself Hid)). by apply holds_CNe in Hm.
  - specialize (Hm _ _ (Hten Ht Hall)). by apply holds_CEq in Hm.
  - unfold prop, withoutSecrets. rewrite lookup_delete_ne by done. apply lookup_delete_eq.
  - unfold prop, withoutSecrets. apply lookup_delete_eq.
Qed.

End UserListing.

(** The sample deployment meets the hypotheses of the theorem above. *)
Lemma getUsers_hides_super_admins_from_org_admin_witness :
  (getUsers Fixture.trimSpaces (Fixture.call Sample.admin "acme" [] []) Sample.world).2
  = Sample.world
  /\ Forall (fun entry =>
       exists user,
         user ∈ documents (users Sample.world)
         /\ entry = JObj (withoutSecrets user)
         /\ field "role" user <> Some "SUPER_ADMIN"
         /\ field "_id" user <> Some (user_id Sample.admin)
         /\ field "tenantId" user = req_tenantId (Fixture.call Sample.admin "acme" [] [])
         /\ prop "password" (Some entry) = None
         /\ prop "refreshToken" (Some entry) = None)
       (entriesOf (getUsers Fixture.trimSpaces (Fixture.call Sample.admin "acme" [] [])
                     Sample.world).1).
Proof.
  apply (getUsers_hides_super_admins_from_org_admin Fixture.trimSpaces
           (Fixture.call Sample.admin "acme" [] []) Sample.world Sample.admin).
  - reflexivity.
  - reflexivity.
  - discriminate.
  - reflexivity.
  - discriminate.
Defined.

Section UserCreation.

Variable cast : Model -> string -> Json -> option Json.
Variable schemaValid : Model -> Doc -> bool.




End UserCreation.


(** ** Permission controller *)

Lemma entriesOf_success (status : nat) (rows : list Json) :
  entriesOf (Respond status (success (JArr rows))) = rows.
Proof.
  unfold entriesOf, success, dataOf. rewrite !prop_obj_cons.
  rewrite decide_False, decide_True by done. reflexivity.
Qed.

Lemma insertByName_elem (x y : Doc) (l : list Doc) :
  y ∈ insertByName x l <-> y = x \/ y ∈ l.
Proof.
  induction l as [|z l IH]; cbn.
  - rewrite list_elem_of_singleton, elem_of_nil. tauto.
  - destruct (namesLe x z); rewrite !elem_of_cons; [tauto|]. rewrite IH. tauto.
Qed.

Lemma sortedByName_elem (y : Doc) (l : list Doc) :
  y ∈ foldr insertByName [] l <-> y ∈ l.
Proof.
  induction l as [|x l IH]; cbn; [done|].
  rewrite insertByName_elem, elem_of_cons, IH. tauto.
Qed.

Lemma Forall2_elem_r {A B} (R : A -> B -> Prop) (l : list A) (k : list B) (y : B) :
  Forall2 R l k -> y ∈ k -> exists x, x ∈ l /\ R x y.
Proof.
  intros H. induction H as [|x y' l k Hxy _ IH]; intros Hy.
  - by apply elem_of_nil in Hy.
  - apply elem_of_cons in Hy as [->|Hy].
    + exists x. split; [left|done].
    + destruct (IH Hy) as (x' & Hx' & HR). exists x'. split; [by right|done].
Qed.

Lemma holds_CIs_true (path : string) (d : Doc) :
  holds path (CIs true) d = true -> d !! path = Some (JBool true).
Proof.
  unfold holds. destruct (d !! path) as [[|[|]| | | |]|]; done.
Qed.

(** [getManageableUsers] changes nothing and is refused to any role but
    SUPER_ADMIN and ORG_ADMIN.  Each row it returns is an active user with
    the matrix in force for them: the override on record when there is an
    active one, the role defaults otherwise.  To an ORG_ADMIN it returns
    only PROJECT_MANAGERs and EMPLOYEEs of the request's tenant. *)
Theorem getManageableUsers_lists_users_in_scope (req : Request) (db : Db) (u : Principal) :
  req_user req = Some u ->
  (getManageableUsers req db).2 = db
  /\ (user_role u <> "SUPER_ADMIN" -> user_role u <> "ORG_ADMIN" ->
      statusOf (getManageableUsers req db).1 = Some 403)
  /\ Forall (fun row =>
       exists user id,
         user ∈ documents (users db)
         /\ field "_id" user = Some id
         /\ prop "userId" (Some row) = Some (JStr id)
         /\ user !! "isActive" = Some (JBool true)
         /\ prop "permissions" (Some row)
            = Some (orJson (overrideOf db id) (getDefaultPermissionsForRole (roleOf user)))
         /\ (user_role u = "ORG_ADMIN" ->
             field "tenantId" user = req_tenantId req
             /\ (field "role" user = Some "PROJECT_MANAGER"
                 \/ field "role" user = Some "EMPLOYEE")))
       (entriesOf (getManageableUsers req db).1).
Proof.
  intros Hu. unfold getManageableUsers. rewrite Hu.
  assert (forall roles (query : gmap string Cond) rows,
            query !! "isActive" = Some (CIs true) ->
            (user_role u = "ORG_ADMIN" ->
             query !! "tenantId" = Some (CEq (req_tenantId req))
             /\ roles = ["PROJECT_MANAGER"; "EMPLOYEE"]) ->
            mapM (fun user : Doc =>
                    match field "_id" user with
                    | Some id =>
                        Some (obj [("userId", JStr id);
                                   ("user", JObj (selectFields
                                      ["firstName"; "lastName"; "email"; "role"; "tenantId";
                                       "isActive"] user));
                                   ("permissions",
                                    match findActivePermission db id with
                                    | Some p =>
                                        orJson (p !! "permissions")
                                          (getDefaultPermissionsForRole (roleOf user))
                                    | None => getDefaultPermissionsForRole (roleOf user)
                                    end)])
                    | None => None
                    end)
              (foldr insertByName [] (find (users db) (<["role" := CIn roles]> query)))
            = Some rows ->
            Forall (fun row =>
              exists user id,
                user ∈ documents (users db)
                /\ field "_id" user = Some id
                /\ prop "userId" (Some row) = Some (JStr id)
                /\ user !! "isActive" = Some (JBool true)
                /\ prop "permissions" (Some row)
                   = Some (orJson (overrideOf db id)
                             (getDefaultPermissionsForRole (roleOf user)))
                /\ (user_role u = "ORG_ADMIN" ->
                    field "tenantId" user = req_tenantId req
                    /\ (field "role" user = Some "PROJECT_MANAGER"
                        \/ field "role" user = Some "EMPLOYEE"))) rows) as Hrows.
  { intros roles query rows Hactive Hadmin Hmap.
    apply mapM_Some in Hmap. apply Forall_forall. intros row Hrow.
    destruct (Forall2_elem_r _ _ _ _ Hmap Hrow) as (user & Huser & Hrow').
    cbn beta in Hrow'. destruct (field "_id" user) as [id|] eqn:Hid; [|discriminate].
    injection Hrow' as <-.
    apply sortedByName_elem, find_elem in Huser as [Hdoc Hm]. rewrite matches_true in Hm.
    exists user, id. split; [done|]. split; [done|].
    split; [by rewrite prop_obj_cons, decide_True|].
    split; [apply (holds_CIs_true "isActive"), Hm; by rewrite lookup_insert_ne|].
    split.
    - rewrite !prop_obj_cons. rewrite decide_False, decide_False, decide_True by done.
      unfold overrideOf. destruct (findActivePermission db id); reflexivity.
    - intros Hr. destruct (Hadmin Hr) as [Hten ->]. split.
      + assert (holds "tenantId" (CEq (req_tenantId req)) user = true) as H
          by (apply Hm; by rewrite lookup_insert_ne).
        by apply holds_CEq in H.
      + assert (holds "role" (CIn ["PROJECT_MANAGER"; "EMPLOYEE"]) user = true) as H
          by (apply Hm; by rewrite lookup_insert_eq).
        apply holds_CIn in H as (v & Hv & Hf); [|done].
        rewrite !elem_of_cons, elem_of_nil in Hv. destruct Hv as [->|[->|[]]]; auto. }
  destruct (bool_decide (user_role u = "SUPER_ADMIN")) eqn:Hsuper;
    [|destruct (bool_decide (user_role u = "ORG_ADMIN")) eqn:Hadmin].
  - apply bool_decide_eq_true in Hsuper.
    destruct (mapM _ _) as [rows|] eqn:Hmap; cbn [fst snd];
      (split; [done|]); (split; [done|]); [|constructor].
    rewrite entriesOf_success. eapply Hrows; [| |exact Hmap]; [done|].
    intros Hr. congruence.
  - apply bool_decide_eq_true in Hadmin.
    destruct (mapM _ _) as [rows|] eqn:Hmap; cbn [fst snd];
      (split; [done|]); (split; [done|]); [|constructor].
    rewrite entriesOf_success. eapply Hrows; [| |exact Hmap].
    + by rewrite lookup_insert_ne.
    + intros _. by rewrite lookup_insert_eq.
  - cbn [fst snd]. split; [done|]. split; [done|]. constructor.
Qed.

(** The sample deployment meets the hypothesis of the theorem above. *)
Lemma getManageableUsers_lists_users_in_scope_witness :
  (getManageableUsers (Fixture.call Sample.admin "acme" [] []) Sample.world).2 = Sample.world
  /\ (user_role Sample.admin <> "SUPER_ADMIN" -> user_role Sample.admin <> "ORG_ADMIN" ->
      statusOf (getManageableUsers (Fixture.call Sample.admin "acme" [] []) Sample.world).1
      = Some 403)
  /\ Forall (fun row =>
       exists user id,
         user ∈ documents (users Sample.world)
         /\ field "_id" user = Some id
         /\ prop "userId" (Some row) = Some (JStr id)
         /\ user !! "isActive" = Some (JBool true)
         /\ prop "permissions" (Some row)
            = Some (orJson (overrideOf Sample.world id)
                      (getDefaultPermissionsForRole (roleOf user)))
         /\ (user_role Sample.admin = "ORG_ADMIN" ->
             field "tenantId" user = req_tenantId (Fixture.call Sample.admin "acme" [] [])
             /\ (field "role" user = Some "PROJECT_MANAGER"
                 \/ field "role" user = Some "EMPLOYEE")))
       (entriesOf (getManageableUsers (Fixture.call Sample.admin "acme" [] [])
                     Sample.world).1).
Proof.
  apply (getManageableUsers_lists_users_in_scope (Fixture.call Sample.admin "acme" [] [])
           Sample.world Sample.admin).
  reflexivity.
Defined.

(** ** Audit trail *)

(** The three audit listings change nothing and return entries of the
    request's tenant only. *)
Theorem audit_listings_are_tenant_scoped (h : Handler) (req : Request) (db : Db) :
  h ∈ [getAuditLogs; getUserAuditLogs; getResourceAuditLogs] ->
  (h req db).2 = db
  /\ Forall (fun entry =>
       exists log fields,
         log ∈ auditLogs db
         /\ field "tenantId" log = req_tenantId req
         /\ entry = JObj (populate "userId" (users db) fields log))
       (entriesOf (h req db).1).
Proof.
  intros Hh. rewrite !elem_of_cons, elem_of_nil in Hh.
  destruct Hh as [->|[->|[->|[]]]]; (split; [reflexivity|]);
    [unfold getAuditLogs|unfold getUserAuditLogs|unfold getResourceAuditLogs];
    cbn [fst]; rewrite entriesOf_listing; apply Forall_forall; intros entry Hin;
    apply list_elem_of_fmap in Hin as (entry' & -> & Hin).
  - apply list_elem_of_filter in Hin as [_ Hin].
    apply list_elem_of_fmap in Hin as (log & -> & Hin).
    apply paginate_subset in Hin. rewrite newestFirst_elem in Hin.
    apply list_elem_of_filter in Hin as [Hq Hin].
    exists log, ["firstName"; "lastName"; "email"; "role"]. split; [done|]. split; [|done].
    unfold auditQuery, auditBaseQuery in Hq. rewrite !andb_true_iff in Hq.
    destruct Hq as [[[[[Hq _] _] _] _] _]. by apply bool_decide_eq_true in Hq.
  - apply list_elem_of_fmap in Hin as (log & -> & Hin).
    apply paginate_subset in Hin. rewrite newestFirst_elem in Hin.
    apply list_elem_of_filter in Hin as [Hq Hin].
    exists log, ["firstName"; "lastName"; "email"]. split; [done|]. split; [|done].
    rewrite !andb_true_iff in Hq. destruct Hq as [Hq _]. by apply bool_decide_eq_true in Hq.
  - apply list_elem_of_fmap in Hin as (log & -> & Hin).
    apply paginate_subset in Hin. rewrite newestFirst_elem in Hin.
    apply list_elem_of_filter in Hin as [Hq Hin].
    exists log, ["firstName"; "lastName"; "email"]. split; [done|]. split; [|done].
    rewrite !andb_true_iff in Hq. destruct Hq as [[Hq _] _]. by apply bool_decide_eq_true in Hq.
Qed.

(** The listing by resource is one of the three. *)
Lemma audit_listings_are_tenant_scoped_witness :
  (getResourceAuditLogs
     (Fixture.call Sample.admin "acme" [("resourceType", "PROJECT"); ("resourceId", "p-1")] [])
     Sample.world).2 = Sample.world
  /\ Forall (fun entry =>
       exists log fields,
         log ∈ auditLogs Sample.world
         /\ field "tenantId" log
            = req_tenantId
                (Fixture.call Sample.admin "acme"
                   [("resourceType", "PROJECT"); ("resourceId", "p-1")] [])
         /\ entry = JObj (populate "userId" (users Sample.world) fields log))
       (entriesOf
          (getResourceAuditLogs
             (Fixture.call Sample.admin "acme"
                [("resourceType", "PROJECT"); ("resourceId", "p-1")] [])
             Sample.world).1).
Proof.
  apply (audit_listings_are_tenant_scoped getResourceAuditLogs
           (Fixture.call Sample.admin "acme"
              [("resourceType", "PROJECT"); ("resourceId", "p-1")] [])
           Sample.world).
  listed.
Defined.

Lemma createAuditLog_grows (sv : Model -> Doc -> bool) (now : Z) (d : Doc) (db : Db) :
  auditLogs (createAuditLog sv now d db) = auditLogs db
  \/ exists entry, auditLogs (createAuditLog sv now d db) = entry :: auditLogs db.
Proof. unfold createAuditLog. destruct (sv AuditLogModel _); [right; by eexists|by left]. Qed.

Lemma createAuditLog_refused (sv : Model -> Doc -> bool) (now : Z) (d : Doc) (db : Db) :
  createAuditLog (refusingAudit sv) now d db = db.
Proof. reflexivity. Qed.

Lemma unaudited_createAuditLog (sv : Model -> Doc -> bool) (now : Z) (d : Doc) (o : Outcome)
    (db : Db) :
  unaudited (o, createAuditLog sv now d db) = unaudited (o, db).
Proof. unfold unaudited, createAuditLog. cbn. destruct (sv AuditLogModel _); reflexivity. Qed.

Ltac same_but_audit :=
  repeat (first [progress rewrite ?createAuditLog_users, ?createAuditLog_refused,
                   ?unaudited_createAuditLog
                |case_match]);
  reflexivity.

Ltac at_most_one_entry :=
  repeat (first [progress rewrite ?createAuditLog_users
                |case_match]);
  cbn [snd];
  try match goal with
      | |- context [createAuditLog ?sv ?now ?d ?db'] =>
          destruct (createAuditLog_grows sv now d db') as [E|[entry E]];
          rewrite E; [|right; by eexists]
      end;
  by left.

(** The audit write is best effort and append only.  Each handler of the
    task, project and user controllers that writes an audit entry answers
    the same, and leaves the same users, projects, tasks and permissions,
    when the entry is refused as when it is stored; and the audit log
    afterwards is the log before, or the log before with one entry put in
    front. *)
Theorem audit_write_is_best_effort (h : (Model -> Doc -> bool) -> Handler)
    (cast : Model -> string -> Json -> option Json)
    (schemaValid : Model -> Doc -> bool) (newId : string) (req : Request) (db : Db) :
  h ∈ [updateTaskStatus; deleteTask; updateTask; (fun v => createTask v newId);
       (fun v => addComment v newId); updateProject cast; deleteProject;
       (fun v => createProject v newId); addProjectMember cast; removeProjectMember;
       updateUser; deleteUser; updateUserRole; (fun v => createUser cast v newId)] ->
  unaudited (h schemaValid req db) = unaudited (h (refusingAudit schemaValid) req db)
  /\ (auditLogs (h schemaValid req db).2 = auditLogs db
      \/ exists entry, auditLogs (h schemaValid req db).2 = entry :: auditLogs db).
Proof.
  intros Hh. rewrite !elem_of_cons, elem_of_nil in Hh.
  destruct Hh as [->|[->|[->|[->|[->|[->|[->|[->|[->|[->|[->|[->|[->|[->|[]]]]]]]]]]]]]]].
  - unfold updateTaskStatus. cbn [refusingAudit]. split; [same_but_audit|at_most_one_entry].
  - unfold deleteTask. cbn [refusingAudit]. split; [same_but_audit|at_most_one_entry].
  - unfold updateTask. cbn [refusingAudit]. split; [same_but_audit|at_most_one_entry].
  - unfold createTask. cbn [refusingAudit]. split; [same_but_audit|at_most_one_entry].
  - unfold addComment. cbn [refusingAudit]. split; [same_but_audit|at_most_one_entry].
  - unfold updateProject. cbn [refusingAudit]. split; [same_but_audit|at_most_one_entry].
  - unfold deleteProject. cbn [refusingAudit]. split; [same_but_audit|at_most_one_entry].
  - unfold createProject. cbn [refusingAudit]. split; [same_but_audit|at_most_one_entry].
  - unfold addProjectMember. cbn [refusingAudit]. split; [same_but_audit|at_most_one_entry].
  - unfold removeProjectMember. cbn [refusingAudit]. split; [same_but_audit|at_most_one_entry].
  - unfold updateUser, saveUser. cbn [refusingAudit]. split; [same_but_audit|at_most_one_entry].
  - unfold deleteUser. cbn [refusingAudit]. split; [same_but_audit|at_most_one_entry].
  - unfold updateUserRole, saveUser. cbn [refusingAudit].
    split; [same_but_audit|at_most_one_entry].
  - unfold createUser, createUserDoc. cbn [refusingAudit].
    split; [same_but_audit|at_most_one_entry].
Qed.

(** Deleting a task is one of the handlers. *)
Lemma audit_write_is_best_effort_witness :
  unaudited (deleteTask requiredAndEnums
               (Fixture.call Sample.admin "acme" [("id", "k-1")] []) Sample.world)
  = unaudited (deleteTask (refusingAudit requiredAndEnums)
                 (Fixture.call Sample.admin "acme" [("id", "k-1")] []) Sample.world)
  /\ (auditLogs (deleteTask requiredAndEnums
                   (Fixture.call Sample.admin "acme" [("id", "k-1")] []) Sample.world).2
      = auditLogs Sample.world
      \/ exists entry,
           auditLogs (deleteTask requiredAndEnums
                        (Fixture.call Sample.admin "acme" [("id", "k-1")] []) Sample.world).2
           = entry :: auditLogs Sample.world).
Proof.
  apply (audit_write_is_best_effort deleteTask Fixture.cast requiredAndEnums EmptyString
           (Fixture.call Sample.admin "acme" [("id", "k-1")] []) Sample.world).
  listed.
Defined.

(** ** Task status *)

(** What [canTransitionTo] allows never leaves CANCELLED, never returns to
    TODO, never stays in place, and reaches DONE from IN_REVIEW only; it
    allows nothing for a task without a known status or for a target that
    is not a string. *)
Theorem canTransitionTo_allows_no_way_back (task : Doc) (newStatus : option Json) :
  canTransitionTo task newStatus = true ->
  exists s n,
    field "status" task = Some s
    /\ newStatus = Some (JStr n)
    /\ s <> "CANCELLED"
    /\ n <> "TODO"
    /\ n <> s
    /\ (n = "DONE" -> s = "IN_REVIEW").
Proof.
  intros H.
  destruct (field "status" task) as [s|] eqn:Hs;
    [|by unfold canTransitionTo in H; rewrite Hs in H].
  destruct newStatus as [[| | |n| |]|];
    try (unfold canTransitionTo in H; rewrite Hs in H;
         by destruct (validTransitions !! s)).
  rewrite (canTransitionTo_table task s n Hs) in H. apply bool_decide_eq_true in H.
  exists s, n. split; [done|]. split; [done|].
  unfold transitions_spec in H. rewrite !elem_of_cons, elem_of_nil in H.
  repeat destruct H as [H|H]; try done; injection H as -> ->; repeat split; done.
Qed.

(** The sample task, which is DONE, may be reopened. *)
Lemma canTransitionTo_allows_no_way_back_witness :
  exists s n,
    field "status" Sample.task = Some s
    /\ Some (JStr "IN_PROGRESS") = Some (JStr n)
    /\ s <> "CANCELLED"
    /\ n <> "TODO"
    /\ n <> s
    /\ (n = "DONE" -> s = "IN_REVIEW").
Proof.
  apply (canTransitionTo_allows_no_way_back Sample.task (Some (JStr "IN_PROGRESS"))).
  vm_compute. reflexivity.
Defined.

(** ** Permission overrides *)

Section PermissionWrites.

Variable schemaValid : Model -> Doc -> bool.

Lemma upsertPermission_Some (userId : string) (perms : option Json) (now : Z) (db db' : Db)
    (stored : Doc) :
  upsertPermission schemaValid userId perms now db = Some (stored, db') ->
  db' = setPermissions (<[userId := stored]> (permissions db)) db
  /\ truthy (stored !! "isActive") = true
  /\ (forall matrix, perms = Some matrix ->
                     is_Some (castPermissions matrix)
                     /\ stored !! "permissions" = castPermissions matrix).
Proof.
  unfold upsertPermission.
  assert (forall p0 : Doc,
            truthy (p0 !! "isActive") = true ->
            match
              match perms with
              | Some matrix =>
                  (fun m => <["updatedAt" := JNum now]> (<["permissions" := m]> p0))
                    <$> castPermissions matrix
              | None => Some (<["updatedAt" := JNum now]> p0)
              end
            with
            | Some p =>
                if schemaValid PermissionModel p
                then Some (p, setPermissions (<[userId := p]> (permissions db)) db)
                else None
            | None => None
            end = Some (stored, db') ->
            db' = setPermissions (<[userId := stored]> (permissions db)) db
            /\ truthy (stored !! "isActive") = true
            /\ (forall matrix, perms = Some matrix ->
                               is_Some (castPermissions matrix)
                               /\ stored !! "permissions" = castPermissions matrix)) as Hupdate.
  { intros p0 Hactive. destruct perms as [matrix|].
    - destruct (castPermissions matrix) as [m|] eqn:Hcast; [|discriminate].
      cbn [fmap option_fmap option_map].
      destruct (schemaValid PermissionModel _); [|discriminate].
      intros [= <- <-]. split; [done|]. split; [by rewrite !lookup_insert_ne|].
      intros matrix' [= <-]. rewrite Hcast. split; [eauto|].
      by rewrite lookup_insert_ne, lookup_insert_eq.
    - destruct (schemaValid PermissionModel _); [|discriminate].
      intros [= <- <-]. split; [done|]. split; [by rewrite lookup_insert_ne|].
      intros matrix [=]. }
  destruct (permissions db !! userId) as [p0|] eqn:Hp0.
  - destruct (truthy (p0 !! "isActive")) eqn:Hactive; [|discriminate]. by apply Hupdate.
  - apply Hupdate. cbn [list_to_map foldr]. by simplify_map_eq.
Qed.

(** An ORG_ADMIN writes overrides only for PROJECT_MANAGERs and EMPLOYEEs of
    the request's tenant: when [updateUserPermissions] or
    [resetUserPermissions] answers an ORG_ADMIN 200 the target is such a
    user, and in every case the handlers leave the users, projects, tasks
    and audit log as they were and touch no override but the target's. *)
Theorem org_admin_writes_overrides_in_own_tenant (h : Handler) (req : Request) (db : Db)
    (u : Principal) :
  h ∈ [updateUserPermissions schemaValid; resetUserPermissions schemaValid] ->
  req_user req = Some u ->
  user_role u = "ORG_ADMIN" ->
  (statusOf (h req db).1 = Some 200 ->
   exists userId user,
     req_params req !! "userId" = Some userId
     /\ users db !! userId = Some user
     /\ (field "role" user = Some "PROJECT_MANAGER" \/ field "role" user = Some "EMPLOYEE")
     /\ field "tenantId" user = req_tenantId req)
  /\ users (h req db).2 = users db
  /\ projects (h req db).2 = projects db
  /\ tasks (h req db).2 = tasks db
  /\ auditLogs (h req db).2 = auditLogs db
  /\ (forall other, req_params req !! "userId" <> Some other ->
                    permissions (h req db).2 !! other = permissions db !! other).
Proof.
  intros Hh Hu Hr.
  assert (forall user (m1 m2 : string),
            orgAdminScope u req user m1 m2 = None ->
            (field "role" user = Some "PROJECT_MANAGER" \/ field "role" user = Some "EMPLOYEE")
            /\ field "tenantId" user = req_tenantId req) as Hscope.
  { intros user m1 m2. unfold orgAdminScope. rewrite Hr, bool_decide_eq_true_2 by done.
    destruct (bool_decide (field "role" user ≠ Some "PROJECT_MANAGER")) eqn:H1;
      [destruct (bool_decide (field "role" user ≠ Some "EMPLOYEE")) eqn:H2|];
      cbn [andb]; try discriminate;
      (destruct (bool_decide (field "tenantId" user ≠ req_tenantId req)) eqn:H3;
       [discriminate|]); intros _;
      apply bool_decide_eq_false in H3;
      (split; [|by destruct (decide (field "tenantId" user = req_tenantId req))]).
    - right. apply bool_decide_eq_false in H2.
      by destruct (decide (field "role" user = Some "EMPLOYEE")).
    - left. apply bool_decide_eq_false in H1.
      by destruct (decide (field "role" user = Some "PROJECT_MANAGER")). }
  rewrite !elem_of_cons, elem_of_nil in Hh.
  destruct Hh as [->|[->|[]]]; [unfold updateUserPermissions|unfold resetUserPermissions];
    (destruct (req_params req !! "userId") as [userId|] eqn:Hid; [|by repeat split]);
    (destruct (users db !! userId) as [user|] eqn:Huser; [|by repeat split]);
    rewrite Hu;
    (destruct (orgAdminScope u req user _ _) as [denied|] eqn:Hs;
     [unfold orgAdminScope in Hs; rewrite Hr in Hs; repeat case_match; simplify_eq;
      by repeat split|]);
    apply Hscope in Hs as [Hrole Hten].
  - repeat (case_match; try by repeat split).
    match goal with H : upsertPermission _ _ _ _ _ = Some _ |- _ =>
      apply upsertPermission_Some in H as (-> & _ & _) end.
    cbn [fst snd users projects tasks auditLogs permissions setPermissions].
    split; [intros _; by exists userId, user|]. repeat split.
    intros other Hother. rewrite lookup_insert_ne; [done|congruence].
  - repeat (case_match; try by repeat split).
    match goal with H : upsertPermission _ _ _ _ _ = Some _ |- _ =>
      apply upsertPermission_Some in H as (-> & _ & _) end.
    cbn [fst snd users projects tasks auditLogs permissions setPermissions].
    split; [intros _; by exists userId, user|]. repeat split.
    intros other Hother. rewrite lookup_insert_ne; [done|congruence].
Qed.

(** What a list cast entry by entry under its keys holds. *)
Lemma mapM_keyed {A B} (f : A -> option (string * B)) (key : A -> string) (l : list A)
    (r : list (string * B)) :
  (forall a kv, f a = Some kv -> kv.1 = key a) ->
  mapM f l = Some r ->
  r.*1 = key <$> l
  /\ forall a, a ∈ l -> exists b, f a = Some (key a, b) /\ (key a, b) ∈ r.
Proof.
  intros Hkey Hr. apply mapM_Some in Hr.
  induction Hr as [|a kv l r Ha Hr IH].
  - split; [done|]. intros a Ha. by apply elem_of_nil in Ha.
  - destruct IH as [IH1 IH2]. split.
    + cbn. rewrite IH1. f_equal. by apply Hkey.
    + intros a' Hin. apply elem_of_cons in Hin as [->|Hin].
      * destruct kv as [k b]. pose proof (Hkey _ _ Ha) as Hk. cbn in Hk. subst k.
        exists b. split; [done|]. by left.
      * destruct (IH2 a' Hin) as (b & Hb & Hin'). exists b. split; [done|]. by right.
Qed.

(** A category as the schema holds it: the operations the schema names,
    each with the Boolean cast of the value given or [false]. *)
Lemma castCategory_Some (ops : list string) (v : option Json) (category : Json) :
  NoDup ops ->
  castCategory ops v = Some category ->
  keysOf (Some category) = list_to_set ops
  /\ forall op, op ∈ ops ->
       prop op (Some category)
       = match prop op v with
         | Some x => castBoolean x
         | None => Some (JBool false)
         end.
Proof.
  intros Hnodup. unfold castCategory.
  set (leaf (o : gmap string Json) (op : string) :=
         match o !! op with
         | Some x => pair op <$> castBoolean x
         | None => Some (op, JBool false)
         end).
  assert (forall o l, mapM (leaf o) ops = Some l ->
            keysOf (Some (obj l)) = list_to_set ops
            /\ forall op, op ∈ ops ->
                 prop op (Some (obj l))
                 = match o !! op with
                   | Some x => castBoolean x
                   | None => Some (JBool false)
                   end) as Hleaves.
  { intros o l Hl.
    destruct (mapM_keyed (leaf o) id ops l) as [Hkeys Hvalues]; [|done|].
    { intros op kv. unfold leaf. destruct (o !! op) as [x|]; [|by intros [= <-]].
      destruct (castBoolean x); [|discriminate]. by intros [= <-]. }
    rewrite list_fmap_id in Hkeys. split.
    - unfold keysOf, obj. by rewrite dom_list_to_map_L, Hkeys.
    - intros op Hop. destruct (Hvalues op Hop) as (b & Hb & Hin). cbn [id] in *.
      unfold prop, obj. rewrite (elem_of_list_to_map_1 l op b) by (by rewrite ?Hkeys).
      unfold leaf in Hb. destruct (o !! op) as [x|]; [|by injection Hb as <-].
      destruct (castBoolean x); [|discriminate]. by injection Hb as <-. }
  destruct v as [[| | | | |o]|]; try discriminate.
  - destruct (mapM _ ops) as [l|] eqn:Hl; [|discriminate]. intros [= <-].
    by apply (Hleaves o).
  - intros [= <-].
    destruct (Hleaves ∅ ((fun op => (op, JBool false)) <$> ops)) as [H1 H2]; [|done].
    apply mapM_Some. apply Forall2_fmap_r, Forall_Forall2_diag, Forall_forall.
    intros op _. unfold leaf. by rewrite lookup_empty.
Qed.

(** A matrix as the schema holds it: the categories the schema names, each
    with the operations the schema names for it. *)
Lemma castPermissions_Some (perms matrix : Json) :
  castPermissions perms = Some matrix ->
  keysOf (Some matrix) = list_to_set permissionShape.*1
  /\ forall category ops op,
       (category, ops) ∈ permissionShape ->
       keysOf (prop category (Some matrix)) = list_to_set ops
       /\ (op ∈ ops ->
           prop op (prop category (Some matrix))
           = match prop op (prop category (Some perms)) with
             | Some x => castBoolean x
             | None => Some (JBool false)
             end).
Proof.
  unfold castPermissions. destruct perms as [| | | | |m]; try discriminate.
  destruct (mapM _ permissionShape) as [l|] eqn:Hl; [|discriminate]. intros [= <-].
  destruct (mapM_keyed
              (fun shape : string * list string =>
                 pair shape.1 <$> castCategory shape.2 (m !! shape.1))
              fst permissionShape l) as [Hkeys Hvalues]; [|done|].
  { intros shape kv. destruct (castCategory _ _); [|discriminate]. by intros [= <-]. }
  assert (NoDup l.*1) as Hnodup by (rewrite Hkeys; vm_compute; repeat constructor;
    rewrite ?elem_of_cons, ?elem_of_nil; intuition discriminate).
  split.
  - unfold keysOf, obj. by rewrite dom_list_to_map_L, Hkeys.
  - intros category ops op Hshape.
    destruct (Hvalues _ Hshape) as (b & Hb & Hin). cbn [fst snd] in *.
    destruct (castCategory ops (m !! category)) as [cat|] eqn:Hcat; [|discriminate].
    injection Hb as <-.
    assert (prop category (Some (obj l)) = Some cat) as ->
      by (unfold prop, obj; by apply elem_of_list_to_map_1).
    assert (NoDup ops) as Hops.
    { unfold permissionShape in Hshape. rewrite !elem_of_cons, elem_of_nil in Hshape.
      destruct Hshape
        as [[= _ ->]|[[= _ ->]|[[= _ ->]|[[= _ ->]|[[= _ ->]|[[= _ ->]|[]]]]]]];
        repeat constructor; rewrite ?elem_of_cons, ?elem_of_nil; intuition discriminate. }
    destruct (castCategory_Some ops (m !! category) cat Hops Hcat) as [Hdom Hleaf].
    split; [done|]. intros Hop. by rewrite (Hleaf op Hop).
Qed.

(** An override that [updateUserPermissions] stored is what
    [getUserPermissions] then returns: after a 200 for a body with a
    [permissions] matrix, reading the same user answers 200 with
    [isDefault] false and the matrix as the Permission schema holds it, that
    is, with the categories and operations the schema names and no other,
    each operation with the Boolean cast of the body's entry or, where the
    body has none, [false]. *)
Theorem getUserPermissions_returns_what_was_set (req : Request) (db : Db) (perms : Json) :
  req_body req !! "permissions" = Some perms ->
  statusOf (updateUserPermissions schemaValid req db).1 = Some 200 ->
  exists matrix,
    castPermissions perms = Some matrix
    /\ statusOf (getUserPermissions req (updateUserPermissions schemaValid req db).2).1
       = Some 200
    /\ prop "permissions"
         (dataOf (getUserPermissions req (updateUserPermissions schemaValid req db).2).1)
       = Some matrix
    /\ prop "isDefault"
         (dataOf (getUserPermissions req (updateUserPermissions schemaValid req db).2).1)
       = Some (JBool false)
    /\ keysOf (Some matrix) = list_to_set permissionShape.*1
    /\ (forall category ops op,
          (category, ops) ∈ permissionShape ->
          keysOf (prop category (Some matrix)) = list_to_set ops
          /\ (op ∈ ops ->
              prop op (prop category (Some matrix))
              = match prop op (prop category (Some perms)) with
                | Some x => castBoolean x
                | None => Some (JBool false)
                end)).
Proof.
  intros Hperms. unfold updateUserPermissions. rewrite Hperms.
  destruct (req_params req !! "userId") as [userId|] eqn:Hid; [|discriminate].
  destruct (users db !! userId) as [user|] eqn:Huser; [|discriminate].
  destruct (req_user req) as [u|] eqn:Hu; [|discriminate].
  destruct (orgAdminScope u req user _ _) as [denied|] eqn:Hs.
  { unfold orgAdminScope in Hs. repeat case_match; simplify_eq; discriminate. }
  destruct (_ && _); [discriminate|]. destruct (_ && _); [discriminate|].
  destruct (upsertPermission _ _ _ _ _) as [[stored db']|] eqn:Hup; [|discriminate].
  intros _. apply upsertPermission_Some in Hup as (-> & Hactive & Hstored).
  destruct (Hstored perms eq_refl) as [[matrix Hcast] Hmatrix]. rewrite Hcast in Hmatrix.
  exists matrix. split; [done|]. cbn [fst snd].
  unfold getUserPermissions. rewrite Hid. cbn [users setPermissions]. rewrite Huser, Hu.
  assert (orgAdminScope u req user
            "You can only view permissions for PROJECT_MANAGER and EMPLOYEE users"
            "You can only view permissions for users in your tenant" = None) as ->.
  { unfold orgAdminScope in *. repeat case_match; simplify_eq; done. }
  unfold findActivePermission. cbn [permissions setPermissions].
  rewrite lookup_insert_eq, Hactive. cbn [fst statusOf dataOf].
  split; [done|]. rewrite !prop_obj_cons. rewrite decide_False, decide_True by done.
  split; [|split; [|by apply castPermissions_Some]].
  - unfold prop, optField. rewrite Hmatrix.
    destruct (stored !! "userId"); by simplify_map_eq.
  - unfold prop, optField. rewrite Hmatrix.
    destruct (stored !! "userId"); by simplify_map_eq.
Qed.

End PermissionWrites.

(** The sample deployment meets the hypotheses of the two theorems above. *)
Lemma org_admin_writes_overrides_in_own_tenant_witness :
  (statusOf (resetUserPermissions requiredAndEnums
               (Fixture.call Sample.admin "acme" [("userId", "u-pm")] []) Sample.world).1
   = Some 200 ->
   exists userId user,
     req_params (Fixture.call Sample.admin "acme" [("userId", "u-pm")] []) !! "userId"
     = Some userId
     /\ users Sample.world !! userId = Some user
     /\ (field "role" user = Some "PROJECT_MANAGER" \/ field "role" user = Some "EMPLOYEE")
     /\ field "tenantId" user
        = req_tenantId (Fixture.call Sample.admin "acme" [("userId", "u-pm")] []))
  /\ users (resetUserPermissions requiredAndEnums
              (Fixture.call Sample.admin "acme" [("userId", "u-pm")] []) Sample.world).2
     = users Sample.world
  /\ projects (resetUserPermissions requiredAndEnums
                 (Fixture.call Sample.admin "acme" [("userId", "u-pm")] []) Sample.world).2
     = projects Sample.world
  /\ tasks (resetUserPermissions requiredAndEnums
              (Fixture.call Sample.admin "acme" [("userId", "u-pm")] []) Sample.world).2
     = tasks Sample.world
  /\ auditLogs (resetUserPermissions requiredAndEnums
                  (Fixture.call Sample.admin "acme" [("userId", "u-pm")] []) Sample.world).2
     = auditLogs Sample.world
  /\ (forall other,
        req_params (Fixture.call Sample.admin "acme" [("userId", "u-pm")] []) !! "userId"
        <> Some other ->
        permissions (resetUserPermissions requiredAndEnums
                       (Fixture.call Sample.admin "acme" [("userId", "u-pm")] [])
                       Sample.world).2 !! other
        = permissions Sample.world !! other).
Proof.
  apply (org_admin_writes_overrides_in_own_tenant requiredAndEnums
           (resetUserPermissions requiredAndEnums)
           (Fixture.call Sample.admin "acme" [("userId", "u-pm")] []) Sample.world
           Sample.admin).
  - listed.
  - reflexivity.
  - reflexivity.
Defined.

(** The sample deployment meets the hypotheses of the corresponding
    theorem; the matrix set leaves out [viewAuditLogs], writes one entry as
    a string and names a capability the schema does not have. *)
Lemma getUserPermissions_returns_what_was_set_witness :
  let perms :=
    obj [("manageTenants", crud false false false false);
         ("manageUsers", crud false false false false);
         ("manageProjects", crud true true true false);
         ("manageTasks", obj [("create", JStr "yes"); ("read", JBool true);
                              ("update", JBool true); ("delete", JBool false);
                              ("archive", JBool true)]);
         ("viewReports", readOnly true)] in
  let req := Fixture.call Sample.admin "acme" [("userId", "u-pm")] [("permissions", perms)] in
  exists matrix,
    castPermissions perms = Some matrix
    /\ statusOf (getUserPermissions req
                   (updateUserPermissions requiredAndEnums req Sample.world).2).1
       = Some 200
    /\ prop "permissions"
         (dataOf (getUserPermissions req
                    (updateUserPermissions requiredAndEnums req Sample.world).2).1)
       = Some matrix
    /\ prop "isDefault"
         (dataOf (getUserPermissions req
                    (updateUserPermissions requiredAndEnums req Sample.world).2).1)
       = Some (JBool false)
    /\ keysOf (Some matrix) = list_to_set permissionShape.*1
    /\ (forall category ops op,
          (category, ops) ∈ permissionShape ->
          keysOf (prop category (Some matrix)) = list_to_set ops
          /\ (op ∈ ops ->
              prop op (prop category (Some matrix))
              = match prop op (prop category (Some perms)) with
                | Some x => castBoolean x
                | None => Some (JBool false)
                end)).
Proof.
  cbv zeta.
  apply (getUserPermissions_returns_what_was_set requiredAndEnums
           (Fixture.call Sample.admin "acme" [("userId", "u-pm")]
              [("permissions",
                obj [("manageTenants", crud false false false false);
                     ("manageUsers", crud false false false false);
                     ("manageProjects", crud true true true false);
                     ("manageTasks", obj [("create", JStr "yes"); ("read", JBool true);
                                          ("update", JBool true); ("delete", JBool false);
                                          ("archive", JBool true)]);
                     ("viewReports", readOnly true)])])
           Sample.world).
  - apply lookup_insert_eq.
  - vm_compute. reflexivity.
Defined.
